(** * solhub-backend: presence binding and message fan-out

    A shallow embedding of the socket handlers, of start-up and of the
    routes of [server.js] that write (messages, channels, voice channels,
    roles), with the Mongoose models they use, followed by the properties
    of the specification that concern them and by further properties of
    the server.

    The store is a set of document lists in natural (insertion) order;
    [activeConnections] is the in-memory [Map] of the server.  Every
    awaited store call is a point where the driver may throw: the world
    carries the schedule of those failures, so that every statement
    quantifies over them.  An event is handled to its end before the next
    one is taken: handlers are not interleaved at their [await]s. *)

From Stdlib Require Import ZArith Ascii String.
From stdpp Require Import gmap strings list fin_maps.

Local Open Scope string_scope.
Local Open Scope list_scope.

(** ** JavaScript strings

    Strings are sequences of code units below 256, one [ascii] each. *)

Module Js.

(** White space of [String.prototype.trim] in that range: TAB, LF, VT,
    FF, CR, SPACE and NBSP. *)
Definition isWhiteSpace (c : ascii) : bool :=
  let n := nat_of_ascii c in
  Nat.eqb n 9 || Nat.eqb n 10 || Nat.eqb n 11 || Nat.eqb n 12
  || Nat.eqb n 13 || Nat.eqb n 32 || Nat.eqb n 160.

Fixpoint trimStart (s : string) : string :=
  match s with
  | EmptyString => EmptyString
  | String c r => if isWhiteSpace c then trimStart r else s
  end.

Definition trimEnd (s : string) : string :=
  String.rev (trimStart (String.rev s)).

Definition trim (s : string) : string := trimEnd (trimStart s).

(** [String.prototype.toLowerCase] in that range: A-Z and the capital
    letters of Latin-1 (all of 0xC0-0xDE but the multiplication sign). *)
Definition toLowerChar (c : ascii) : ascii :=
  let n := nat_of_ascii c in
  if (Nat.leb 65 n && Nat.leb n 90)
     || (Nat.leb 192 n && Nat.leb n 222 && negb (Nat.eqb n 215))
  then ascii_of_nat (n + 32)
  else c.

Fixpoint toLowerCase (s : string) : string :=
  match s with
  | EmptyString => EmptyString
  | String c r => String (toLowerChar c) (toLowerCase r)
  end.

(** Truthiness of a possibly absent string: [undefined], [null] and the
    empty string are falsy. *)
Definition truthy (v : option string) : bool :=
  match v with
  | Some s => negb (String.eqb s "")
  | None => false
  end.

(** [v || d] with a string default. *)
Definition orElse (v : option string) (d : string) : string :=
  match v with
  | Some s => if String.eqb s "" then d else s
  | None => d
  end.

(** [v || null]. *)
Definition orNull (v : option string) : option string :=
  if truthy v then v else None.

End Js.

(** ** Documents *)

Definition ObjectId := nat.
Definition SocketId := string.
Definition Date := Z.

(** Modelled from the spec: the User schema ([models/User.js] is not among
    the sources).  The specification lists a unique username, a unique
    wallet address, an optional avatar, an optional role label, the online
    flag, the optional live-connection identifier and the last-seen and
    joined timestamps. *)
Record User := mkUser {
  u_id : ObjectId;
  u_username : string;
  u_walletAddress : string;
  u_avatar : option string;
  u_role : option string;
  u_isOnline : bool;
  u_socketId : option SocketId;
  u_lastSeen : Date;
  u_joinedAt : Date
}.

(** [messageSchema] *)
Record Message := mkMessage {
  m_id : ObjectId;
  m_username : string;
  m_text : string;
  m_channel : string;
  m_avatar : option string;
  m_isBroadcast : bool;
  m_userId : ObjectId;
  m_timestamp : Date
}.

(** [channelSchema] *)
Record Channel := mkChannel {
  c_id : ObjectId;
  c_name : string;
  c_description : string;
  c_isActive : bool;
  c_messageCount : Z;
  c_lastMessageAt : option Date;
  c_createdBy : ObjectId
}.

(** [voiceChannelSchema] *)
Record VoiceChannel := mkVoiceChannel {
  v_id : ObjectId;
  v_name : string;
  v_description : string;
  v_isActive : bool;
  v_participants : list ObjectId;
  v_maxParticipants : Z;
  v_isPrivate : bool;
  v_createdBy : ObjectId
}.

(** [const channels = ['general', 'trading', 'nft', 'defi', 'announcements']] *)
Definition channels : list string :=
  ["general"; "trading"; "nft"; "defi"; "announcements"].

(** The [enum] of [messageSchema.channel] (the same five names, written out
    in the schema). *)
Definition messageChannelEnum : list string :=
  ["general"; "trading"; "nft"; "defi"; "announcements"].

(** ** Signals sent to clients *)

Inductive Target :=
| ToSender (s : SocketId)   (* socket.emit *)
| ToOthers (s : SocketId)   (* socket.broadcast.emit *)
| ToAll.                    (* io.emit *)

Inductive Signal :=
| userJoined (username : string) (avatar : option string) (isOnline : bool)
| userLeft (username : string) (avatar : option string)
| joinError (error : string)
| newMessage (id : ObjectId) (username text : string) (timestamp : Date)
    (avatar : option string) (channel : string) (isBroadcast : bool)
| messageError (error : string)
| userTyping (userId : ObjectId) (isTyping : bool).

Record Emission := mkEmission { e_target : Target; e_signal : Signal }.

(** ** The world *)

Record World := mkWorld {
  activeConnections : gmap SocketId ObjectId;
  Users : list User;
  Messages : list Message;
  Channels : list Channel;
  VoiceChannels : list VoiceChannel;
  nextId : ObjectId;        (* next fresh ObjectId *)
  clock : Date;             (* what Date.now() returns *)
  faults : list bool        (* does the next store call throw? *)
}.

Definition setConnections (f : gmap SocketId ObjectId → gmap SocketId ObjectId)
    (w : World) : World :=
  mkWorld (f (activeConnections w)) (Users w) (Messages w) (Channels w)
          (VoiceChannels w) (nextId w) (clock w) (faults w).

Definition setUsers (f : list User → list User) (w : World) : World :=
  mkWorld (activeConnections w) (f (Users w)) (Messages w) (Channels w)
          (VoiceChannels w) (nextId w) (clock w) (faults w).

Definition setMessages (f : list Message → list Message) (w : World) : World :=
  mkWorld (activeConnections w) (Users w) (f (Messages w)) (Channels w)
          (VoiceChannels w) (nextId w) (clock w) (faults w).

Definition setVoiceChannels (f : list VoiceChannel → list VoiceChannel)
    (w : World) : World :=
  mkWorld (activeConnections w) (Users w) (Messages w) (Channels w)
          (f (VoiceChannels w)) (nextId w) (clock w) (faults w).

Definition setChannels (f : list Channel → list Channel) (w : World) : World :=
  mkWorld (activeConnections w) (Users w) (Messages w) (f (Channels w))
          (VoiceChannels w) (nextId w) (clock w) (faults w).

(** ** Handlers: state, emitted signals and exceptions

    A handler threads the world and the signals emitted so far; it ends
    normally with a value or by throwing.  What was written to the store
    before a [throw] stays written. *)

Inductive Outcome (A : Type) :=
| Done (a : A) (w : World) (out : list Emission)
| Thrown (w : World) (out : list Emission).
Arguments Done {A} a w out.
Arguments Thrown {A} w out.

Definition Handler (A : Type) := World → list Emission → Outcome A.

Definition ret {A} (a : A) : Handler A := fun w out => Done a w out.

Definition bind {A B} (m : Handler A) (k : A → Handler B) : Handler B :=
  fun w out =>
    match m w out with
    | Done a w' out' => k a w' out'
    | Thrown w' out' => Thrown w' out'
    end.

Definition throw {A} : Handler A := fun w out => Thrown w out.

(** [try { body } catch (error) { handler }] *)
Definition tryCatch {A} (body handler : Handler A) : Handler A :=
  fun w out =>
    match body w out with
    | Done a w' out' => Done a w' out'
    | Thrown w' out' => handler w' out'
    end.

Definition gets {A} (f : World → A) : Handler A := fun w out => Done (f w) w out.

Definition modify (f : World → World) : Handler unit :=
  fun w out => Done tt (f w) out.

Definition emit (t : Target) (s : Signal) : Handler unit :=
  fun w out => Done tt w (out ++ [mkEmission t s]).

(** The handlers are written with stdpp's monad notations
    [x ← m; k] and [m ;; k]. *)
#[global] Instance Handler_ret : MRet Handler := @ret.
#[global] Instance Handler_bind : MBind Handler := fun A B k m => bind m k.

(** Running an event handler: an exception that escapes is dropped. *)
Definition run (h : Handler unit) (w : World) : World * list Emission :=
  match h w [] with
  | Done _ w' out => (w', out)
  | Thrown w' out => (w', out)
  end.

(** ** The store *)

(** One round trip to the database: it throws when the schedule says so. *)
Definition storeCall : Handler unit :=
  fun w out =>
    let w' := mkWorld (activeConnections w) (Users w) (Messages w) (Channels w)
                      (VoiceChannels w) (nextId w) (clock w) (tail (faults w)) in
    match faults w with
    | true :: _ => Thrown w' out
    | _ => Done tt w' out
    end.

(** A fresh [_id] for [new Model(...)]. *)
Definition freshId : Handler ObjectId :=
  fun w out =>
    Done (nextId w)
         (mkWorld (activeConnections w) (Users w) (Messages w) (Channels w)
                  (VoiceChannels w) (S (nextId w)) (clock w) (faults w)) out.

Definition now : Handler Date := gets clock.

(** Replace the first document with the identifier of [d], or append [d]
    when there is none: what [save] does to the collection. *)
Fixpoint upsert {D} (id : D → ObjectId) (d : D) (ds : list D) : list D :=
  match ds with
  | [] => [d]
  | x :: r => if Nat.eqb (id x) (id d) then d :: r else x :: upsert id d r
  end.

Definition lookupById {D} (id : D → ObjectId) (i : ObjectId) (ds : list D) : option D :=
  find (fun d => Nat.eqb (id d) i) ds.

Fixpoint deleteById {D} (id : D → ObjectId) (i : ObjectId) (ds : list D) : list D :=
  match ds with
  | [] => []
  | x :: r => if Nat.eqb (id x) i then r else x :: deleteById id i r
  end.

Module UserModel.

(** [User.findOne({ $or: [{ username }, { walletAddress }] })] *)
Definition matchesEither (username walletAddress : string) (u : User) : bool :=
  String.eqb (u_username u) username
  || String.eqb (u_walletAddress u) walletAddress.

Definition findOneByUsernameOrWallet (username walletAddress : string)
    : Handler (option User) :=
  storeCall ;;
  gets (fun w => find (matchesEither username walletAddress) (Users w)).

(** [User.findOne({ username })] *)
Definition findOneByUsername (username : string) : Handler (option User) :=
  storeCall ;;
  gets (fun w => find (fun u => String.eqb (u_username u) username) (Users w)).

(** [User.findById(id)] *)
Definition findById (i : ObjectId) : Handler (option User) :=
  storeCall ;;
  gets (fun w => lookupById u_id i (Users w)).

(** Modelled from the spec: [new User({...})] of the absent schema gives a
    fresh identifier and lets both timestamps default to now. *)
Definition new (username walletAddress : string) (avatar role : option string)
    (isOnline : bool) (socketId : option SocketId) : Handler User :=
  i ← freshId;
  t ← now;
  ret (mkUser i username walletAddress avatar role isOnline socketId t t).

(** Modelled from the spec: the unique indexes of the User schema, on the
    username and on the wallet address. Would inserting [u] break one? *)
Definition duplicateKey (u : User) (us : list User) : bool :=
  existsb (fun v => String.eqb (u_username v) (u_username u)
                    || String.eqb (u_walletAddress v) (u_walletAddress u)) us.

(** [user.save()]: an update of the stored document with this [_id]; an
    insert, checked against the unique indexes, when there is none. *)
Definition save (u : User) : Handler unit :=
  storeCall ;;
  us ← gets Users;
  match lookupById u_id (u_id u) us with
  | Some _ => modify (setUsers (upsert u_id u))
  | None =>
      if duplicateKey u us then throw
      else modify (setUsers (upsert u_id u))
  end.

End UserModel.

Module MessageModel.

(** [new Message({...})]: [trim] is a setter of [username] and [text];
    [timestamp] defaults to [Date.now]. An absent [text] is kept as the
    empty string, which [required] rejects as it rejects [undefined]. *)
Definition new (username text channel : string) (avatar : option string)
    (userId : ObjectId) (isBroadcast : bool) : Handler Message :=
  i ← freshId;
  t ← now;
  ret (mkMessage i (Js.trim username) (Js.trim text) channel avatar
                 isBroadcast userId t).

(** The validators of [messageSchema] on [username] ([required]) and
    [text] ([required], [maxlength: 1000]). *)
Definition validContent (username text : string) : bool :=
  negb (String.eqb username "")
  && negb (String.eqb text "")
  && Nat.leb (String.length text) 1000.

(** With those on [channel]: [required] and [enum]. *)
Definition validate (m : Message) : bool :=
  validContent (m_username m) (m_text m)
  && bool_decide (m_channel m ∈ messageChannelEnum).

(** [message.save()]: validation, then the insert. *)
Definition save (m : Message) : Handler unit :=
  if validate m then
    storeCall ;;
    modify (setMessages (fun ms => ms ++ [m]))
  else throw.

(** [Message.deleteMany({ channel })], returning [deletedCount]. *)
Definition deleteManyByChannel (channel : string) : Handler nat :=
  storeCall ;;
  ms ← gets Messages;
  modify (setMessages (filter (fun m => m_channel m ≠ channel))) ;;
  ret (length (filter (fun m => m_channel m = channel) ms)).

End MessageModel.

Module ChannelModel.

(** The first channel named [name], as [findOne({ name })] and
    [findOneAndUpdate({ name }, ...)] pick it. *)
Definition firstNamed (name : string) (cs : list Channel) : option Channel :=
  find (fun c => String.eqb (c_name c) name) cs.

Definition findOneByName (name : string) : Handler (option Channel) :=
  storeCall ;;
  gets (fun w => firstNamed name (Channels w)).

Definition findById (i : ObjectId) : Handler (option Channel) :=
  storeCall ;;
  gets (fun w => lookupById c_id i (Channels w)).

(** [new Channel({ name, description, createdBy })]: [trim] and
    [lowercase] are setters of [name], [trim] of [description]. *)
Definition new (name description : string) (createdBy : ObjectId)
    : Handler Channel :=
  i ← freshId;
  ret (mkChannel i (Js.toLowerCase (Js.trim name)) (Js.trim description)
                 true 0%Z None createdBy).

(** The validators of [channelSchema]: [required] on [name],
    [maxlength: 200] on [description]. *)
Definition validate (c : Channel) : bool :=
  negb (String.eqb (c_name c) "")
  && Nat.leb (String.length (c_description c)) 200.

(** [channel.save()] of a new document: validation, then the insert;
    [name] is a unique index. *)
Definition save (c : Channel) : Handler unit :=
  if validate c then
    storeCall ;;
    cs ← gets Channels;
    if existsb (fun x => String.eqb (c_name x) (c_name c)) cs then throw
    else modify (setChannels (fun cs => cs ++ [c]))
  else throw.

Definition touch (t : Date) (c : Channel) : Channel :=
  mkChannel (c_id c) (c_name c) (c_description c) (c_isActive c)
            (c_messageCount c + 1)%Z (Some t) (c_createdBy c).

(** The first channel named [name] gets the update. *)
Fixpoint updateFirst (name : string) (t : Date) (cs : list Channel)
    : list Channel :=
  match cs with
  | [] => []
  | c :: r =>
      if String.eqb (c_name c) name then touch t c :: r
      else c :: updateFirst name t r
  end.

(** [Channel.findOneAndUpdate({ name },
      { lastMessageAt: t, $inc: { messageCount: 1 } })] *)
Definition findOneAndUpdateByName (name : string) (t : Date) : Handler unit :=
  storeCall ;;
  modify (setChannels (updateFirst name t)).

(** [Channel.findByIdAndDelete(id)] *)
Definition findByIdAndDelete (i : ObjectId) : Handler unit :=
  storeCall ;;
  modify (setChannels (deleteById c_id i)).

End ChannelModel.

Module VoiceChannelModel.

Definition findOneByName (name : string) : Handler (option VoiceChannel) :=
  storeCall ;;
  gets (fun w => find (fun v => String.eqb (v_name v) name) (VoiceChannels w)).

(** [new VoiceChannel({ name, description, createdBy })]: [trim] is a
    setter of [name] and [description]; [maxParticipants] defaults to 10. *)
Definition new (name description : string) (createdBy : ObjectId)
    : Handler VoiceChannel :=
  i ← freshId;
  ret (mkVoiceChannel i (Js.trim name) (Js.trim description) true [] 10%Z
                      false createdBy).

(** The validators of [voiceChannelSchema]: [required] on [name],
    [maxlength: 200] on [description]. *)
Definition validate (v : VoiceChannel) : bool :=
  negb (String.eqb (v_name v) "")
  && Nat.leb (String.length (v_description v)) 200.

(** [voiceChannel.save()] of a new document: validation, then the insert;
    [name] is a unique index. *)
Definition save (v : VoiceChannel) : Handler unit :=
  if validate v then
    storeCall ;;
    vs ← gets VoiceChannels;
    if existsb (fun x => String.eqb (v_name x) (v_name v)) vs then throw
    else modify (setVoiceChannels (fun vs => vs ++ [v]))
  else throw.

End VoiceChannelModel.

(** [for (const x of l) { f(x) }] *)
Fixpoint forEach {A} (l : list A) (f : A → Handler unit) : Handler unit :=
  match l with
  | [] => ret tt
  | x :: r => f x ;; forEach r f
  end.

(** ** Start-up: [initializeChannels] (second server) *)

Definition defaultVoiceChannels : list (string * string) :=
  [ ("VOICE_CALL_#1*", "General voice chat room");
    ("VOICE_CALL_#2*", "Trading discussion voice room");
    ("VOICE_CALL_#3*", "Community voice room") ].

Definition initializeChannels : Handler unit :=
  tryCatch
    (found ← UserModel.findOneByUsername "system";
     systemUser ←
       match found with
       | Some u => ret u
       | None =>
           u ← UserModel.new "system"
                 "0x0000000000000000000000000000000000000000"
                 None None false None;
           UserModel.save u ;;
           ret u
       end;
     forEach channels (fun channelName =>
       existingChannel ← ChannelModel.findOneByName channelName;
       match existingChannel with
       | Some _ => ret tt
       | None =>
           channel ← ChannelModel.new channelName
                       ("Default " ++ channelName ++ " channel")
                       (u_id systemUser);
           ChannelModel.save channel
       end) ;;
     forEach defaultVoiceChannels (fun voiceChannelData =>
       existingVoiceChannel ← VoiceChannelModel.findOneByName voiceChannelData.1;
       match existingVoiceChannel with
       | Some _ => ret tt
       | None =>
           voiceChannel ← VoiceChannelModel.new voiceChannelData.1
                            voiceChannelData.2 (u_id systemUser);
           VoiceChannelModel.save voiceChannel
       end))
    (ret tt).

(** ** Socket events *)

(** The payload of [join]: [{username, walletAddress, avatar?, role?}],
    [null] for an explicit leave, or nothing usable. *)
Record JoinData := mkJoinData {
  jd_username : option string;
  jd_walletAddress : option string;
  jd_avatar : option string;
  jd_role : option string
}.

Inductive JoinPayload :=
| JoinObject (userData : JoinData)
| JoinNull
| JoinUndefined.

(** The payload of [sendMessage] and [broadcastMessage]: [{text, channel?}];
    [None] stands for [null] or [undefined], on which reading [.text]
    throws. *)
Record MessageData := mkMessageData {
  md_text : option string;
  md_channel : option string
}.

Definition userNotFound : Signal :=
  messageError "User not found. Please reconnect.".

(** The fields of a [newMessage] signal, read off a message document. *)
Definition newMessageOf (message : Message) : Signal :=
  newMessage (m_id message) (m_username message) (m_text message)
             (m_timestamp message) (m_avatar message) (m_channel message)
             (m_isBroadcast message).

(** The offline transition shared by the explicit leave and [disconnect]:
    [user.isOnline = false; user.socketId = null]. *)
Definition wentOffline (user : User) : User :=
  mkUser (u_id user) (u_username user) (u_walletAddress user) (u_avatar user)
         (u_role user) false None (u_lastSeen user) (u_joinedAt user).

(** [socket.on('join', ...)] of the second server. *)
Definition join (socket : SocketId) (userData : JoinPayload) : Handler unit :=
  tryCatch
    (match userData with
     | JoinObject d =>
         if Js.truthy (jd_username d) && Js.truthy (jd_walletAddress d) then
           let username := default "" (jd_username d) in
           let walletAddress := default "" (jd_walletAddress d) in
           found ← UserModel.findOneByUsernameOrWallet username walletAddress;
           user ←
             match found with
             | None =>
                 user ← UserModel.new username walletAddress
                          (Js.orNull (jd_avatar d))
                          (Some (Js.orElse (jd_role d) "user"))
                          true (Some socket);
                 UserModel.save user ;;
                 ret user
             | Some user =>
                 t ← now;
                 let user :=
                   mkUser (u_id user) (u_username user) (u_walletAddress user)
                          (if Js.truthy (jd_avatar d) then jd_avatar d
                           else u_avatar user)
                          (if Js.truthy (jd_role d) then jd_role d
                           else u_role user)
                          true (Some socket) t (u_joinedAt user) in
                 UserModel.save user ;;
                 ret user
             end;
           modify (setConnections <[socket := u_id user]>) ;;
           emit (ToOthers socket)
                (userJoined (u_username user) (u_avatar user) true)
         else ret tt
     | JoinNull =>
         userId ← gets (fun w => activeConnections w !! socket);
         match userId with
         | Some userId =>
             found ← UserModel.findById userId;
             match found with
             | Some user =>
                 let user := wentOffline user in
                 UserModel.save user ;;
                 emit (ToOthers socket)
                      (userLeft (u_username user) (u_avatar user)) ;;
                 modify (setConnections (delete socket))
             | None => ret tt
             end
         | None => ret tt
         end
     | JoinUndefined => ret tt
     end)
    (emit (ToSender socket) (joinError "Failed to join. Please try again.")).

(** [socket.on('sendMessage', ...)] of the second server. *)
Definition sendMessage (socket : SocketId) (messageData : option MessageData)
    : Handler unit :=
  tryCatch
    (userId ← gets (fun w => activeConnections w !! socket);
     match userId with
     | None => emit (ToSender socket) userNotFound
     | Some userId =>
         found ← UserModel.findById userId;
         match found with
         | None => emit (ToSender socket) userNotFound
         | Some user =>
             if negb (u_isOnline user) then emit (ToSender socket) userNotFound
             else
               match messageData with
               | None => throw
               | Some md =>
                   message ← MessageModel.new (u_username user)
                               (default "" (md_text md))
                               (Js.orElse (md_channel md) "general")
                               (u_avatar user) (u_id user) false;
                   MessageModel.save message ;;
                   ChannelModel.findOneAndUpdateByName (m_channel message)
                                                       (m_timestamp message) ;;
                   emit ToAll (newMessageOf message)
               end
         end
     end)
    (emit (ToSender socket) (messageError "Server error processing message")).

(** One turn of the loop of [broadcastMessage]. *)
Definition broadcastOne (user : User) (messageData : option MessageData)
    (channelName : string) : Handler Signal :=
  match messageData with
  | None => throw
  | Some md =>
      message ← MessageModel.new (u_username user) (default "" (md_text md))
                  channelName (u_avatar user) (u_id user) true;
      MessageModel.save message ;;
      ChannelModel.findOneAndUpdateByName channelName (m_timestamp message) ;;
      ret (newMessageOf message)
  end.

(** [for (const channelName of channels) { ...; broadcastMessages.push(...) }] *)
Fixpoint broadcastLoop (user : User) (messageData : option MessageData)
    (names : list string) (broadcastMessages : list Signal)
    : Handler (list Signal) :=
  match names with
  | [] => ret broadcastMessages
  | channelName :: rest =>
      pushed ← broadcastOne user messageData channelName;
      broadcastLoop user messageData rest (broadcastMessages ++ [pushed])
  end.

(** [socket.on('broadcastMessage', ...)] of the second server. *)
Definition broadcastMessage (socket : SocketId)
    (messageData : option MessageData) : Handler unit :=
  tryCatch
    (userId ← gets (fun w => activeConnections w !! socket);
     match userId with
     | None => emit (ToSender socket) userNotFound
     | Some userId =>
         found ← UserModel.findById userId;
         match found with
         | None => emit (ToSender socket) userNotFound
         | Some user =>
             if negb (u_isOnline user) then emit (ToSender socket) userNotFound
             else
               broadcastMessages ← broadcastLoop user messageData channels [];
               forEach broadcastMessages (fun message => emit ToAll message)
         end
     end)
    (emit (ToSender socket)
          (messageError "Server error processing broadcast message")).

(** [socket.on('typing', ...)]: no [try], no store call. *)
Definition typing (socket : SocketId) (isTyping : bool) : Handler unit :=
  userId ← gets (fun w => activeConnections w !! socket);
  match userId with
  | Some userId => emit (ToOthers socket) (userTyping userId isTyping)
  | None => ret tt
  end.

(** [socket.on('disconnect', ...)] *)
Definition disconnect (socket : SocketId) : Handler unit :=
  tryCatch
    (userId ← gets (fun w => activeConnections w !! socket);
     match userId with
     | Some userId =>
         found ← UserModel.findById userId;
         match found with
         | Some user =>
             let user := wentOffline user in
             UserModel.save user ;;
             emit (ToOthers socket) (userLeft (u_username user) (u_avatar user))
         | None => ret tt
         end ;;
         modify (setConnections (delete socket))
     | None => ret tt
     end)
    (ret tt).

(** The first server of the source file: its [sendMessage] handler. *)
Module FirstServer.

Definition sendMessage (socket : SocketId) (messageData : option MessageData)
    : Handler unit :=
  tryCatch
    (userId ← gets (fun w => activeConnections w !! socket);
     match userId with
     | None => emit (ToSender socket) userNotFound
     | Some userId =>
         found ← UserModel.findById userId;
         match found with
         | None => emit (ToSender socket) userNotFound
         | Some user =>
             if negb (u_isOnline user) then emit (ToSender socket) userNotFound
             else
               match messageData with
               | None => throw
               | Some md =>
                   message ← MessageModel.new (u_username user)
                               (default "" (md_text md))
                               (Js.orElse (md_channel md) "general")
                               (u_avatar user) (u_id user) false;
                   MessageModel.save message ;;
                   ChannelModel.findOneAndUpdateByName (m_channel message)
                                                       (m_timestamp message) ;;
                   emit ToAll (newMessageOf message)
               end
         end
     end)
    (emit (ToSender socket) (messageError "Server error processing message")).

(** [initializeChannels] of the first server: the user [system] is looked
    up, and created when missing, inside the loop, for each channel that
    is missing. There are no voice channels. *)
Definition initializeChannels : Handler unit :=
  tryCatch
    (forEach channels (fun channelName =>
       existingChannel ← ChannelModel.findOneByName channelName;
       match existingChannel with
       | Some _ => ret tt
       | None =>
           found ← UserModel.findOneByUsername "system";
           systemUser ←
             match found with
             | Some u => ret u
             | None =>
                 u ← UserModel.new "system"
                       "0x0000000000000000000000000000000000000000"
                       None None false None;
                 UserModel.save u ;;
                 ret u
             end;
           channel ← ChannelModel.new channelName
                       ("Default " ++ channelName ++ " channel")
                       (u_id systemUser);
           ChannelModel.save channel
       end))
    (ret tt).

End FirstServer.

(** ** [DELETE /api/channels/:id]

    The route parameter is taken to be a well-formed identifier. *)

Inductive Response :=
| Deleted (name : string) (deletedMessages : nat)   (* 200, success: true *)
| NotFound                                          (* 404 *)
| ServerError.                                      (* 500 *)

Definition deleteChannel (channelId : ObjectId) : Handler Response :=
  tryCatch
    (found ← ChannelModel.findById channelId;
     match found with
     | None => ret NotFound
     | Some channel =>
         deletedCount ← MessageModel.deleteManyByChannel (c_name channel);
         ChannelModel.findByIdAndDelete channelId ;;
         ret (Deleted (c_name channel) deletedCount)
     end)
    (ret ServerError).

Definition runRoute (h : Handler Response) (w : World) : World * Response :=
  match h w [] with
  | Done r w' _ => (w', r)
  | Thrown w' _ => (w', ServerError)
  end.

(** ** The server as a transition system *)

Inductive Event :=
| Join (socket : SocketId) (userData : JoinPayload)
| SendMessage (socket : SocketId) (messageData : option MessageData)
| BroadcastMessage (socket : SocketId) (messageData : option MessageData)
| Typing (socket : SocketId) (isTyping : bool)
| Disconnect (socket : SocketId)
| DeleteChannel (channelId : ObjectId)
| Environment (time : Date) (storeFaults : list bool).

Definition step (w : World) (e : Event) : World :=
  match e with
  | Join socket userData => (run (join socket userData) w).1
  | SendMessage socket messageData => (run (sendMessage socket messageData) w).1
  | BroadcastMessage socket messageData =>
      (run (broadcastMessage socket messageData) w).1
  | Typing socket isTyping => (run (typing socket isTyping) w).1
  | Disconnect socket => (run (disconnect socket) w).1
  | DeleteChannel channelId => (runRoute (deleteChannel channelId) w).1
  | Environment time storeFaults =>
      mkWorld (activeConnections w) (Users w) (Messages w) (Channels w)
              (VoiceChannels w) (nextId w) time storeFaults
  end.

Definition steps (w : World) (es : list Event) : World := foldl step w es.

(** The process starts with an empty connection map; here also with an
    empty store, on which [initializeChannels] runs. *)
Definition emptyWorld (faults : list bool) : World :=
  mkWorld ∅ [] [] [] [] 0 0%Z faults.

Definition boot : World := (run initializeChannels (emptyWorld [])).1.

Definition alice : JoinPayload :=
  JoinObject (mkJoinData (Some "alice") (Some "0xAAA") None None).
Definition bob : JoinPayload :=
  JoinObject (mkJoinData (Some "bob") (Some "0xBBB") None None).

Definition say (text : string) (channel : option string) : option MessageData :=
  Some (mkMessageData (Some text) channel).

(** A small run: alice and bob join after start-up, alice writes to two
    channels. *)
Definition demo : World :=
  steps boot [ Join "s1" alice; Join "s2" bob;
               SendMessage "s1" (say "hi" None);
               SendMessage "s1" (say "buy" (Some "trading")) ].

Definition joined : World := steps boot [Join "s1" alice].

(** A join under another name, with the wallet address of alice and a
    picture. *)
Definition alicia : JoinData :=
  mkJoinData (Some "alicia") (Some "0xAAA") (Some "pic.png") None.

(** The same, with a store that answers three calls and fails the fourth. *)
Definition failing : World :=
  steps boot [Join "s1" alice; Environment 0%Z [false; false; false; true]].

Definition aliceOfDemo : User :=
  mkUser 9 "alice" "0xAAA" None (Some "user") true (Some "s1") 0%Z 0%Z.


(** The world a handler leaves behind, however it ends. *)
Definition worldOf {A} (o : Outcome A) : World :=
  match o with
  | Done _ w _ => w
  | Thrown w _ => w
  end.

(** [I] survives the handler [h], whether [h] returns or throws. *)
Definition preserves (I : World → Prop) {A} (h : Handler A) : Prop :=
  ∀ w out, I w → I (worldOf (h w out)).

(** ** Properties stated by the specification *)

(** Some live connection is bound to the user [i]. *)
Definition boundIn (connections : gmap SocketId ObjectId) (i : ObjectId) : Prop :=
  ∃ socket, connections !! socket = Some i.

(** The online flag of every stored user tells whether the registry binds
    a connection to that user. *)
Definition consistent (connections : gmap SocketId ObjectId)
    (users : list User) : Prop :=
  ∀ u, u ∈ users → (u_isOnline u = true ↔ boundIn connections (u_id u)).

Definition presenceConsistent (w : World) : Prop :=
  consistent (activeConnections w) (Users w).

(** What the store guarantees of user identifiers: they are unique and
    were all handed out already. *)
Definition wellFormedUsers (users : list User) (next : ObjectId) : Prop :=
  NoDup (u_id <$> users) ∧ ∀ u, u ∈ users → u_id u < next.

Definition usersWellFormed (w : World) : Prop :=
  wellFormedUsers (Users w) (nextId w).

Definition presenceInvariant (w : World) : Prop :=
  usersWellFormed w ∧ presenceConsistent w.

(** The user a join with these fields resolves to, if it is stored. *)
Definition resolves (w : World) (d : JoinData) : option ObjectId :=
  u_id <$> find (UserModel.matchesEither (default "" (jd_username d))
                                        (default "" (jd_walletAddress d)))
                (Users w).

(** Events under which the registry has one entry per user at a time: a
    join comes on a connection that the registry does not bind, or binds
    to the user the join resolves to; a leave or a disconnect comes on a
    connection whose user no other entry of the registry is bound to. The
    entries count, live or not: a leave or a disconnect whose store call
    fails keeps its entry. *)
Definition exclusive (w : World) (e : Event) : Prop :=
  match e with
  | Join socket (JoinObject d) =>
      Js.truthy (jd_username d) && Js.truthy (jd_walletAddress d) = true →
      ∀ i, activeConnections w !! socket = Some i → resolves w d = Some i
  | Join socket JoinNull | Disconnect socket =>
      ∀ i other, activeConnections w !! socket = Some i →
                 activeConnections w !! other = Some i → other = socket
  | _ => True
  end.


(** The sender of a message event is not bound, or bound to a user that is
    not stored or not online. *)
Definition unregistered (w : World) (socket : SocketId) : Prop :=
  match activeConnections w !! socket with
  | None => True
  | Some i =>
      match lookupById u_id i (Users w) with
      | None => True
      | Some u => u_isOnline u = false
      end
  end.

(** The message counter of the channel named [name]. *)
Definition counterOf (w : World) (name : string) : option Z :=
  c_messageCount <$> ChannelModel.firstNamed name (Channels w).

Definition lastMessageAtOf (w : World) (name : string) : option (option Date) :=
  c_lastMessageAt <$> ChannelModel.firstNamed name (Channels w).

Definition isMessageError (e : Emission) : bool :=
  match e_signal e with messageError _ => true | _ => false end.

Definition isJoinError (e : Emission) : bool :=
  match e_signal e with joinError _ => true | _ => false end.

(** A message event was accepted: no [messageError] came back. *)
Definition accepted (out : list Emission) : Prop :=
  forallb (fun e => negb (isMessageError e)) out = true.

(** A join went through: no [joinError] came back. *)
Definition welcomed (out : list Emission) : Prop :=
  forallb (fun e => negb (isJoinError e)) out = true.

(** Every message of [w] is one of [w0] or carries a label of the schema's
    enumeration. *)
Definition labelled (w0 w : World) : Prop :=
  ∀ m, m ∈ Messages w → m ∈ Messages w0 ∨ m_channel m ∈ messageChannelEnum.

(** What every record of one broadcast of [md] looks like. *)
Definition broadcastRecord (md : MessageData) (m : Message) : Prop :=
  m_text m = Js.trim (default "" (md_text md)) ∧ m_isBroadcast m = true.

(** How often [name] occurs among [names]. *)
Definition occurrences (name : string) (names : list string) : Z :=
  Z.of_nat (length (filter (fun x => x = name) names)).

(** Some channel of the store is named [name]. *)
Definition channelExists (w : World) (name : string) : Prop :=
  ∃ c, c ∈ Channels w ∧ c_name c = name.

(** ** The other routes that write messages and channels

    Route parameters are taken to be well-formed identifiers, request
    fields to be strings when present. *)

Module MessageStore.

(** [Message.findById(id)] *)
Definition findById (i : ObjectId) : Handler (option Message) :=
  storeCall ;;
  gets (fun w => lookupById m_id i (Messages w)).

(** [Message.findByIdAndDelete(id)] *)
Definition findByIdAndDelete (i : ObjectId) : Handler unit :=
  storeCall ;;
  modify (setMessages (deleteById m_id i)).

End MessageStore.

Module ChannelStore.

(** The setters of [channelSchema.name], [trim] and [lowercase]. Mongoose
    applies the setters of a path to the values of a query filter too
    (since its version 5.0; the routes use [countDocuments], of 5.2). *)
Definition castName (name : string) : string := Js.toLowerCase (Js.trim name).

(** [Channel.findOne({ name })] *)
Definition findOneByName (name : string) : Handler (option Channel) :=
  storeCall ;;
  gets (fun w => ChannelModel.firstNamed (castName name) (Channels w)).

(** The first document that satisfies [p] gets the update [f]. *)
Fixpoint alterFirst (p : Channel → bool) (f : Channel → Channel)
    (cs : list Channel) : list Channel :=
  match cs with
  | [] => []
  | c :: r => if p c then f c :: r else c :: alterFirst p f r
  end.

Definition named (name : string) (c : Channel) : bool :=
  String.eqb (c_name c) name.

Definition identified (i : ObjectId) (c : Channel) : bool :=
  Nat.eqb (c_id c) i.

Definition incMessageCount (delta : Z) (c : Channel) : Channel :=
  mkChannel (c_id c) (c_name c) (c_description c) (c_isActive c)
            (c_messageCount c + delta)%Z (c_lastMessageAt c) (c_createdBy c).

Definition setMessageCount (n : Z) (c : Channel) : Channel :=
  mkChannel (c_id c) (c_name c) (c_description c) (c_isActive c)
            n (c_lastMessageAt c) (c_createdBy c).

(** [Channel.findOneAndUpdate({ name }, { $inc: { messageCount: delta } })] *)
Definition findOneAndIncByName (name : string) (delta : Z) : Handler unit :=
  storeCall ;;
  modify (setChannels (alterFirst (named (castName name))
                                  (incMessageCount delta))).

(** [Channel.findByIdAndUpdate(id, { messageCount: n })] *)
Definition findByIdAndSetCount (i : ObjectId) (n : Z) : Handler unit :=
  storeCall ;;
  modify (setChannels (alterFirst (identified i) (setMessageCount n))).

(** [Channel.findById(id).populate('createdBy', 'username')]: the
    document, then the query that fetches the username of its creator. *)
Definition findByIdPopulated (i : ObjectId)
    : Handler (option (Channel * option string)) :=
  storeCall ;;
  found ← gets (fun w => lookupById c_id i (Channels w));
  match found with
  | None => ret None
  | Some c =>
      storeCall ;;
      creator ← gets (fun w => lookupById u_id (c_createdBy c) (Users w));
      ret (Some (c, u_username <$> creator))
  end.

End ChannelStore.

Module VoiceChannelStore.

(** [VoiceChannel.findOne({ name })]; [trim], the setter of
    [voiceChannelSchema.name], is applied to the value of the filter. *)
Definition findOneByName (name : string) : Handler (option VoiceChannel) :=
  storeCall ;;
  gets (fun w => find (fun v => String.eqb (v_name v) (Js.trim name))
                      (VoiceChannels w)).

(** [VoiceChannel.findById(id)] *)
Definition findById (i : ObjectId) : Handler (option VoiceChannel) :=
  storeCall ;;
  gets (fun w => lookupById v_id i (VoiceChannels w)).

(** [new VoiceChannel({ name, description, maxParticipants, isPrivate,
    createdBy })] *)
Definition new (name description : string) (maxParticipants : Z)
    (isPrivate : bool) (createdBy : ObjectId) : Handler VoiceChannel :=
  i ← freshId;
  ret (mkVoiceChannel i (Js.trim name) (Js.trim description) true []
                      maxParticipants isPrivate createdBy).

(** [VoiceChannel.findByIdAndDelete(id)] *)
Definition findByIdAndDelete (i : ObjectId) : Handler unit :=
  storeCall ;;
  modify (setVoiceChannels (deleteById v_id i)).

(** [VoiceChannel.findById(id).populate('createdBy', 'username')
      .populate('participants', ...)]: the document, then the query for
    the username of its creator, then one for the participants when there
    are any. *)
Definition findByIdPopulated (i : ObjectId)
    : Handler (option (VoiceChannel * option string)) :=
  storeCall ;;
  found ← gets (fun w => lookupById v_id i (VoiceChannels w));
  match found with
  | None => ret None
  | Some v =>
      storeCall ;;
      creator ← gets (fun w => lookupById u_id (v_createdBy v) (Users w));
      match v_participants v with
      | [] => ret tt
      | _ :: _ => storeCall
      end ;;
      ret (Some (v, u_username <$> creator))
  end.

End VoiceChannelStore.

(** ** Roles: [models/Role.js]

    The collection of roles is threaded through the routes that use it;
    the store calls, the identifiers and the clock are those of the
    world. *)

(** [roleSchema] *)
Record Role := mkRole {
  r_id : ObjectId;
  r_name : string;
  r_description : string;
  r_isActive : bool;
  r_createdAt : Date;
  r_updatedAt : Date
}.

Module RoleModel.

(** The setters of [roleSchema.name], [lowercase] and [trim]. *)
Definition castName (name : string) : string := Js.toLowerCase (Js.trim name).

(** [Role.findOne({ name })] *)
Definition findOneByName (name : string) (roles : list Role)
    : Handler (option Role) :=
  storeCall ;;
  ret (find (fun r => String.eqb (r_name r) (castName name)) roles).

(** [Role.findById(id)] *)
Definition findById (i : ObjectId) (roles : list Role) : Handler (option Role) :=
  storeCall ;;
  ret (lookupById r_id i roles).

(** [new Role({ name, description })]: [isActive] defaults to [true],
    [createdAt] and [updatedAt] to [Date.now]. *)
Definition new (name description : string) : Handler Role :=
  i ← freshId;
  t ← now;
  ret (mkRole i (castName name) description true t t).

(** The validator of [roleSchema]: [required] on [name]. *)
Definition validate (r : Role) : bool := negb (String.eqb (r_name r) "").

(** [roleSchema.pre('save', ...)]: [this.updatedAt = Date.now()] *)
Definition preSave (r : Role) : Handler Role :=
  t ← now;
  ret (mkRole (r_id r) (r_name r) (r_description r) (r_isActive r)
              (r_createdAt r) t).

(** [role.save()] of a new document: validation, the hook, then the
    insert; [name] is a unique index. It gives the document as the hook
    left it and the collection with it. *)
Definition save (r : Role) (roles : list Role) : Handler (Role * list Role) :=
  if validate r then
    r ← preSave r;
    storeCall ;;
    if existsb (fun x => String.eqb (r_name x) (r_name r)) roles then throw
    else ret (r, roles ++ [r])
  else throw.

End RoleModel.

(** What [.select('username avatar isOnline lastSeen role createdAt
    updatedAt')] keeps of a user document: the identifier, which a
    selection keeps unless told otherwise, and those of the named fields
    that the user documents here have. *)
Record SelectedUser := mkSelectedUser {
  su_id : ObjectId;
  su_username : string;
  su_avatar : option string;
  su_isOnline : bool;
  su_lastSeen : Date;
  su_role : option string
}.

Definition selectForRole (u : User) : SelectedUser :=
  mkSelectedUser (u_id u) (u_username u) (u_avatar u) (u_isOnline u)
                 (u_lastSeen u) (u_role u).

(** What a route answers: the status and what the body tells. *)
Inductive Body :=
| MessageDeleted                     (* success: true *)
| MessagesCleared (deletedCount : nat)
| ChannelCreated (populatedChannel : option (Channel * option string))
| VoiceChannelCreated
    (populatedVoiceChannel : option (VoiceChannel * option string))
| VoiceChannelDeleted (name : string)
| RoleCreated (role : Role)
| RoleAssigned (user : SelectedUser).

Inductive Reply :=
| Ok (body : Body)                   (* 200 *)
| Created (body : Body)              (* 201 *)
| BadRequest (error : string)        (* 400 *)
| Missing (error : string)           (* 404 *)
| Failed (error : string).           (* 500 *)

(** [DELETE /api/messages/:id] *)
Definition deleteMessage (messageId : ObjectId) : Handler Reply :=
  tryCatch
    (found ← MessageStore.findById messageId;
     match found with
     | None => ret (Missing "Message not found")
     | Some message =>
         MessageStore.findByIdAndDelete messageId ;;
         ChannelStore.findOneAndIncByName (m_channel message) (-1) ;;
         ret (Ok MessageDeleted)
     end)
    (ret (Failed "Failed to delete message")).

(** [DELETE /api/channels/:id/messages] *)
Definition clearChannelMessages (channelId : ObjectId) : Handler Reply :=
  tryCatch
    (found ← ChannelModel.findById channelId;
     match found with
     | None => ret (Missing "Channel not found")
     | Some channel =>
         deletedCount ← MessageModel.deleteManyByChannel (c_name channel);
         ChannelStore.findByIdAndSetCount channelId 0 ;;
         ret (Ok (MessagesCleared deletedCount))
     end)
    (ret (Failed "Failed to clear channel messages")).

Definition systemWallet : string :=
  "0x0000000000000000000000000000000000000000".

(** [POST /api/channels] with the body [{ name, description }] *)
Definition createChannel (name description : option string) : Handler Reply :=
  tryCatch
    (if negb (Js.truthy name) then ret (BadRequest "Channel name is required")
     else
       let name := default "" name in
       existingChannel ← ChannelStore.findOneByName (Js.toLowerCase name);
       match existingChannel with
       | Some _ => ret (BadRequest "Channel already exists")
       | None =>
           found ← UserModel.findOneByUsername "system";
           systemUser ←
             match found with
             | Some u => ret u
             | None =>
                 u ← UserModel.new "system" systemWallet None None false None;
                 UserModel.save u ;;
                 ret u
             end;
           channel ← ChannelModel.new (Js.toLowerCase name)
                       (Js.orElse description ("Channel for " ++ name))
                       (u_id systemUser);
           ChannelModel.save channel ;;
           populatedChannel ← ChannelStore.findByIdPopulated (c_id channel);
           ret (Created (ChannelCreated populatedChannel))
       end)
    (ret (Failed "Failed to create channel")).

(** An integer of a JSON body as the Number the route holds: the nearest
    integer with 53 significant bits, the even one of two that are equally
    near. Below 2^53 in magnitude it is the integer itself. Integers of
    magnitude 2^1023 and more, some of which have no finite Number, and
    numbers with a fraction are outside the model. *)
Definition numberOfInteger (n : Z) : Z :=
  let a := Z.abs n in
  let e := (Z.log2 a + 1 - 53)%Z in
  if (e <=? 0)%Z then n
  else
    let q := (a / 2 ^ e)%Z in
    let r := (a mod 2 ^ e)%Z in
    let half := (2 ^ (e - 1))%Z in
    let q' := if (r <? half)%Z then q
              else if (half <? r)%Z then (q + 1)%Z
              else if Z.even q then q else (q + 1)%Z in
    (Z.sgn n * (q' * 2 ^ e))%Z.

(** [maxParticipants || 10], on the Number that the body gave. *)
Definition orTen (maxParticipants : option Z) : Z :=
  match maxParticipants with
  | Some n =>
      let x := numberOfInteger n in
      if Z.eqb x 0 then 10%Z else x
  | None => 10%Z
  end.

(** The number of a request is absent or an integer with a finite
    Number. *)
Definition finiteNumber (maxParticipants : option Z) : Prop :=
  match maxParticipants with
  | Some n => (Z.abs n < 2 ^ 1023)%Z
  | None => True
  end.

(** [POST /api/voice-channels] with the body
    [{ name, description, maxParticipants, isPrivate }] *)
Definition createVoiceChannel (name description : option string)
    (maxParticipants : option Z) (isPrivate : option bool) : Handler Reply :=
  tryCatch
    (if negb (Js.truthy name)
     then ret (BadRequest "Voice channel name is required")
     else
       let name := default "" name in
       existingVoiceChannel ← VoiceChannelStore.findOneByName name;
       match existingVoiceChannel with
       | Some _ => ret (BadRequest "Voice channel already exists")
       | None =>
           found ← UserModel.findOneByUsername "system";
           systemUser ←
             match found with
             | Some u => ret u
             | None =>
                 u ← UserModel.new "system" systemWallet None None false None;
                 UserModel.save u ;;
                 ret u
             end;
           voiceChannel ← VoiceChannelStore.new name
                            (Js.orElse description
                                       ("Voice channel for " ++ name))
                            (orTen maxParticipants)
                            (default false isPrivate)
                            (u_id systemUser);
           VoiceChannelModel.save voiceChannel ;;
           populatedVoiceChannel ←
             VoiceChannelStore.findByIdPopulated (v_id voiceChannel);
           ret (Created (VoiceChannelCreated populatedVoiceChannel))
       end)
    (ret (Failed "Failed to create voice channel")).

(** [DELETE /api/voice-channels/:id] *)
Definition deleteVoiceChannel (voiceChannelId : ObjectId) : Handler Reply :=
  tryCatch
    (found ← VoiceChannelStore.findById voiceChannelId;
     match found with
     | None => ret (Missing "Voice channel not found")
     | Some voiceChannel =>
         VoiceChannelStore.findByIdAndDelete voiceChannelId ;;
         ret (Ok (VoiceChannelDeleted (v_name voiceChannel)))
     end)
    (ret (Failed "Failed to delete voice channel")).

(** [POST /api/roles] with the body [{ name, description }], over the
    collection [roles]: the answer and the collection afterwards. *)
Definition createRole (name description : option string) (roles : list Role)
    : Handler (Reply * list Role) :=
  tryCatch
    (if negb (Js.truthy name)
     then ret (BadRequest "Role name is required", roles)
     else
       let name := default "" name in
       existingRole ← RoleModel.findOneByName (Js.toLowerCase name) roles;
       match existingRole with
       | Some _ => ret (BadRequest "Role already exists", roles)
       | None =>
           role ← RoleModel.new (Js.toLowerCase name)
                    (Js.orElse description ("Role for " ++ name));
           '(role, roles) ← RoleModel.save role roles;
           ret (Created (RoleCreated role), roles)
       end)
    (ret (Failed "Failed to create role", roles)).

(** [{ role }] applied to a user document. *)
Definition assignRole (role : string) (u : User) : User :=
  mkUser (u_id u) (u_username u) (u_walletAddress u) (u_avatar u) (Some role)
         (u_isOnline u) (u_socketId u) (u_lastSeen u) (u_joinedAt u).

Fixpoint assignFirst (i : ObjectId) (role : string) (us : list User)
    : list User :=
  match us with
  | [] => []
  | u :: r =>
      if Nat.eqb (u_id u) i then assignRole role u :: r
      else u :: assignFirst i role r
  end.

(** [User.findByIdAndUpdate(id, { role }, { new: true }).select(...)]: the
    first document with the identifier gets the role; the answer is the
    selection of the document as updated. *)
Definition findByIdAndUpdateRole (i : ObjectId) (role : string)
    : Handler (option SelectedUser) :=
  storeCall ;;
  found ← gets (fun w => lookupById u_id i (Users w));
  modify (setUsers (assignFirst i role)) ;;
  ret (selectForRole <$> (assignRole role <$> found)).

(** [PUT /api/users/:id/role] with the body [{ roleId }], over the
    collection [roles], which it only reads. *)
Definition updateUserRole (userId : ObjectId) (roleId : option ObjectId)
    (roles : list Role) : Handler Reply :=
  tryCatch
    (match roleId with
     | None => ret (BadRequest "Role ID is required")
     | Some roleId =>
         found ← RoleModel.findById roleId roles;
         match found with
         | None => ret (Missing "Role not found")
         | Some role =>
             user ← findByIdAndUpdateRole userId (r_name role);
             match user with
             | None => ret (Missing "User not found")
             | Some user => ret (Ok (RoleAssigned user))
             end
         end
     end)
    (ret (Failed "Failed to update user role")).

(** Serving the two: the world, the answer and the roles afterwards. *)
Definition serveCreateRole (w : World) (name description : option string)
    (roles : list Role) : World * Reply * list Role :=
  match createRole name description roles w [] with
  | Done (reply, roles') w' _ => (w', reply, roles')
  | Thrown w' _ => (w', Failed "", roles)
  end.

Definition serveUpdateUserRole (w : World) (userId : ObjectId)
    (roleId : option ObjectId) (roles : list Role) : World * Reply :=
  match updateUserRole userId roleId roles w [] with
  | Done reply w' _ => (w', reply)
  | Thrown w' _ => (w', Failed "")
  end.

(** The requests of these routes, and the answer of the server. *)
Inductive Request :=
| DeleteMessage (messageId : ObjectId)
| ClearChannelMessages (channelId : ObjectId)
| CreateChannel (name description : option string)
| CreateVoiceChannel (name description : option string)
    (maxParticipants : option Z) (isPrivate : option bool)
| DeleteVoiceChannel (voiceChannelId : ObjectId).

Definition route (r : Request) : Handler Reply :=
  match r with
  | DeleteMessage messageId => deleteMessage messageId
  | ClearChannelMessages channelId => clearChannelMessages channelId
  | CreateChannel name description => createChannel name description
  | CreateVoiceChannel name description maxParticipants isPrivate =>
      createVoiceChannel name description maxParticipants isPrivate
  | DeleteVoiceChannel voiceChannelId => deleteVoiceChannel voiceChannelId
  end.

(** The [catch] of every route answers; an exception cannot escape. *)
Definition serve (w : World) (r : Request) : World * Reply :=
  match route r w [] with
  | Done reply w' _ => (w', reply)
  | Thrown w' _ => (w', Failed "")
  end.

(** ** Properties of the counters *)

(** How many messages carry the label [name]. *)
Definition labelledWith (name : string) (ms : list Message) : Z :=
  Z.of_nat (length (filter (fun m => m_channel m = name) ms)).

(** Channel names are unique, message labels are names of the schema's
    enumeration, and the counter of every channel is the number of
    messages labelled with its name. *)
Definition counted (cs : list Channel) (ms : list Message) : Prop :=
  NoDup (c_name <$> cs)
  ∧ (∀ m, m ∈ ms → m_channel m ∈ messageChannelEnum)
  ∧ ∀ c, c ∈ cs → c_messageCount c = labelledWith (c_name c) ms.

Definition countersExact (w : World) : Prop :=
  counted (Channels w) (Messages w).

(** Message identifiers were all handed out already. *)
Definition messagesWellFormed (w : World) : Prop :=
  ∀ m, m ∈ Messages w → m_id m < nextId w.

(** ** Requests that are turned down *)

(** What makes a request fail before it writes: an identifier that no
    document has, a channel name that is missing or taken. *)
Definition refusable (w : World) (r : Request) : Prop :=
  match r with
  | DeleteMessage messageId => lookupById m_id messageId (Messages w) = None
  | ClearChannelMessages channelId =>
      lookupById c_id channelId (Channels w) = None
  | CreateChannel name description =>
      Js.truthy name = false
      ∨ is_Some (ChannelModel.firstNamed
                   (ChannelStore.castName (Js.toLowerCase (default "" name)))
                   (Channels w))
  | CreateVoiceChannel name _ _ _ =>
      Js.truthy name = false
      ∨ is_Some (find (fun v => String.eqb (v_name v)
                                           (Js.trim (default "" name)))
                      (VoiceChannels w))
  | DeleteVoiceChannel voiceChannelId =>
      lookupById v_id voiceChannelId (VoiceChannels w) = None
  end.

Definition refusal (w : World) (r : Request) : Reply :=
  match r with
  | DeleteMessage _ => Missing "Message not found"
  | ClearChannelMessages _ => Missing "Channel not found"
  | CreateChannel name _ =>
      if Js.truthy name then BadRequest "Channel already exists"
      else BadRequest "Channel name is required"
  | CreateVoiceChannel name _ _ _ =>
      if Js.truthy name then BadRequest "Voice channel already exists"
      else BadRequest "Voice channel name is required"
  | DeleteVoiceChannel _ => Missing "Voice channel not found"
  end.

Definition isFailed (reply : Reply) : Prop :=
  match reply with Failed _ => True | _ => False end.

(** No stored message carries the name that a new channel would get. *)
Definition unlabelled (w : World) (r : Request) : Prop :=
  match r with
  | CreateChannel name _ =>
      labelledWith (ChannelStore.castName (Js.toLowerCase (default "" name)))
                   (Messages w) = 0%Z
  | _ => True
  end.

(** A run that leaves a message behind: [general] is deleted, then alice
    writes to it. *)
Definition orphaned : World :=
  steps boot [ Join "s1" alice; DeleteChannel 1;
               SendMessage "s1" (say "hi" (Some "general")) ].

(** Alice has joined and the channel [general] was deleted. *)
Definition deserted : World := steps boot [Join "s1" alice; DeleteChannel 1].

(** Alice has joined; the store answers two calls and fails the third. *)
Definition stumbling : World :=
  steps boot [Join "s1" alice; Environment 0%Z [false; false; true]].

(** ** Properties of start-up *)

(** The stores only grow: with well-formed user identifiers before, they
    are well formed after, users, channels and voice channels have the
    documents they had, unchanged and in the same places, and messages and
    the registry are as they were. *)
Definition grows (w w' : World) : Prop :=
  usersWellFormed w →
  usersWellFormed w'
  ∧ Users w `prefix_of` Users w'
  ∧ Channels w `prefix_of` Channels w'
  ∧ VoiceChannels w `prefix_of` VoiceChannels w'
  ∧ Messages w' = Messages w
  ∧ activeConnections w' = activeConnections w.

(** The handler [h] relates the world it finds to the world it leaves by
    [R], whether it returns or throws. *)
Definition establishes (R : World → World → Prop) {A} (h : Handler A) : Prop :=
  ∀ w out, R w (worldOf (h w out)).

(** A channel name that its setters leave as it is and that passes, with
    the description start-up gives it, the validators of the schema. *)
Definition defaultName (name : string) : bool :=
  String.eqb (Js.toLowerCase (Js.trim name)) name
  && negb (String.eqb name "")
  && Nat.leb (String.length (Js.trim ("Default " ++ name ++ " channel"))) 200.

(** The same for the name and the description of a voice channel. *)
Definition defaultVoice (v : string * string) : bool :=
  String.eqb (Js.trim v.1) v.1
  && negb (String.eqb v.1 "")
  && Nat.leb (String.length (Js.trim v.2)) 200.

(** A user named [system] is stored, or can be: no user has its wallet
    address. *)
Definition systemAvailable (w : World) : Prop :=
  is_Some (find (fun u => String.eqb (u_username u) "system") (Users w))
  ∨ ∀ u, u ∈ Users w → u_walletAddress u ≠ systemWallet.

(** Everything that start-up provides is stored. *)
Definition initialized (w : World) : Prop :=
  is_Some (find (fun u => String.eqb (u_username u) "system") (Users w))
  ∧ (∀ name, name ∈ channels →
             is_Some (ChannelModel.firstNamed name (Channels w)))
  ∧ (∀ v, v ∈ defaultVoiceChannels →
          is_Some (find (fun x => String.eqb (v_name x) v.1)
                        (VoiceChannels w))).

(** Two worlds with the same documents and the same registry. *)
Definition sameStores (w w' : World) : Prop :=
  Users w' = Users w ∧ Channels w' = Channels w
  ∧ VoiceChannels w' = VoiceChannels w ∧ Messages w' = Messages w
  ∧ activeConnections w' = activeConnections w.

(** Voice channel identifiers were all handed out already. *)
Definition voiceChannelsWellFormed (w : World) : Prop :=
  ∀ v, v ∈ VoiceChannels w → v_id v < nextId w.

(** ** What the schemas guarantee of the stored documents *)

(** Every stored message, channel and voice channel passes the validators
    of its schema, and no two channels and no two voice channels have the
    same name, as the unique indexes require. *)
Definition schemaValid (w : World) : Prop :=
  Forall (fun m => MessageModel.validate m = true) (Messages w)
  ∧ Forall (fun c => ChannelModel.validate c = true) (Channels w)
  ∧ Forall (fun v => VoiceChannelModel.validate v = true) (VoiceChannels w)
  ∧ NoDup (c_name <$> Channels w)
  ∧ NoDup (v_name <$> VoiceChannels w).

(** What the server is asked to do once it has started: a socket event or
    a change of its environment, or a request to one of the routes. *)
Definition perform (w : World) (a : Event + Request) : World :=
  match a with
  | inl e => step w e
  | inr r => (serve w r).1
  end.

(** The life of the process over the store it finds: start-up, then
    whatever arrives. *)
Definition lifetime (w : World) (arrivals : list (Event + Request)) : World :=
  foldl perform (run initializeChannels w).1 arrivals.

(** ** Properties of the roles *)

(** Role names are not empty and unique, and role identifiers were all
    handed out already. *)
Definition rolesValid (w : World) (roles : list Role) : Prop :=
  Forall (fun r => r_name r ≠ "") roles
  ∧ NoDup (r_name <$> roles)
  ∧ Forall (fun r => r_id r < nextId w) roles.

(** ** Start-up of the two servers *)

(** The parts of the two [initializeChannels], by name: the creation of
    the user [system], one turn of the loop of the second server, for the
    creator it found before the loop, and one of the first server. *)
Definition createSystemUser : Handler User :=
  u ← UserModel.new "system" "0x0000000000000000000000000000000000000000"
        None None false None;
  UserModel.save u ;;
  ret u.

Definition ensureChannel (creator : ObjectId) (channelName : string)
    : Handler unit :=
  existingChannel ← ChannelModel.findOneByName channelName;
  match existingChannel with
  | Some _ => ret tt
  | None =>
      channel ← ChannelModel.new channelName
                  ("Default " ++ channelName ++ " channel") creator;
      ChannelModel.save channel
  end.

Definition ensureChannelAndCreator (channelName : string) : Handler unit :=
  existingChannel ← ChannelModel.findOneByName channelName;
  match existingChannel with
  | Some _ => ret tt
  | None =>
      found ← UserModel.findOneByUsername "system";
      systemUser ←
        match found with
        | Some u => ret u
        | None => createSystemUser
        end;
      channel ← ChannelModel.new channelName
                  ("Default " ++ channelName ++ " channel")
                  (u_id systemUser);
      ChannelModel.save channel
  end.

Definition ensureVoiceChannel (creator : ObjectId)
    (voiceChannelData : string * string) : Handler unit :=
  existingVoiceChannel ← VoiceChannelModel.findOneByName voiceChannelData.1;
  match existingVoiceChannel with
  | Some _ => ret tt
  | None =>
      voiceChannel ← VoiceChannelModel.new voiceChannelData.1
                       voiceChannelData.2 creator;
      VoiceChannelModel.save voiceChannel
  end.

(** A channel of the list is missing. *)
Definition channelMissing (w : World) : Prop :=
  ∃ name, name ∈ channels ∧ ChannelModel.firstNamed name (Channels w) = None.

(** Two worlds that differ at most in their voice channels and in the
    identifiers handed out. *)
Definition sameButVoice (w w' : World) : Prop :=
  Users w' = Users w ∧ Channels w' = Channels w
  ∧ Messages w' = Messages w ∧ activeConnections w' = activeConnections w.

(** A store that has the channels of the list, and no user. *)
Definition unowned : World :=
  mkWorld ∅ [] []
    [ mkChannel 1 "general" "Default general channel" true 0%Z None 0;
      mkChannel 2 "trading" "Default trading channel" true 0%Z None 0;
      mkChannel 3 "nft" "Default nft channel" true 0%Z None 0;
      mkChannel 4 "defi" "Default defi channel" true 0%Z None 0;
      mkChannel 5 "announcements" "Default announcements channel" true 0%Z
                None 0 ]
    [] 9 0%Z [].

(** Unfolding a handler down to its effect on the world. *)
Ltac exec :=
  unfold run, runRoute, tryCatch, UserModel.findById, UserModel.save,
    UserModel.findOneByUsernameOrWallet, UserModel.new,
    MessageModel.new, MessageModel.save, MessageModel.deleteManyByChannel,
    ChannelModel.findById, ChannelModel.findOneAndUpdateByName,
    ChannelModel.findByIdAndDelete,
    mbind, mret, Handler_bind, Handler_ret, bind, ret, gets, modify, emit,
    throw, freshId, now, storeCall in *;
  cbn in *.

(** Case analysis on every test that a run stated in [H] went through. *)
Ltac cases_of H :=
  repeat match type of H with
         | context [match ?x with _ => _ end] =>
             lazymatch x with
             | context [match _ with _ => _ end] => fail
             | _ => destruct x eqn:?; cbn in H
             end
         end.

(** ** The scenario of the specification, run on the model *)

Example trim_example : Js.trim "  hi " = "hi".
Proof. reflexivity. Qed.

Example toLowerCase_example : Js.toLowerCase "NFT" = "nft".
Proof. reflexivity. Qed.

Example boot_channels : c_name <$> Channels boot = channels.
Proof. vm_compute. reflexivity. Qed.

Example alice_joins :
  (run (join "s1" alice) boot).2
  = [mkEmission (ToOthers "s1") (userJoined "alice" None true)].
Proof. vm_compute. reflexivity. Qed.

Example alice_says_hi :
  (run (sendMessage "s1" (say "hi" (Some "general"))) joined).2
  = [mkEmission ToAll (newMessage 10 "alice" "hi" 0%Z None "general" false)].
Proof. vm_compute. reflexivity. Qed.

Example alice_drops :
  (run (disconnect "s1") joined).2
  = [mkEmission (ToOthers "s1") (userLeft "alice" None)]
  ∧ size (activeConnections joined) = 1
  ∧ size (activeConnections (run (disconnect "s1") joined).1) = 0.
Proof. vm_compute. done. Qed.

(** A label outside the enumeration of the message schema is refused by
    [save], whether or not a channel of that name exists. *)
Example unknown_label_refused :
  run (sendMessage "s1" (say "hi" (Some "memes"))) joined
  = (step joined (SendMessage "s1" (say "hi" (Some "memes"))),
     [mkEmission (ToSender "s1")
                 (messageError "Server error processing message")])
  ∧ Messages (step joined (SendMessage "s1" (say "hi" (Some "memes")))) = [].
Proof. vm_compute. done. Qed.

(** ** Invariants along a handler *)

Section Preserves.
Variable I : World → Prop.

Lemma preserves_ret {A} (a : A) : preserves I (mret a).
Proof. by intros w out H. Qed.

Lemma preserves_throw {A} : preserves I (@throw A).
Proof. by intros w out H. Qed.

Lemma preserves_gets {A} (f : World → A) : preserves I (gets f).
Proof. by intros w out H. Qed.

Lemma preserves_emit t s : preserves I (emit t s).
Proof. by intros w out H. Qed.

Lemma preserves_modify f : (∀ w, I w → I (f w)) → preserves I (modify f).
Proof. intros Hf w out H. by apply Hf. Qed.

Lemma preserves_bind {A B} (m : Handler A) (k : A → Handler B) :
  preserves I m → (∀ a, preserves I (k a)) → preserves I (m ≫= k).
Proof.
  intros Hm Hk w out H. specialize (Hm w out H).
  unfold mbind, Handler_bind, bind.
  destruct (m w out) as [a w1 out1 | w1 out1]; cbn in *; [by apply Hk | done].
Qed.

Lemma preserves_tryCatch {A} (body handler : Handler A) :
  preserves I body → preserves I handler → preserves I (tryCatch body handler).
Proof.
  intros Hb Hh w out H. specialize (Hb w out H). unfold tryCatch.
  destruct (body w out) as [a w1 out1 | w1 out1]; cbn in *; [done | by apply Hh].
Qed.

Lemma preserves_forEach {A} (l : list A) (f : A → Handler unit) :
  (∀ x, preserves I (f x)) → preserves I (forEach l f).
Proof.
  intros Hf. induction l as [|x r IH]; cbn.
  - apply preserves_ret.
  - apply preserves_bind; [apply Hf | by intros _].
Qed.

(** What the invariant may not depend on: the fault schedule and how
    many identifiers were handed out. *)
Hypothesis I_faults : ∀ w fs,
  I w → I (mkWorld (activeConnections w) (Users w) (Messages w) (Channels w)
                   (VoiceChannels w) (nextId w) (clock w) fs).
Hypothesis I_nextId : ∀ w,
  I w → I (mkWorld (activeConnections w) (Users w) (Messages w) (Channels w)
                   (VoiceChannels w) (S (nextId w)) (clock w) (faults w)).

Lemma preserves_storeCall : preserves I storeCall.
Proof.
  intros w out H. unfold storeCall.
  destruct (faults w) as [|[] fs]; cbn; by apply I_faults.
Qed.

Lemma preserves_freshId : preserves I freshId.
Proof. intros w out H. by apply I_nextId. Qed.

End Preserves.

Lemma run_worldOf h w : (run h w).1 = worldOf (h w []).
Proof. unfold run. by destruct (h w []). Qed.

Lemma runRoute_worldOf h w : (runRoute h w).1 = worldOf (h w []).
Proof. unfold runRoute. by destruct (h w []). Qed.

(** Walking through a handler with the rules above; what is left are the
    writes, each with the tests that guard it among the hypotheses. *)
Ltac walk Hfaults HnextId :=
  unfold UserModel.findById, UserModel.save,
    UserModel.findOneByUsernameOrWallet, UserModel.new,
    MessageModel.new, MessageModel.save, MessageModel.deleteManyByChannel,
    ChannelModel.findById, ChannelModel.findOneAndUpdateByName,
    ChannelModel.findByIdAndDelete, now;
  repeat first
    [ match goal with
      | H : context [broadcastLoop] |- preserves _ (broadcastLoop _ _ _ _) =>
          apply H
      end
    | apply preserves_ret
    | apply preserves_throw
    | apply preserves_gets
    | apply preserves_emit
    | apply preserves_storeCall; [exact Hfaults]
    | apply preserves_freshId; [exact HnextId]
    | apply preserves_tryCatch
    | apply preserves_bind; [| intros ?]
    | apply preserves_forEach; intros ?
    | match goal with
      | |- preserves _ (match ?x with _ => _ end) => destruct x eqn:?
      end
    | apply preserves_modify; intros ? ? ].

(** ** Laws of the document lists *)

Section Documents.
Context {D : Type} (id : D → ObjectId).

Lemma lookupById_Some i ds d :
  lookupById id i ds = Some d → d ∈ ds ∧ id d = i.
Proof.
  unfold lookupById. intros H. apply find_some in H as [Hin Heq].
  split; [by apply list_elem_of_In | by apply Nat.eqb_eq].
Qed.

Lemma lookupById_None i ds :
  lookupById id i ds = None → ∀ d, d ∈ ds → id d ≠ i.
Proof.
  unfold lookupById. intros H d Hd Heq.
  apply list_elem_of_In in Hd.
  pose proof (find_none _ _ H d Hd) as Hn. cbn in Hn.
  apply Nat.eqb_neq in Hn. done.
Qed.

Lemma lookupById_is_Some i ds d :
  d ∈ ds → id d = i → is_Some (lookupById id i ds).
Proof.
  intros Hd Hi. destruct (lookupById id i ds) eqn:E; [eauto |].
  exfalso. eapply lookupById_None; eauto.
Qed.

Lemma upsert_absent d ds :
  lookupById id (id d) ds = None → upsert id d ds = ds ++ [d].
Proof.
  unfold lookupById. induction ds as [|x r IH]; cbn; [done |].
  destruct (Nat.eqb (id x) (id d)); [done |].
  intros H. by rewrite IH.
Qed.



Lemma id_inj_NoDup ds x y :
  NoDup (id <$> ds) → x ∈ ds → y ∈ ds → id x = id y → x = y.
Proof.
  intros Hnd [k1 Hk1]%list_elem_of_lookup [k2 Hk2]%list_elem_of_lookup Hid.
  assert (k1 = k2) as ->; [| congruence].
  apply (NoDup_lookup (id <$> ds) k1 k2 (id x)); [done | |].
  - by rewrite list_lookup_fmap, Hk1.
  - by rewrite list_lookup_fmap, Hk2, Hid.
Qed.

(** An update in place splits the list at the first document that has
    the identifier. *)
Lemma upsert_split d ds old :
  lookupById id (id d) ds = Some old →
  ∃ before after,
    ds = before ++ old :: after ∧ upsert id d ds = before ++ d :: after
    ∧ ∀ x, x ∈ before → id x ≠ id d.
Proof.
  unfold lookupById. induction ds as [|y r IH]; cbn; [done |].
  destruct (Nat.eqb (id y) (id d)) eqn:E.
  - intros [= ->]. exists [], r. split_and!; [done | done |].
    intros x Hx. by apply elem_of_nil in Hx.
  - intros H. destruct (IH H) as (b & a & -> & Hup & Hb).
    exists (y :: b), a. rewrite Hup. split_and!; [done | done |].
    intros x [-> | Hx]%elem_of_cons; [by apply Nat.eqb_neq | auto].
Qed.

End Documents.

(** ** Laws of the channel counter update *)

Section ChannelUpdate.
Import ChannelModel.
Variables (name : string) (t : Date).

Lemma firstNamed_updateFirst cs :
  firstNamed name (updateFirst name t cs) = touch t <$> firstNamed name cs.
Proof.
  unfold firstNamed. induction cs as [|c r IH]; cbn; [done |].
  destruct (String.eqb (c_name c) name) eqn:E; cbn; by rewrite ?E.
Qed.

Lemma firstNamed_updateFirst_ne other cs :
  other ≠ name →
  firstNamed other (updateFirst name t cs) = firstNamed other cs.
Proof.
  intros Hne. unfold firstNamed. induction cs as [|c r IH]; cbn; [done |].
  destruct (String.eqb (c_name c) name) eqn:E; cbn.
  - apply String.eqb_eq in E.
    destruct (String.eqb_spec (c_name c) other); [congruence | done].
  - by rewrite IH.
Qed.

Lemma lookup_updateFirst_ne cs k c :
  cs !! k = Some c → c_name c ≠ name → updateFirst name t cs !! k = Some c.
Proof.
  revert k. induction cs as [|x r IH]; intros k; cbn; [done |].
  destruct (String.eqb_spec (c_name x) name) as [E|E].
  - destruct k; cbn; [intros [= ->]; congruence | done].
  - destruct k; cbn; [done | apply IH].
Qed.

Lemma length_updateFirst cs : length (updateFirst name t cs) = length cs.
Proof.
  induction cs as [|x r IH]; cbn; [done |].
  destruct (String.eqb (c_name x) name); cbn; by rewrite ?IH.
Qed.

Lemma updateFirst_absent cs :
  firstNamed name cs = None → updateFirst name t cs = cs.
Proof.
  unfold firstNamed. induction cs as [|x r IH]; cbn; [done |].
  destruct (String.eqb (c_name x) name); [done |].
  intros H. by rewrite IH.
Qed.

End ChannelUpdate.


Arguments lookupById : simpl never.
Arguments upsert : simpl never.
Arguments Js.trim : simpl never.
Arguments MessageModel.validate : simpl never.
Arguments MessageModel.validContent : simpl never.
Arguments ChannelModel.firstNamed : simpl never.
Arguments ChannelModel.updateFirst : simpl never.
Arguments broadcastOne : simpl never.


(** ** Message events from a connection that is not registered *)

(** C4. A [sendMessage] from a connection that the registry does not bind,
    or that it binds to a user who is not stored or not online, persists no
    message, leaves every channel document as it was, and sends exactly one
    signal: a [messageError] to the originating connection. *)
Theorem sendMessage_unregistered w socket messageData :
  unregistered w socket →
  ∃ w' error,
    run (sendMessage socket messageData) w
      = (w', [mkEmission (ToSender socket) (messageError error)])
    ∧ Messages w' = Messages w ∧ Channels w' = Channels w.
Proof.
  unfold unregistered, sendMessage. intros H. exec.
  destruct (activeConnections w !! socket) as [i|]; [| eauto].
  destruct (faults w) as [|[] fs]; cbn; [| eauto |].
  all: destruct (lookupById u_id i (Users w)) as [u|]; [| eauto].
  all: rewrite H; cbn; eauto.
Qed.

Lemma sendMessage_unregistered_witness :
  unregistered boot "s1" ∧
  ∃ w' error,
    run (sendMessage "s1" (Some (mkMessageData (Some "hi") None))) boot
      = (w', [mkEmission (ToSender "s1") (messageError error)])
    ∧ Messages w' = Messages boot ∧ Channels w' = Channels boot.
Proof.
  assert (H : unregistered boot "s1") by (vm_compute; exact I).
  split; [exact H | apply (sendMessage_unregistered _ _ _ H)].
Defined.

(** C8 as the code has it. A [typing] event on a connection without a
    registry entry changes nothing and sends nothing: no relay to the other
    connections, and no error signal to the originator either. *)
Theorem typing_unbound_silent w socket isTyping :
  activeConnections w !! socket = None →
  run (typing socket isTyping) w = (w, []).
Proof. intros H. unfold typing. exec. by rewrite H. Qed.

Lemma typing_unbound_silent_witness :
  activeConnections boot !! "s1" = None
  ∧ run (typing "s1" true) boot = (boot, []).
Proof.
  assert (H : activeConnections boot !! "s1" = None) by (vm_compute; reflexivity).
  split; [exact H | apply (typing_unbound_silent _ _ _ H)].
Defined.

(** C8 as stated fails: on the freshly started server a [typing] event
    from an unbound connection sends no signal at all, hence no error
    signal to the originator. *)
Lemma typing_unbound_no_error_signal :
  activeConnections boot !! "s1" = None
  ∧ ¬ ∃ e, e ∈ (run (typing "s1" true) boot).2 ∧ e_target e = ToSender "s1".
Proof.
  split; [vm_compute; reflexivity |].
  intros (e & He & _). vm_compute in He. by apply elem_of_nil in He.
Qed.

(** C10. The [sendMessage] handlers of the two servers agree on every
    world, connection and payload: same world afterwards (persisted
    message, channel counter), same signals. *)
Theorem sendMessage_variants_agree w socket messageData :
  run (FirstServer.sendMessage socket messageData) w
  = run (sendMessage socket messageData) w.
Proof. reflexivity. Qed.

(** ** Deleting a channel *)



(** ** A single-channel send *)

(** C5 as the code has it. An accepted [sendMessage] persists one message,
    labelled with the channel asked for, or with [general] when none is
    asked for. When a channel of that name is stored, its counter goes up
    by exactly one and its last-message time becomes the time of the
    message; when none is stored, the send is accepted all the same and
    no channel document changes. Every channel document of another name,
    hence every other counter, is as before. *)
Theorem sendMessage_counts_once w socket messageData w' out :
  run (sendMessage socket messageData) w = (w', out) →
  accepted out →
  ∃ md message,
    messageData = Some md
    ∧ (∀ c, md_channel md = Some c → c ≠ "" → m_channel message = c)
    ∧ (md_channel md = None ∨ md_channel md = Some "" →
       m_channel message = "general")
    ∧ out = [mkEmission ToAll (newMessageOf message)]
    ∧ Messages w' = Messages w ++ [message]
    ∧ (∀ n, counterOf w (m_channel message) = Some n →
            counterOf w' (m_channel message) = Some (n + 1)%Z
            ∧ lastMessageAtOf w' (m_channel message)
              = Some (Some (m_timestamp message)))
    ∧ (counterOf w (m_channel message) = None → Channels w' = Channels w)
    ∧ (∀ other, other ≠ m_channel message →
                counterOf w' other = counterOf w other)
    ∧ (∀ k c, Channels w !! k = Some c → c_name c ≠ m_channel message →
              Channels w' !! k = Some c).
Proof.
  unfold sendMessage, accepted. intros Hrun Hacc. exec.
  cases_of Hrun; injection Hrun as <- <-; cbn in Hacc; try discriminate.
  all: eexists _, _; split_and!; [done | | | done | done | | | |]; cbn.
  all: unfold counterOf, lastMessageAtOf; cbn.
  all: try (intros c -> Hc; cbn; by destruct (String.eqb_spec c "")).
  all: try (by intros [-> | ->]).
  all: try (intros n Hn; rewrite firstNamed_updateFirst;
            destruct (ChannelModel.firstNamed _ (Channels w)); cbn in *;
            [injection Hn as <-; done | done]).
  all: try (intros other Hne; by rewrite firstNamed_updateFirst_ne).
  all: try (intros k c Hk Hne; by apply lookup_updateFirst_ne).
  all: intros Hnone; apply updateFirst_absent;
    by destruct (ChannelModel.firstNamed _ (Channels w)).
Qed.

Lemma trading_accepted :
  accepted (run (sendMessage "s1" (say "buy" (Some "trading"))) joined).2.
Proof. vm_compute. reflexivity. Qed.

Lemma trading_before : counterOf joined "trading" = Some 0%Z.
Proof. vm_compute. reflexivity. Qed.

Lemma trading_stored :
  Messages (run (sendMessage "s1" (say "buy" (Some "trading"))) joined).1
  = [mkMessage 10 "alice" "buy" "trading" None false 9 0%Z].
Proof. vm_compute. reflexivity. Qed.

(** A send to [trading], not the default: the message is labelled
    [trading], the counter of [trading] goes from 0 to 1, that of
    [general] stays. *)
Lemma sendMessage_counts_once_witness :
  accepted (run (sendMessage "s1" (say "buy" (Some "trading"))) joined).2
  ∧ Messages (run (sendMessage "s1" (say "buy" (Some "trading"))) joined).1
    = [mkMessage 10 "alice" "buy" "trading" None false 9 0%Z]
  ∧ counterOf joined "trading" = Some 0%Z
  ∧ counterOf (run (sendMessage "s1" (say "buy" (Some "trading"))) joined).1
              "trading"
    = Some 1%Z
  ∧ counterOf (run (sendMessage "s1" (say "buy" (Some "trading"))) joined).1
              "general"
    = counterOf joined "general".
Proof.
  pose proof (sendMessage_counts_once joined "s1"
                (say "buy" (Some "trading")) _ _
                (surjective_pairing _) trading_accepted)
    as (md & message & Hmd & Hch & _ & _ & _ & Hup & _ & Hother & _).
  injection Hmd as <-.
  specialize (Hch "trading" eq_refl ltac:(discriminate)).
  rewrite Hch in Hup, Hother.
  destruct (Hup _ trading_before) as [H1 _].
  exact (conj trading_accepted
           (conj trading_stored
              (conj trading_before
                 (conj H1 (Hother "general" ltac:(discriminate)))))).
Defined.

(** C5 as stated fails when the channel is not stored. After
    [DELETE /api/channels/:id] removed [general], a [sendMessage] to
    [general] is accepted: the message is stored and announced to every
    connection, and no counter has moved, since no channel document
    changed and none is named [general]. *)
Lemma send_to_deleted_channel_counts_nothing :
  let r := run (sendMessage "s1" (say "hi" (Some "general"))) deserted in
  accepted r.2
  ∧ r.2 = [mkEmission ToAll
             (newMessage 10 "alice" "hi" 0%Z None "general" false)]
  ∧ Messages deserted = []
  ∧ Messages r.1 = [mkMessage 10 "alice" "hi" "general" None false 9 0%Z]
  ∧ Channels r.1 = Channels deserted
  ∧ counterOf r.1 "general" = None.
Proof. split_and!; vm_compute; reflexivity. Qed.

(** ** The channel label of persisted messages *)

Lemma validate_channel m :
  MessageModel.validate m = true → m_channel m ∈ messageChannelEnum.
Proof.
  unfold MessageModel.validate. intros [_ H]%andb_true_iff.
  by apply bool_decide_eq_true in H.
Qed.

Section Labels.
Variable w0 : World.

Lemma labelled_faults w fs :
  labelled w0 w →
  labelled w0 (mkWorld (activeConnections w) (Users w) (Messages w) (Channels w)
                    (VoiceChannels w) (nextId w) (clock w) fs).
Proof. done. Qed.

Lemma labelled_nextId w :
  labelled w0 w →
  labelled w0 (mkWorld (activeConnections w) (Users w) (Messages w) (Channels w)
                    (VoiceChannels w) (S (nextId w)) (clock w) (faults w)).
Proof. done. Qed.

Ltac labels :=
  walk labelled_faults labelled_nextId;
  try done;
  try match goal with
      | H : labelled _ ?w |- labelled _ (setMessages _ ?w) =>
          let x := fresh "x" in
          let Hx := fresh "Hx" in
          intros x; cbn;
          intros [Hx | ->%list_elem_of_singleton]%elem_of_app;
          [exact (H x Hx) | right; by apply validate_channel]
      end.

Lemma labelled_join socket userData : preserves (labelled w0) (join socket userData).
Proof. unfold join. labels. Qed.

Lemma labelled_disconnect socket : preserves (labelled w0) (disconnect socket).
Proof. unfold disconnect. labels. Qed.

Lemma labelled_typing socket isTyping :
  preserves (labelled w0) (typing socket isTyping).
Proof. unfold typing. labels. Qed.

Lemma labelled_sendMessage socket messageData :
  preserves (labelled w0) (sendMessage socket messageData).
Proof. unfold sendMessage. labels. Qed.

Lemma labelled_broadcastLoop user messageData names acc :
  preserves (labelled w0) (broadcastLoop user messageData names acc).
Proof.
  revert acc. induction names as [|name rest IH]; intros acc; cbn.
  - apply preserves_ret.
  - apply preserves_bind; [| intros ?; apply IH].
    unfold broadcastOne. labels.
Qed.

Lemma labelled_broadcastMessage socket messageData :
  preserves (labelled w0) (broadcastMessage socket messageData).
Proof.
  unfold broadcastMessage.
  pose proof labelled_broadcastLoop. labels.
Qed.

Lemma labelled_deleteChannel channelId :
  preserves (labelled w0) (deleteChannel channelId).
Proof.
  unfold deleteChannel. labels.
  intros x; cbn. intros [_ Hx]%list_elem_of_filter. auto.
Qed.

End Labels.

(** C3 as the code has it. Whatever the event and whatever channels the
    store holds, a message that an event adds to the store is labelled with
    one of the five names enumerated by the message schema. *)
Theorem persisted_label_in_enum w e m :
  m ∈ Messages (step w e) →
  m ∈ Messages w ∨ m_channel m ∈ messageChannelEnum.
Proof.
  assert (H0 : labelled w w) by (intros ?; auto).
  destruct e; cbn [step]; rewrite ?run_worldOf, ?runRoute_worldOf;
    [ apply labelled_join | apply labelled_sendMessage
    | apply labelled_broadcastMessage | apply labelled_typing
    | apply labelled_disconnect | apply labelled_deleteChannel | ]; auto.
Qed.

Lemma persisted_label_in_enum_witness :
  mkMessage 10 "alice" "hi" "general" None false 9 0%Z
    ∈ Messages (step joined (SendMessage "s1" (say "hi" None)))
  ∧ (mkMessage 10 "alice" "hi" "general" None false 9 0%Z ∈ Messages joined
     ∨ "general" ∈ messageChannelEnum).
Proof.
  assert (H : mkMessage 10 "alice" "hi" "general" None false 9 0%Z
                ∈ Messages (step joined (SendMessage "s1" (say "hi" None)))).
  { apply list_elem_of_lookup. exists 0. vm_compute. reflexivity. }
  exact (conj H (persisted_label_in_enum joined _ _ H)).
Defined.

(** C3 as stated fails: once [DELETE /api/channels/:id] removed the channel
    [general], a [sendMessage] to [general] still persists a message with
    that label, although no channel of the store has that name, neither
    before nor after the send. *)
Lemma label_of_deleted_channel :
  let w := steps boot [Join "s1" alice; DeleteChannel 1] in
  let w' := step w (SendMessage "s1" (say "hi" (Some "general"))) in
  ∃ m, m ∈ Messages w' ∧ (m ∉ Messages w)
       ∧ ¬ channelExists w (m_channel m) ∧ ¬ channelExists w' (m_channel m).
Proof.
  exists (mkMessage 10 "alice" "hi" "general" None false 9 0%Z).
  split_and!.
  - vm_compute. apply list_elem_of_here.
  - vm_compute. apply not_elem_of_nil.
  - intros (c & Hc & Hname). vm_compute in Hc.
    repeat (apply elem_of_cons in Hc as [-> | Hc]); try discriminate Hname.
    by apply elem_of_nil in Hc.
  - intros (c & Hc & Hname). vm_compute in Hc.
    repeat (apply elem_of_cons in Hc as [-> | Hc]); try discriminate Hname.
    by apply elem_of_nil in Hc.
Qed.

(** ** Broadcast to every channel *)

Lemma forEach_emit (signals : list Signal) w out :
  forEach signals (fun message => emit ToAll message) w out
  = Done tt w (out ++ (mkEmission ToAll <$> signals)).
Proof.
  revert out. induction signals as [|s r IH]; intros out; cbn.
  - by rewrite app_nil_r.
  - unfold mbind, Handler_bind, bind, emit. rewrite IH. by rewrite <- app_assoc.
Qed.

Section BroadcastLoop.
Variables (user : User) (md : MessageData).

Lemma occurrences_cons other name rest :
  occurrences other (name :: rest)
  = (occurrences other [name] + occurrences other rest)%Z.
Proof.
  unfold occurrences. rewrite !filter_cons, filter_nil.
  destruct (decide (name = other)); cbn [length]; lia.
Qed.

Lemma occurrences_nil other : occurrences other [] = 0%Z.
Proof. done. Qed.

Lemma broadcastOne_spec name w out :
  match broadcastOne user (Some md) name w out with
  | Done signal w' out' =>
      ∃ m, signal = newMessageOf m ∧ out' = out
           ∧ Messages w' = Messages w ++ [m]
           ∧ m_channel m = name ∧ broadcastRecord md m
           ∧ Channels w'
             = ChannelModel.updateFirst name (m_timestamp m) (Channels w)
  | Thrown w' out' =>
      out' = out ∧ ∃ ms, Messages w' = Messages w ++ ms
                         ∧ m_channel <$> ms = take (length ms) [name]
  end.
Proof.
  unfold broadcastOne. exec.
  destruct (MessageModel.validate _); cbn.
  2: { split; [done |]. exists []. by rewrite app_nil_r. }
  destruct (faults w) as [|[] [|[] fs]]; cbn.
  all: try (eexists; split_and!; done).
  all: split; [done |].
  all: first [ by (exists []; rewrite app_nil_r)
             | by (eexists [_]) ].
Qed.

Lemma counterOf_updateFirst w w' name t other :
  Channels w' = ChannelModel.updateFirst name t (Channels w) →
  counterOf w' other
  = (fun n => (n + occurrences other [name])%Z) <$> counterOf w other.
Proof.
  intros H. unfold counterOf, occurrences. rewrite H. cbn.
  destruct (decide (name = other)) as [-> | Hne].
  - rewrite firstNamed_updateFirst. cbn.
    by destruct (ChannelModel.firstNamed other (Channels w)).
  - rewrite firstNamed_updateFirst_ne by done. cbn.
    destruct (ChannelModel.firstNamed other (Channels w)); cbn; [| done].
    f_equal. lia.
Qed.

Lemma broadcastLoop_spec names : ∀ acc w out,
  match broadcastLoop user (Some md) names acc w out with
  | Done signals w' out' =>
      ∃ ms, signals = acc ++ (newMessageOf <$> ms) ∧ out' = out
            ∧ Messages w' = Messages w ++ ms
            ∧ m_channel <$> ms = names
            ∧ Forall (broadcastRecord md) ms
            ∧ ∀ other, counterOf w' other
                = (fun n => (n + occurrences other names)%Z)
                    <$> counterOf w other
  | Thrown w' out' =>
      out' = out ∧ ∃ ms, Messages w' = Messages w ++ ms
                         ∧ m_channel <$> ms = take (length ms) names
  end.
Proof.
  induction names as [|name rest IH]; intros acc w out; cbn.
  - exists []. rewrite !app_nil_r. split_and!; try done.
    intros other. rewrite occurrences_nil.
    destruct (counterOf w other); cbn; [f_equal; lia | done].
  - unfold mbind, Handler_bind, bind.
    pose proof (broadcastOne_spec name w out) as H1.
    destruct (broadcastOne user (Some md) name w out)
      as [signal w1 out1 | w1 out1].
    2: { destruct H1 as (-> & ms & Hms & Hnames). split; [done |].
         exists ms. split; [done |].
         destruct ms as [|m [|m' ms]]; cbn in *; rewrite ?take_0 in *;
           congruence. }
    destruct H1 as (m & -> & -> & Hm & Hname & Hrec & Hch).
    specialize (IH (acc ++ [newMessageOf m]) w1 out).
    destruct (broadcastLoop user (Some md) rest _ w1 out)
      as [signals w2 out2 | w2 out2].
    + destruct IH as (ms & -> & -> & Hms & Hnames & Hrecs & Hcount).
      exists (m :: ms). rewrite Hms, Hm, <- !app_assoc. cbn.
      split_and!; try done.
      * by rewrite Hname, Hnames.
      * by constructor.
      * intros other. rewrite Hcount.
        rewrite (counterOf_updateFirst w w1 name _ other Hch).
        destruct (counterOf w other); cbn; [| done].
        f_equal. rewrite (occurrences_cons other name rest). lia.
    + destruct IH as (-> & ms & Hms & Hnames).
      split; [done |]. exists (m :: ms).
      rewrite Hms, Hm, <- app_assoc. cbn. by rewrite Hname, Hnames.
Qed.

End BroadcastLoop.

Arguments broadcastLoop : simpl never.
Arguments forEach : simpl never.

Lemma occurrences_channels name :
  name ∈ channels → occurrences name channels = 1%Z.
Proof.
  unfold channels. intros H.
  repeat (apply elem_of_cons in H as [-> | H]); try (vm_compute; reflexivity).
  by apply elem_of_nil in H.
Qed.

(** C6 as the code has it. An accepted [broadcastMessage] of the text [X]
    persists exactly one message for each of the five configured channels,
    in their order; each has the broadcast flag and, as its body, [X] with
    the white space at both ends trimmed, the [trim] of the schema; one
    [newMessage] per record goes to every connection; and the counter of
    each configured channel that is stored goes up by exactly one. A
    configured channel that is not stored gets its record all the same,
    and has no counter before or after. *)
Theorem broadcastMessage_fans_out w socket X channel w' out :
  run (broadcastMessage socket (say X channel)) w = (w', out) →
  accepted out →
  ∃ ms,
    Messages w' = Messages w ++ ms
    ∧ m_channel <$> ms = channels
    ∧ Forall (fun m => m_text m = Js.trim X ∧ m_isBroadcast m = true) ms
    ∧ out = (fun m => mkEmission ToAll (newMessageOf m)) <$> ms
    ∧ (∀ name n, name ∈ channels → counterOf w name = Some n →
                 counterOf w' name = Some (n + 1)%Z)
    ∧ (∀ name, name ∈ channels → counterOf w name = None →
               counterOf w' name = None).
Proof.
  unfold broadcastMessage, accepted, say. intros Hrun Hacc.
  pose proof forEach_emit as Hemit. exec.
  cases_of Hrun; injection Hrun as <- <-; cbn in Hacc; try discriminate.
  all: match goal with
       | H : broadcastLoop ?u (Some ?md) ?names ?acc ?w1 ?o = _ |- _ =>
           pose proof (broadcastLoop_spec u md names acc w1 o) as Hspec;
           rewrite H in Hspec; cbn in Hspec
       end.
  all: try (destruct Hspec as [-> _]; cbn in Hacc; discriminate).
  all: destruct Hspec as (ms & -> & -> & Hms & Hnames & Hrecs & Hcount).
  all: match goal with
       | H : forEach _ _ _ _ = _ |- _ => rewrite Hemit in H; simplify_eq
       end.
  all: exists ms; cbn; split_and!; [done | done | done | | | ].
  all: try (by rewrite <- list_fmap_compose).
  all: try (intros name n Hin Hn; rewrite Hcount;
            unfold counterOf in *; cbn in *; rewrite Hn; cbn;
            by rewrite occurrences_channels).
  all: intros name Hin Hn; rewrite Hcount;
    unfold counterOf in *; cbn in *; by rewrite Hn.
Qed.

Lemma gm_accepted :
  accepted (run (broadcastMessage "s1" (say " gm " None)) joined).2.
Proof. vm_compute. reflexivity. Qed.

Lemma gm_counters_before :
  (fun name => counterOf joined name) <$> channels
  = [Some 0%Z; Some 0%Z; Some 0%Z; Some 0%Z; Some 0%Z].
Proof. vm_compute. reflexivity. Qed.

Lemma gm_counters_after :
  (fun name =>
     counterOf (run (broadcastMessage "s1" (say " gm " None)) joined).1 name)
    <$> channels
  = [Some 1%Z; Some 1%Z; Some 1%Z; Some 1%Z; Some 1%Z].
Proof. vm_compute. reflexivity. Qed.

Lemma gm_bodies :
  m_text <$> Messages (run (broadcastMessage "s1" (say " gm " None)) joined).1
  = ["gm"; "gm"; "gm"; "gm"; "gm"].
Proof. vm_compute. reflexivity. Qed.

Lemma broadcastMessage_fans_out_witness :
  accepted (run (broadcastMessage "s1" (say " gm " None)) joined).2
  ∧ (∃ ms,
       Messages (run (broadcastMessage "s1" (say " gm " None)) joined).1
       = Messages joined ++ ms
       ∧ m_channel <$> ms = channels
       ∧ Forall (fun m => m_text m = Js.trim " gm " ∧ m_isBroadcast m = true) ms
       ∧ (run (broadcastMessage "s1" (say " gm " None)) joined).2
         = (fun m => mkEmission ToAll (newMessageOf m)) <$> ms
       ∧ (∀ name n, name ∈ channels → counterOf joined name = Some n →
            counterOf (run (broadcastMessage "s1" (say " gm " None)) joined).1
                      name
            = Some (n + 1)%Z)
       ∧ (∀ name, name ∈ channels → counterOf joined name = None →
            counterOf (run (broadcastMessage "s1" (say " gm " None)) joined).1
                      name
            = None))
  ∧ m_text <$> Messages (run (broadcastMessage "s1" (say " gm " None)) joined).1
    = ["gm"; "gm"; "gm"; "gm"; "gm"]
  ∧ (fun name => counterOf joined name) <$> channels
    = [Some 0%Z; Some 0%Z; Some 0%Z; Some 0%Z; Some 0%Z]
  ∧ (fun name =>
       counterOf (run (broadcastMessage "s1" (say " gm " None)) joined).1 name)
      <$> channels
    = [Some 1%Z; Some 1%Z; Some 1%Z; Some 1%Z; Some 1%Z].
Proof.
  exact (conj gm_accepted
           (conj (broadcastMessage_fans_out joined "s1" " gm " None _ _
                    (surjective_pairing _) gm_accepted)
              (conj gm_bodies (conj gm_counters_before gm_counters_after)))).
Defined.

(** After [DELETE /api/channels/:id] removed [general], a broadcast is
    accepted and persists its five records, one of them labelled
    [general]; four counters move, and [general] has none. *)
Example broadcast_after_channel_deleted :
  let r := run (broadcastMessage "s1" (say "gm" None)) deserted in
  accepted r.2
  ∧ m_channel <$> Messages r.1 = channels
  ∧ (fun name => counterOf deserted name) <$> channels
    = [None; Some 0%Z; Some 0%Z; Some 0%Z; Some 0%Z]
  ∧ (fun name => counterOf r.1 name) <$> channels
    = [None; Some 1%Z; Some 1%Z; Some 1%Z; Some 1%Z].
Proof. split_and!; vm_compute; reflexivity. Qed.

(** C6 as stated fails on the body: the broadcast of [" hi "] is accepted
    and persists five records, none of which has the body [" hi "]; they
    all hold ["hi"]. *)
Lemma broadcast_body_is_trimmed :
  let r := run (broadcastMessage "s1" (say " hi " None)) joined in
  accepted r.2
  ∧ Messages joined = []
  ∧ length (Messages r.1) = 5
  ∧ ∀ m, m ∈ Messages r.1 →
         m_isBroadcast m = true ∧ m_text m = "hi" ∧ m_text m ≠ " hi ".
Proof.
  split_and!; [vm_compute; reflexivity .. |].
  intros m Hm. vm_compute in Hm.
  repeat (apply elem_of_cons in Hm as [-> | Hm]);
    [split_and!; [reflexivity | reflexivity | discriminate] .. |].
  by apply elem_of_nil in Hm.
Qed.

(** ** A broadcast that the store interrupts *)

Lemma broadcastLoop_cons user messageData name rest acc :
  broadcastLoop user messageData (name :: rest) acc
  = (pushed ← broadcastOne user messageData name;
     broadcastLoop user messageData rest (acc ++ [pushed])).
Proof. reflexivity. Qed.

Lemma validate_intro m :
  MessageModel.validContent (m_username m) (m_text m) = true →
  m_channel m ∈ messageChannelEnum →
  MessageModel.validate m = true.
Proof.
  intros Hc Hn. unfold MessageModel.validate. rewrite Hc. cbn.
  by apply bool_decide_eq_true.
Qed.

Lemma broadcastLoop_aborts user md i : ∀ names acc w out rest,
  i < length names →
  MessageModel.validContent (Js.trim (u_username user))
                            (Js.trim (default "" (md_text md))) = true →
  Forall (fun name => name ∈ messageChannelEnum) names →
  faults w = repeat false (2 * i) ++ true :: rest →
  ∃ w' ms,
    broadcastLoop user (Some md) names acc w out = Thrown w' out
    ∧ Messages w' = Messages w ++ ms
    ∧ m_channel <$> ms = take i names.
Proof.
  induction i as [|i IH]; intros names acc w out rest Hi Hvalid Hnames Hf.
  - destruct names as [|name names]; [cbn in Hi; lia |].
    apply Forall_cons in Hnames as [Hname _]. cbn in Hf.
    rewrite broadcastLoop_cons. unfold broadcastOne. exec.
    rewrite validate_intro by done. rewrite Hf. cbn.
    eexists _, []. by rewrite app_nil_r.
  - destruct names as [|name names]; [cbn in Hi; lia |].
    apply Forall_cons in Hnames as [Hname Hnames]. cbn in Hi.
    replace (2 * S i) with (S (S (2 * i))) in Hf by lia. cbn in Hf.
    rewrite broadcastLoop_cons. unfold broadcastOne. exec.
    rewrite validate_intro by done. rewrite Hf. cbn.
    match goal with
    | |- context [broadcastLoop _ _ _ ?acc' ?w1 _] =>
        destruct (IH names acc' w1 out rest) as (w' & ms & Hrun & Hms & Hch);
        [lia | done | done | done |]
    end.
    rewrite Hrun. eexists w', (_ :: ms). split_and!; [done | |].
    + rewrite Hms. cbn. by rewrite <- app_assoc.
    + cbn. by rewrite Hch.
Qed.

(** C9. A registered, online user broadcasts a text that passes the
    validators; the store answers until the persistence of the message of
    the [i]-th configured channel, which throws. Then records exist for the
    channels before the [i]-th only, none for the [i]-th or a later one, no
    [newMessage] is sent for any channel, and the one signal sent is a
    [messageError] to the originating connection. *)
Theorem broadcastMessage_interrupted w socket X channel userId user i rest :
  activeConnections w !! socket = Some userId →
  lookupById u_id userId (Users w) = Some user →
  u_isOnline user = true →
  MessageModel.validContent (Js.trim (u_username user)) (Js.trim X) = true →
  i < length channels →
  faults w = repeat false (1 + 2 * i) ++ true :: rest →
  ∃ w' ms error,
    run (broadcastMessage socket (say X channel)) w
    = (w', [mkEmission (ToSender socket) (messageError error)])
    ∧ Messages w' = Messages w ++ ms
    ∧ m_channel <$> ms = take i channels.
Proof.
  intros Hsock Huser Hon Hvalid Hi Hf. cbn [repeat Nat.add app] in Hf.
  unfold broadcastMessage, say. exec.
  rewrite Hsock, Hf. cbn. rewrite Huser, Hon. cbn.
  match goal with
  | |- context [broadcastLoop ?u (Some ?md) ?names ?acc ?w1 ?o] =>
      destruct (broadcastLoop_aborts u md i names acc w1 o rest)
        as (w' & ms & Hrun & Hms & Hch);
      [done | done | | done |]
  end.
  { unfold channels, messageChannelEnum.
    repeat (apply Forall_cons; split; [set_solver |]). apply Forall_nil_2. }
  rewrite Hrun. cbn. by eexists w', ms, _.
Qed.

Lemma broadcastMessage_interrupted_witness :
  activeConnections failing !! "s1" = Some 9
  ∧ lookupById u_id 9 (Users failing) = Some aliceOfDemo
  ∧ faults failing = repeat false (1 + 2 * 1) ++ [true]
  ∧ ∃ w' ms error,
      run (broadcastMessage "s1" (say "gm" None)) failing
      = (w', [mkEmission (ToSender "s1") (messageError error)])
      ∧ Messages w' = Messages failing ++ ms
      ∧ m_channel <$> ms = take 1 channels.
Proof.
  assert (H1 : activeConnections failing !! "s1" = Some 9)
    by (vm_compute; reflexivity).
  assert (H2 : lookupById u_id 9 (Users failing) = Some aliceOfDemo)
    by (vm_compute; reflexivity).
  assert (H3 : faults failing = repeat false (1 + 2 * 1) ++ [true])
    by (vm_compute; reflexivity).
  refine (conj H1 (conj H2 (conj H3 _))).
  apply (broadcastMessage_interrupted failing "s1" "gm" None 9 aliceOfDemo 1 []
           H1 H2).
  - reflexivity.
  - vm_compute. reflexivity.
  - cbn. lia.
  - exact H3.
Defined.

(** ** Joining *)

Lemma find_None_existsb {A} (f : A → bool) l :
  find f l = None → existsb f l = false.
Proof.
  induction l as [|x r IH]; cbn; [done |].
  destruct (f x); [done | auto].
Qed.

Lemma find_Some_elem_of {A} (f : A → bool) l x :
  find f l = Some x → x ∈ l ∧ f x = true.
Proof. intros [H1 H2]%find_some. split; [by apply list_elem_of_In | done]. Qed.

Lemma lookupById_fresh w :
  usersWellFormed w → lookupById u_id (nextId w) (Users w) = None.
Proof.
  intros [_ Hlt]. destruct (lookupById u_id (nextId w) (Users w)) eqn:E; [| done].
  apply lookupById_Some in E as [Hin Hid]. apply Hlt in Hin. lia.
Qed.

(** C2. A join with a non-empty username and wallet address goes through
    whenever its two store calls are answered. When it goes through, it
    either found a stored user with that username or that wallet address,
    the first in store order, and rewrote that one document in place
    (online, bound to the connection, seen now; avatar and role replaced
    only when supplied) without adding any; or found none and appended
    exactly one new document with the supplied fields. *)
Theorem join_resolves_or_creates w socket d w' out :
  Js.truthy (jd_username d) = true →
  Js.truthy (jd_walletAddress d) = true →
  usersWellFormed w →
  run (join socket (JoinObject d)) w = (w', out) →
  ((true ∉ take 2 (faults w)) → welcomed out)
  ∧ (welcomed out →
     match find (UserModel.matchesEither (default "" (jd_username d))
                                         (default "" (jd_walletAddress d)))
                (Users w) with
     | Some u =>
         ∃ before after,
           Users w = before ++ u :: after
           ∧ Users w'
             = before
               ++ mkUser (u_id u) (u_username u) (u_walletAddress u)
                         (if Js.truthy (jd_avatar d) then jd_avatar d
                          else u_avatar u)
                         (if Js.truthy (jd_role d) then jd_role d
                          else u_role u)
                         true (Some socket) (clock w) (u_joinedAt u)
               :: after
     | None =>
         ∃ u,
           Users w' = Users w ++ [u]
           ∧ u_username u = default "" (jd_username d)
           ∧ u_walletAddress u = default "" (jd_walletAddress d)
           ∧ u_avatar u = Js.orNull (jd_avatar d)
           ∧ u_role u = Some (Js.orElse (jd_role d) "user")
           ∧ u_isOnline u = true
           ∧ u_socketId u = Some socket
     end).
Proof.
  unfold join, welcomed. intros Hname Hwallet Hwf Hrun.
  rewrite Hname, Hwallet in Hrun. cbn [andb] in Hrun.
  pose proof (lookupById_fresh w Hwf) as Hfresh.
  exec.
  cases_of Hrun; injection Hrun as <- <-; subst.
  all: split; [intros Hcalm | intros Hok; cbn in Hok; try discriminate].
  all: try reflexivity.
  all: try congruence.
  all: try match goal with
           | H : find _ (Users ?w) = None, D : UserModel.duplicateKey _ _ = true
             |- _ =>
               apply find_None_existsb in H; unfold UserModel.duplicateKey in D;
               cbn in D; unfold UserModel.matchesEither in H; congruence
           end.
  all: try match goal with
           | H : find _ (Users ?w) = Some ?u,
             N : lookupById u_id (u_id ?u) (Users ?w) = None |- _ =>
               apply find_Some_elem_of in H as [H _];
               destruct (lookupById_is_Some u_id (u_id u) (Users w) u H eq_refl);
               congruence
           end.
  all: try match goal with
           | H : find _ (Users ?w) = None, D : existsb _ (Users ?w) = true
             |- _ =>
               apply find_None_existsb in H;
               unfold UserModel.matchesEither in H; congruence
           end.
  all: try (exfalso; apply Hcalm; cbn; rewrite ?take_0, !elem_of_cons; tauto).
  all: try match goal with
           | Hwf : usersWellFormed ?w,
             H : find _ (Users ?w) = Some ?u,
             S : lookupById u_id (u_id ?u) (Users ?w) = Some ?old
             |- ∃ before after, _ ∧ Users (_ (setUsers (upsert u_id ?new) _)) = _ =>
               apply find_Some_elem_of in H as [H _];
               assert (old = u) as ->
                 by (apply lookupById_Some in S as [? ?];
                     by apply (id_inj_NoDup u_id (Users w)); [apply Hwf | ..]);
               destruct (upsert_split u_id new (Users w) u S)
                 as (before & after & Hsplit & Hup & _);
               exists before, after; cbn; by rewrite Hup
           end.
  all: eexists; cbn; rewrite upsert_absent by done; by split_and!.
Qed.

Lemma usersWellFormed_boot : usersWellFormed boot.
Proof.
  split.
  - apply (bool_decide_unpack _). vm_compute. exact I.
  - intros u Hu. vm_compute in Hu.
    apply elem_of_cons in Hu as [-> | Hu]; [vm_compute; lia |].
    by apply elem_of_nil in Hu.
Qed.

Lemma wellFormedUsers_of_ids users next ids :
  u_id <$> users = ids → NoDup ids → Forall (fun i => i < next) ids →
  wellFormedUsers users next.
Proof.
  intros <- Hnd Hlt. split; [done |].
  intros u Hu. rewrite Forall_forall in Hlt. apply Hlt.
  apply list_elem_of_fmap. by exists u.
Qed.

Lemma faults_boot : faults boot = [].
Proof. vm_compute. reflexivity. Qed.

Lemma faults_joined : faults joined = [].
Proof. vm_compute. reflexivity. Qed.

Lemma clock_joined : clock joined = 0%Z.
Proof. vm_compute. reflexivity. Qed.

Lemma usersWellFormed_joined : usersWellFormed joined.
Proof.
  assert (Hu : u_id <$> Users joined = [0; 9]) by (vm_compute; reflexivity).
  assert (Hn : nextId joined = 10) by (vm_compute; reflexivity).
  unfold usersWellFormed. rewrite Hn.
  apply (wellFormedUsers_of_ids (Users joined) 10 [0; 9] Hu).
  - apply (bool_decide_unpack _). vm_compute. exact I.
  - repeat constructor; lia.
Qed.

Lemma calm_boot : true ∉ take 2 (faults boot).
Proof. rewrite faults_boot. cbn. apply not_elem_of_nil. Qed.

Lemma calm_joined : true ∉ take 2 (faults joined).
Proof. rewrite faults_joined. cbn. apply not_elem_of_nil. Qed.

Lemma nobody_like_alice_at_boot :
  find (UserModel.matchesEither (default "" (Some "alice"))
                                (default "" (Some "0xAAA")))
       (Users boot) = None.
Proof. vm_compute. reflexivity. Qed.

Lemma alice_found_by_wallet :
  find (UserModel.matchesEither (default "" (jd_username alicia))
                                (default "" (jd_walletAddress alicia)))
       (Users joined) = Some aliceOfDemo.
Proof. vm_compute. reflexivity. Qed.

Lemma users_after_alicia :
  Users (run (join "s2" (JoinObject alicia)) joined).1
  = [ mkUser 0 "system" "0x0000000000000000000000000000000000000000"
             None None false None 0%Z 0%Z;
      mkUser 9 "alice" "0xAAA" (Some "pic.png") (Some "user") true (Some "s2")
             0%Z 0%Z ].
Proof. vm_compute. reflexivity. Qed.

(** Both branches: at start-up nobody has the name or the wallet of alice,
    and her join appends her; once she is stored, a join under another
    name with her wallet address is resolved to her and rewrites her
    document in place. *)
Lemma join_resolves_or_creates_witness :
  ((usersWellFormed boot ∧ (true ∉ take 2 (faults boot)))
   ∧ welcomed (run (join "s1" alice) boot).2
   ∧ ∃ u,
       Users (run (join "s1" alice) boot).1 = Users boot ++ [u]
       ∧ u_username u = "alice"
       ∧ u_walletAddress u = "0xAAA"
       ∧ u_avatar u = None
       ∧ u_role u = Some "user"
       ∧ u_isOnline u = true
       ∧ u_socketId u = Some "s1")
  ∧ ((usersWellFormed joined ∧ (true ∉ take 2 (faults joined)))
     ∧ welcomed (run (join "s2" (JoinObject alicia)) joined).2
     ∧ (∃ before after,
          Users joined = before ++ aliceOfDemo :: after
          ∧ Users (run (join "s2" (JoinObject alicia)) joined).1
            = before
              ++ mkUser 9 "alice" "0xAAA" (Some "pic.png") (Some "user") true
                        (Some "s2") 0%Z 0%Z
              :: after)
     ∧ Users (run (join "s2" (JoinObject alicia)) joined).1
       = [ mkUser 0 "system" "0x0000000000000000000000000000000000000000"
                  None None false None 0%Z 0%Z;
           mkUser 9 "alice" "0xAAA" (Some "pic.png") (Some "user") true
                  (Some "s2") 0%Z 0%Z ]).
Proof.
  pose proof (join_resolves_or_creates boot "s1"
                (mkJoinData (Some "alice") (Some "0xAAA") None None) _ _
                eq_refl eq_refl usersWellFormed_boot (surjective_pairing _))
    as [Hprog1 Hsafe1].
  cbn [jd_username jd_walletAddress jd_avatar jd_role] in Hsafe1.
  rewrite nobody_like_alice_at_boot in Hsafe1.
  pose proof (join_resolves_or_creates joined "s2" alicia _ _
                eq_refl eq_refl usersWellFormed_joined (surjective_pairing _))
    as [Hprog2 Hsafe2].
  rewrite alice_found_by_wallet, clock_joined in Hsafe2.
  exact (conj
           (conj (conj usersWellFormed_boot calm_boot)
                 (conj (Hprog1 calm_boot) (Hsafe1 (Hprog1 calm_boot))))
           (conj (conj usersWellFormed_joined calm_joined)
                 (conj (Hprog2 calm_joined)
                       (conj (Hsafe2 (Hprog2 calm_joined))
                             users_after_alicia)))).
Defined.

(** ** Presence *)

Section PresenceLaws.
Variables (connections : gmap SocketId ObjectId) (users : list User)
          (next : ObjectId).
Hypothesis Hwf : wellFormedUsers users next.
Hypothesis Hcons : consistent connections users.

Lemma wellFormedUsers_S : wellFormedUsers users (S next).
Proof. destruct Hwf as [Hnd Hlt]. split; [done |]. intros u Hu. apply Hlt in Hu. lia. Qed.


Lemma wellFormedUsers_insert u' :
  u_id u' = next → wellFormedUsers (upsert u_id u' users) (S next).
Proof.
  destruct Hwf as [Hnd Hlt]. intros Hid.
  assert (Hnone : lookupById u_id (u_id u') users = None).
  { destruct (lookupById u_id (u_id u') users) eqn:E; [| done].
    apply lookupById_Some in E as [Hin Heq]. apply Hlt in Hin. lia. }
  rewrite upsert_absent by done. split.
  - rewrite fmap_app. cbn. apply NoDup_app. split_and!; [done | | apply NoDup_singleton].
    intros i [x [-> Hx]]%list_elem_of_fmap [= Heq]%list_elem_of_singleton.
    apply Hlt in Hx. lia.
  - intros x [Hx | ->%list_elem_of_singleton]%elem_of_app; [| lia].
    apply Hlt in Hx. lia.
Qed.





End PresenceLaws.















Lemma connections_boot : activeConnections boot = ∅.
Proof. vm_compute. reflexivity. Qed.

Lemma users_boot :
  Users boot
  = [mkUser 0 "system" "0x0000000000000000000000000000000000000000"
            None None false None 0%Z 0%Z].
Proof. vm_compute. reflexivity. Qed.

Lemma presenceInvariant_boot : presenceInvariant boot.
Proof.
  split; [apply usersWellFormed_boot |].
  unfold presenceConsistent. rewrite connections_boot, users_boot.
  intros u Hu.
  apply elem_of_cons in Hu as [-> | Hu]; [| by apply elem_of_nil in Hu].
  split; [intros H; discriminate H |].
  intros [s Hs]. rewrite lookup_empty in Hs. discriminate.
Qed.








(** A leave or a disconnect whose store call fails keeps its entry in the
    registry. Alice joins on [s1]; the disconnect of [s1] meets a store
    that fails and leaves [s1] bound to her; she joins again on [s2] and
    disconnects. One connection of hers was alive at a time, yet at the
    last event the registry had two entries for her: she ends offline with
    [s1] still bound. *)
Example stale_entry_breaks_presence :
  activeConnections
    (steps boot [Join "s1" alice; Environment 0%Z [true]; Disconnect "s1"])
    !! "s1" = Some 9
  ∧ ¬ exclusive
        (steps boot [Join "s1" alice; Environment 0%Z [true]; Disconnect "s1";
                     Join "s2" alice])
        (Disconnect "s2")
  ∧ ¬ presenceConsistent
        (steps boot [Join "s1" alice; Environment 0%Z [true]; Disconnect "s1";
                     Join "s2" alice; Disconnect "s2"]).
Proof.
  split_and!.
  - vm_compute. reflexivity.
  - set (w := steps boot [Join "s1" alice; Environment 0%Z [true];
                          Disconnect "s1"; Join "s2" alice]).
    assert (H1 : activeConnections w !! "s1" = Some 9)
      by (vm_compute; reflexivity).
    assert (H2 : activeConnections w !! "s2" = Some 9)
      by (vm_compute; reflexivity).
    intros H. specialize (H 9 "s1" H2 H1). discriminate H.
  - set (w := steps boot [Join "s1" alice; Environment 0%Z [true];
                          Disconnect "s1"; Join "s2" alice; Disconnect "s2"]).
    assert (Hu : Users w !! 1
                 = Some (mkUser 9 "alice" "0xAAA" None (Some "user") false None
                                0%Z 0%Z)) by (vm_compute; reflexivity).
    assert (Hs : activeConnections w !! "s1" = Some 9)
      by (vm_compute; reflexivity).
    intros H. apply list_elem_of_lookup_2 in Hu. apply H in Hu as [_ Hu].
    discriminate Hu. by exists "s1".
Qed.

(** * Further properties of the server *)

Ltac exec_routes :=
  unfold serve, route, MessageStore.findById, MessageStore.findByIdAndDelete,
    ChannelStore.findOneByName, ChannelStore.findOneAndIncByName,
    ChannelStore.findByIdAndSetCount, ChannelStore.findByIdPopulated,
    VoiceChannelStore.findOneByName, VoiceChannelStore.findById,
    VoiceChannelStore.new, VoiceChannelStore.findByIdAndDelete,
    VoiceChannelStore.findByIdPopulated, VoiceChannelModel.save,
    UserModel.findOneByUsername, ChannelModel.new, ChannelModel.save in *;
  exec.

(** ** Laws of updates in place *)

Section AlterFirst.
Import ChannelStore.
Variables (p : Channel → bool) (f : Channel → Channel).

Lemma alterFirst_none cs : find p cs = None → alterFirst p f cs = cs.
Proof.
  induction cs as [|c r IH]; cbn; [done |].
  destruct (p c); [done |]. intros H. by rewrite IH.
Qed.

Lemma alterFirst_split cs c :
  find p cs = Some c →
  ∃ before after,
    cs = before ++ c :: after
    ∧ alterFirst p f cs = before ++ f c :: after
    ∧ ∀ x, x ∈ before → p x = false.
Proof.
  induction cs as [|y r IH]; cbn; [done |].
  destruct (p y) eqn:E.
  - intros [= ->]. exists [], r. split_and!; [done | done |].
    intros x Hx. by apply elem_of_nil in Hx.
  - intros H. destruct (IH H) as (b & a & -> & Hup & Hb).
    exists (y :: b), a. rewrite Hup. split_and!; [done | done |].
    intros x [-> | Hx]%elem_of_cons; auto.
Qed.

Lemma alterFirst_names cs :
  (∀ c, c_name (f c) = c_name c) →
  c_name <$> alterFirst p f cs = c_name <$> cs.
Proof.
  intros Hf. induction cs as [|c r IH]; cbn; [done |].
  destruct (p c); cbn; by rewrite ?Hf, ?IH.
Qed.

Lemma lookup_alterFirst_ne cs k c :
  cs !! k = Some c → p c = false → alterFirst p f cs !! k = Some c.
Proof.
  revert k. induction cs as [|y r IH]; intros k; cbn; [done |].
  destruct (p y) eqn:E.
  - destruct k; cbn; [intros [= ->]; congruence | done].
  - destruct k; cbn; [done | apply IH].
Qed.

End AlterFirst.

Lemma updateFirst_alterFirst name t cs :
  ChannelModel.updateFirst name t cs
  = ChannelStore.alterFirst (ChannelStore.named name) (ChannelModel.touch t) cs.
Proof.
  induction cs as [|c r IH]; [reflexivity |].
  change (ChannelModel.updateFirst name t (c :: r))
    with (if String.eqb (c_name c) name then ChannelModel.touch t c :: r
          else c :: ChannelModel.updateFirst name t r).
  cbn [ChannelStore.alterFirst]. unfold ChannelStore.named at 1.
  destruct (String.eqb (c_name c) name); [done | by rewrite IH].
Qed.

Lemma firstNamed_find name cs :
  ChannelModel.firstNamed name cs = find (ChannelStore.named name) cs.
Proof. reflexivity. Qed.

(** In a list with unique names, the documents around one have other
    names. *)
Lemma names_around before (c : Channel) after x :
  NoDup (c_name <$> before ++ c :: after) →
  x ∈ before ++ after → c_name x ≠ c_name c.
Proof.
  rewrite fmap_app, fmap_cons. intros Hnd Hx Heq.
  apply NoDup_app in Hnd as (_ & Hdisj & [Hc _]%NoDup_cons).
  apply elem_of_app in Hx as [Hx | Hx].
  - apply (Hdisj (c_name x)); [apply list_elem_of_fmap; eauto |].
    rewrite Heq. apply list_elem_of_here.
  - apply Hc. rewrite <- Heq. apply list_elem_of_fmap. eauto.
Qed.

(** ** Laws of counting by label *)

Lemma labelledWith_app name a b :
  labelledWith name (a ++ b) = (labelledWith name a + labelledWith name b)%Z.
Proof. unfold labelledWith. rewrite filter_app, length_app. lia. Qed.

Lemma labelledWith_cons name m ms :
  labelledWith name (m :: ms)
  = ((if decide (m_channel m = name) then 1 else 0) + labelledWith name ms)%Z.
Proof.
  unfold labelledWith. rewrite filter_cons.
  destruct (decide (m_channel m = name)); cbn [length]; lia.
Qed.

Lemma labelledWith_nil name : labelledWith name [] = 0%Z.
Proof. reflexivity. Qed.

Lemma labelledWith_filter_ne name other ms :
  labelledWith name (filter (fun m => m_channel m ≠ other) ms)
  = if decide (name = other) then 0%Z else labelledWith name ms.
Proof.
  induction ms as [|m r IH].
  - rewrite filter_nil, labelledWith_nil. by destruct (decide _).
  - rewrite filter_cons.
    destruct (decide (m_channel m ≠ other)) as [Hne | Heq%dec_stable].
    + rewrite !labelledWith_cons, IH.
      destruct (decide (name = other)) as [-> |]; [| done].
      destruct (decide (m_channel m = other)); [done | lia].
    + rewrite labelledWith_cons, IH.
      destruct (decide (name = other)) as [-> |]; [done |].
      destruct (decide (m_channel m = name)); [congruence | lia].
Qed.

Lemma labelledWith_deleteById name i ms m :
  lookupById m_id i ms = Some m →
  labelledWith name (deleteById m_id i ms)
  = (labelledWith name ms - (if decide (m_channel m = name) then 1 else 0))%Z.
Proof.
  unfold lookupById. induction ms as [|x r IH]; cbn; [done |].
  destruct (Nat.eqb (m_id x) i).
  - intros [= ->]. rewrite labelledWith_cons. lia.
  - intros H. rewrite !labelledWith_cons, IH by done. lia.
Qed.

Lemma deleteById_split {D} (id : D → ObjectId) i (ds : list D) d :
  lookupById id i ds = Some d →
  ∃ before after,
    ds = before ++ d :: after
    ∧ deleteById id i ds = before ++ after
    ∧ ∀ x, x ∈ before → id x ≠ i.
Proof.
  unfold lookupById. induction ds as [|y r IH]; cbn; [done |].
  destruct (Nat.eqb_spec (id y) i) as [E | E].
  - intros [= ->]. exists [], r. split_and!; [done | done |].
    intros x Hx. by apply elem_of_nil in Hx.
  - intros H. destruct (IH H) as (b & a & -> & Hdel & Hb).
    exists (y :: b), a. rewrite Hdel. split_and!; [done | done |].
    intros x [-> | Hx]%elem_of_cons; auto.
Qed.

Lemma deleteById_absent {D} (id : D → ObjectId) i (ds : list D) :
  lookupById id i ds = None → deleteById id i ds = ds.
Proof.
  unfold lookupById. induction ds as [|y r IH]; cbn; [done |].
  destruct (Nat.eqb (id y) i); [done |]. intros H. by rewrite IH.
Qed.

(** ** The counters count *)

Lemma counted_same_counts cs ms ms' :
  counted cs ms →
  (∀ m, m ∈ ms' → m_channel m ∈ messageChannelEnum) →
  (∀ c, c ∈ cs → labelledWith (c_name c) ms' = labelledWith (c_name c) ms) →
  counted cs ms'.
Proof.
  intros (Hnd & _ & Hex) Hlab Hsame. split_and!; [done | done |].
  intros c Hc. rewrite Hsame by done. by apply Hex.
Qed.

Lemma counted_alter p f cs ms ms' c :
  counted cs ms →
  find p cs = Some c →
  (∀ x, c_name (f x) = c_name x) →
  (∀ m, m ∈ ms' → m_channel m ∈ messageChannelEnum) →
  c_messageCount (f c) = labelledWith (c_name c) ms' →
  (∀ name, name ≠ c_name c → labelledWith name ms' = labelledWith name ms) →
  counted (ChannelStore.alterFirst p f cs) ms'.
Proof.
  intros (Hnd & _ & Hex) Hfind Hname Hlab Hc Hother.
  destruct (alterFirst_split p f cs c Hfind) as (before & after & -> & -> & _).
  split_and!; [| done |].
  - rewrite fmap_app, fmap_cons, Hname. by rewrite fmap_app, fmap_cons in Hnd.
  - intros x Hx. apply elem_of_app in Hx as [Hx | [-> | Hx]%elem_of_cons].
    + rewrite Hother; [apply Hex; apply elem_of_app; by left |].
      apply (names_around before c after); [done | apply elem_of_app; by left].
    + by rewrite Hname.
    + rewrite Hother; [apply Hex; apply elem_of_app; right; by right |].
      apply (names_around before c after); [done | apply elem_of_app; by right].
Qed.

Lemma firstNamed_None_names name cs c :
  ChannelModel.firstNamed name cs = None → c ∈ cs → c_name c ≠ name.
Proof.
  unfold ChannelModel.firstNamed. intros H Hc Heq.
  apply list_elem_of_In in Hc. pose proof (find_none _ _ H c Hc) as Hn.
  cbn in Hn. apply String.eqb_neq in Hn. done.
Qed.

Lemma firstNamed_Some_name name cs c :
  ChannelModel.firstNamed name cs = Some c → c_name c = name.
Proof.
  unfold ChannelModel.firstNamed. intros [_ H]%find_some.
  by apply String.eqb_eq.
Qed.

(** A persisted message and the update of its channel. *)
Lemma counted_send cs ms m t :
  counted cs ms →
  m_channel m ∈ messageChannelEnum →
  counted (ChannelModel.updateFirst (m_channel m) t cs) (ms ++ [m]).
Proof.
  intros Hcount Hlabel. rewrite updateFirst_alterFirst.
  assert (Hlab : ∀ x, x ∈ ms ++ [m] → m_channel x ∈ messageChannelEnum).
  { intros x [Hx | ->%list_elem_of_singleton]%elem_of_app; [| done].
    by apply Hcount. }
  destruct (ChannelModel.firstNamed (m_channel m) cs) as [c|] eqn:E.
  - pose proof (firstNamed_Some_name _ _ _ E) as Hname.
    apply (counted_alter _ _ cs ms _ c); [done | done | done | done | |].
    + cbn. destruct Hcount as (_ & _ & Hex). rewrite (Hex c).
      * rewrite labelledWith_app, labelledWith_cons, labelledWith_nil, Hname.
        destruct (decide (m_channel m = m_channel m)); [lia | done].
      * apply find_some in E as [E _]. by apply list_elem_of_In.
    + intros name Hne.
      rewrite labelledWith_app, labelledWith_cons, labelledWith_nil.
      destruct (decide (m_channel m = name)); [congruence | lia].
  - rewrite alterFirst_none by done.
    apply (counted_same_counts cs ms); [done | done |].
    intros c Hc. pose proof (firstNamed_None_names _ _ c E Hc) as Hne.
    rewrite labelledWith_app, labelledWith_cons, labelledWith_nil.
    destruct (decide (m_channel m = c_name c)); [congruence | lia].
Qed.

Lemma castName_enum name :
  name ∈ messageChannelEnum → ChannelStore.castName name = name.
Proof.
  unfold messageChannelEnum. intros H.
  repeat (apply elem_of_cons in H as [-> | H]); try (vm_compute; reflexivity).
  by apply elem_of_nil in H.
Qed.

(** A deleted message and the decrement of its channel. *)
Lemma counted_deleteMessage cs ms i m :
  counted cs ms →
  lookupById m_id i ms = Some m →
  counted (ChannelStore.alterFirst
             (ChannelStore.named (ChannelStore.castName (m_channel m)))
             (ChannelStore.incMessageCount (-1)) cs)
          (deleteById m_id i ms).
Proof.
  intros Hcount Hm.
  assert (Hin : m ∈ ms) by (by apply lookupById_Some in Hm as [? _]).
  rewrite castName_enum by (by apply Hcount).
  assert (Hlab : ∀ x, x ∈ deleteById m_id i ms →
                      m_channel x ∈ messageChannelEnum).
  { intros x Hx. apply Hcount.
    destruct (deleteById_split m_id i ms m Hm) as (b & a & Hms & Hdel & _).
    rewrite Hdel in Hx. rewrite Hms.
    apply elem_of_app in Hx as [Hx | Hx]; apply elem_of_app;
      [by left | right; by right]. }
  destruct (ChannelModel.firstNamed (m_channel m) cs) as [c|] eqn:E.
  - pose proof (firstNamed_Some_name _ _ _ E) as Hname.
    apply (counted_alter _ _ cs ms _ c); [done | done | done | done | |].
    + cbn. destruct Hcount as (_ & _ & Hex). rewrite (Hex c).
      * rewrite (labelledWith_deleteById _ i ms m Hm), Hname.
        destruct (decide (m_channel m = m_channel m)); [lia | done].
      * apply find_some in E as [E _]. by apply list_elem_of_In.
    + intros name Hne. rewrite (labelledWith_deleteById _ i ms m Hm).
      destruct (decide (m_channel m = name)); [congruence | lia].
  - rewrite alterFirst_none by done.
    apply (counted_same_counts cs ms); [done | done |].
    intros c Hc. pose proof (firstNamed_None_names _ _ c E Hc) as Hne.
    rewrite (labelledWith_deleteById _ i ms m Hm).
    destruct (decide (m_channel m = c_name c)); [congruence | lia].
Qed.

(** The messages of a channel cleared and its counter reset. *)
Lemma counted_clear cs ms i c :
  counted cs ms →
  lookupById c_id i cs = Some c →
  counted (ChannelStore.alterFirst (ChannelStore.identified i)
                                   (ChannelStore.setMessageCount 0) cs)
          (filter (fun m => m_channel m ≠ c_name c) ms).
Proof.
  intros Hcount Hc.
  apply (counted_alter _ _ cs ms _ c); [done | done | done | | |].
  - intros m [_ Hm]%list_elem_of_filter. by apply Hcount.
  - cbn. rewrite labelledWith_filter_ne. by destruct (decide _).
  - intros name Hne. rewrite labelledWith_filter_ne.
    by destruct (decide (name = c_name c)).
Qed.

(** A channel deleted with its messages. *)
Lemma counted_deleteChannel cs ms i c :
  counted cs ms →
  lookupById c_id i cs = Some c →
  counted (deleteById c_id i cs) (filter (fun m => m_channel m ≠ c_name c) ms).
Proof.
  intros (Hnd & Hlab & Hex) Hc.
  destruct (deleteById_split c_id i cs c Hc) as (before & after & -> & -> & _).
  split_and!.
  - rewrite fmap_app, fmap_cons in Hnd. rewrite fmap_app.
    apply NoDup_app in Hnd as (H1 & H2 & [_ H3]%NoDup_cons).
    apply NoDup_app. split_and!; [done | | done].
    intros x Hx Hx'. apply (H2 x Hx). by right.
  - intros m [_ Hm]%list_elem_of_filter. by apply Hlab.
  - intros x Hx. rewrite labelledWith_filter_ne.
    pose proof (names_around before c after x Hnd Hx) as Hne.
    destruct (decide (c_name x = c_name c)); [done |].
    apply Hex. apply elem_of_app in Hx as [Hx | Hx]; apply elem_of_app;
      [by left | right; by right].
Qed.

(** A new channel, when no message carries its name. *)
Lemma counted_create cs ms c :
  counted cs ms →
  ChannelModel.firstNamed (c_name c) cs = None →
  c_messageCount c = 0%Z →
  labelledWith (c_name c) ms = 0%Z →
  counted (cs ++ [c]) ms.
Proof.
  intros (Hnd & Hlab & Hex) Hnew Hzero Hnone. split_and!; [| done |].
  - rewrite fmap_app. apply NoDup_app. split_and!; [done | | apply NoDup_singleton].
    intros name [x [-> Hx]]%list_elem_of_fmap [= Heq]%list_elem_of_singleton.
    by apply (firstNamed_None_names _ _ x Hnew Hx).
  - intros x [Hx | ->%list_elem_of_singleton]%elem_of_app; [by apply Hex |].
    by rewrite Hzero, Hnone.
Qed.

Lemma firstNamed_alterFirst name f cs :
  (∀ c, c_name (f c) = c_name c) →
  ChannelModel.firstNamed name
    (ChannelStore.alterFirst (ChannelStore.named name) f cs)
  = f <$> ChannelModel.firstNamed name cs.
Proof.
  intros Hf. unfold ChannelModel.firstNamed, ChannelStore.named.
  induction cs as [|c r IH]; cbn; [done |].
  destruct (String.eqb (c_name c) name) eqn:E; cbn; [| by rewrite E].
  by rewrite Hf, E.
Qed.

Lemma firstNamed_alterFirst_ne name other f cs :
  (∀ c, c_name (f c) = c_name c) →
  other ≠ name →
  ChannelModel.firstNamed other
    (ChannelStore.alterFirst (ChannelStore.named name) f cs)
  = ChannelModel.firstNamed other cs.
Proof.
  intros Hf Hne. unfold ChannelModel.firstNamed, ChannelStore.named.
  induction cs as [|c r IH]; cbn; [done |].
  destruct (String.eqb_spec (c_name c) name) as [E | E]; cbn.
  - rewrite Hf. destruct (String.eqb_spec (c_name c) other); [congruence | done].
  - by rewrite IH.
Qed.

Lemma lookupById_alterFirst i f cs :
  (∀ c, c_id (f c) = c_id c) →
  lookupById c_id i (ChannelStore.alterFirst (ChannelStore.identified i) f cs)
  = f <$> lookupById c_id i cs.
Proof.
  intros Hf. unfold lookupById, ChannelStore.identified.
  induction cs as [|c r IH]; cbn; [done |].
  destruct (Nat.eqb (c_id c) i) eqn:E; cbn; [| by rewrite E].
  by rewrite Hf, E.
Qed.

(** ** Deleting one message *)

(** X1. A [DELETE /api/messages/:id] that answers success removed the first
    message with that identifier and no other, took one off the counter of
    the channel its label names, and left every other channel document as
    it was. *)
Theorem deleteMessage_removes_one w messageId w' :
  serve w (DeleteMessage messageId) = (w', Ok MessageDeleted) →
  ∃ message before after,
    Messages w = before ++ message :: after
    ∧ m_id message = messageId
    ∧ (∀ x, x ∈ before → m_id x ≠ messageId)
    ∧ Messages w' = before ++ after
    ∧ (∀ n, counterOf w (ChannelStore.castName (m_channel message)) = Some n →
            counterOf w' (ChannelStore.castName (m_channel message))
            = Some (n - 1)%Z)
    ∧ (∀ k c, Channels w !! k = Some c →
              c_name c ≠ ChannelStore.castName (m_channel message) →
              Channels w' !! k = Some c)
    ∧ Users w' = Users w
    ∧ activeConnections w' = activeConnections w.
Proof.
  intros Hrun. unfold serve, route, deleteMessage in Hrun. exec_routes.
  cases_of Hrun; simplify_eq.
  all: match goal with
       | H : lookupById m_id ?i (Messages ?w) = Some ?m |- _ =>
           destruct (deleteById_split m_id i (Messages w) m H)
             as (before & after & Hms & Hdel & Hbefore);
           apply lookupById_Some in H as [_ Hid];
           exists m, before, after
       end.
  all: cbn; split_and!; try done.
  all: try (intros n Hn; unfold counterOf in *; cbn;
            rewrite firstNamed_alterFirst by done;
            destruct (ChannelModel.firstNamed _ (Channels w)); cbn in *;
            [injection Hn as <-; f_equal; lia | done]).
  all: intros k c Hk Hne; apply lookup_alterFirst_ne; [done |];
    by apply String.eqb_neq.
Qed.

Lemma served w r reply :
  (serve w r).2 = reply → serve w r = ((serve w r).1, reply).
Proof. intros <-. apply surjective_pairing. Qed.

Lemma deleteMessage_removes_one_witness :
  (serve demo (DeleteMessage 11)).2 = Ok MessageDeleted
  ∧ ∃ message before after,
      Messages demo = before ++ message :: after
      ∧ m_id message = 11
      ∧ (∀ x, x ∈ before → m_id x ≠ 11)
      ∧ Messages (serve demo (DeleteMessage 11)).1 = before ++ after
      ∧ (∀ n, counterOf demo (ChannelStore.castName (m_channel message))
              = Some n →
              counterOf (serve demo (DeleteMessage 11)).1
                        (ChannelStore.castName (m_channel message))
              = Some (n - 1)%Z)
      ∧ (∀ k c, Channels demo !! k = Some c →
                c_name c ≠ ChannelStore.castName (m_channel message) →
                Channels (serve demo (DeleteMessage 11)).1 !! k = Some c)
      ∧ Users (serve demo (DeleteMessage 11)).1 = Users demo
      ∧ activeConnections (serve demo (DeleteMessage 11)).1
        = activeConnections demo.
Proof.
  assert (H : (serve demo (DeleteMessage 11)).2 = Ok MessageDeleted)
    by (vm_compute; reflexivity).
  exact (conj H (deleteMessage_removes_one demo 11 _ (served _ _ _ H))).
Defined.

Example deleteMessage_example :
  m_id <$> Messages demo = [11; 12]
  ∧ m_id <$> Messages (serve demo (DeleteMessage 11)).1 = [12]
  ∧ counterOf demo "general" = Some 1%Z
  ∧ counterOf (serve demo (DeleteMessage 11)).1 "general" = Some 0%Z
  ∧ counterOf (serve demo (DeleteMessage 11)).1 "trading" = Some 1%Z.
Proof. vm_compute. done. Qed.

(** ** Clearing a channel *)

(** X2. A [DELETE /api/channels/:id/messages] that answers success removed
    exactly the messages labelled with the name of that channel, reports
    their number, and set the counter of the channel to zero; the time of
    its last message stays, and so does every other channel document. *)
Theorem clearChannelMessages_resets w channelId w' n :
  serve w (ClearChannelMessages channelId) = (w', Ok (MessagesCleared n)) →
  ∃ channel,
    lookupById c_id channelId (Channels w) = Some channel
    ∧ n = length (filter (fun m => m_channel m = c_name channel) (Messages w))
    ∧ Messages w' = filter (fun m => m_channel m ≠ c_name channel) (Messages w)
    ∧ lookupById c_id channelId (Channels w')
      = Some (mkChannel (c_id channel) (c_name channel) (c_description channel)
                        (c_isActive channel) 0%Z (c_lastMessageAt channel)
                        (c_createdBy channel))
    ∧ (∀ k c, Channels w !! k = Some c → c_id c ≠ channelId →
              Channels w' !! k = Some c)
    ∧ Users w' = Users w
    ∧ activeConnections w' = activeConnections w.
Proof.
  intros Hrun. unfold serve, route, clearChannelMessages in Hrun. exec_routes.
  cases_of Hrun; simplify_eq.
  all: eexists; cbn; split_and!; try done.
  all: try (rewrite lookupById_alterFirst by done;
            match goal with H : lookupById _ _ _ = Some _ |- _ => by rewrite H end).
  all: intros k x Hk Hne; apply lookup_alterFirst_ne; [done |];
    by apply Nat.eqb_neq.
Qed.

Lemma clearChannelMessages_resets_witness :
  (serve demo (ClearChannelMessages 1)).2 = Ok (MessagesCleared 1)
  ∧ ∃ channel,
      lookupById c_id 1 (Channels demo) = Some channel
      ∧ 1 = length (filter (fun m => m_channel m = c_name channel) (Messages demo))
      ∧ Messages (serve demo (ClearChannelMessages 1)).1
        = filter (fun m => m_channel m ≠ c_name channel) (Messages demo)
      ∧ lookupById c_id 1 (Channels (serve demo (ClearChannelMessages 1)).1)
        = Some (mkChannel (c_id channel) (c_name channel)
                          (c_description channel) (c_isActive channel) 0%Z
                          (c_lastMessageAt channel) (c_createdBy channel))
      ∧ (∀ k c, Channels demo !! k = Some c → c_id c ≠ 1 →
                Channels (serve demo (ClearChannelMessages 1)).1 !! k = Some c)
      ∧ Users (serve demo (ClearChannelMessages 1)).1 = Users demo
      ∧ activeConnections (serve demo (ClearChannelMessages 1)).1
        = activeConnections demo.
Proof.
  assert (H : (serve demo (ClearChannelMessages 1)).2 = Ok (MessagesCleared 1))
    by (vm_compute; reflexivity).
  exact (conj H (clearChannelMessages_resets demo 1 _ 1 (served _ _ _ H))).
Defined.


(** ** Requests that are turned down *)

(** X3. A request for a message, a channel or a voice channel that is not
    stored, or for a new channel or voice channel without a name or with a
    name that is taken, writes nothing: messages, channels, voice channels,
    users and the registry stay as they were. It is answered with 404 or
    400, or with 500 when the store fails at the first look-up. *)
Theorem refused_request_writes_nothing w r :
  refusable w r →
  Messages (serve w r).1 = Messages w
  ∧ Channels (serve w r).1 = Channels w
  ∧ VoiceChannels (serve w r).1 = VoiceChannels w
  ∧ Users (serve w r).1 = Users w
  ∧ activeConnections (serve w r).1 = activeConnections w
  ∧ ((serve w r).2 = refusal w r ∨ isFailed (serve w r).2)
  ∧ (faults w = [] → (serve w r).2 = refusal w r).
Proof.
  destruct r as [messageId | channelId | name description
                | name description maxParticipants isPrivate | voiceChannelId];
    cbn [refusable refusal].
  - intros H. unfold serve, route, deleteMessage. exec_routes.
    destruct (faults w) as [|[] fs]; cbn; rewrite ?H; cbn; auto 10.
    split_and!; auto. discriminate.
  - intros H. unfold serve, route, clearChannelMessages. exec_routes.
    destruct (faults w) as [|[] fs]; cbn; rewrite ?H; cbn; auto 10.
    split_and!; auto. discriminate.
  - intros H. unfold serve, route, createChannel. exec_routes.
    destruct (Js.truthy name) eqn:Hname; cbn; [| auto 10].
    destruct H as [H | [c Hc]]; [discriminate |].
    destruct (faults w) as [|[] fs]; cbn; rewrite ?Hc; cbn; auto 10.
    split_and!; auto. discriminate.
  - intros H. unfold serve, route, createVoiceChannel. exec_routes.
    destruct (Js.truthy name) eqn:Hname; cbn; [| auto 10].
    destruct H as [H | [v Hv]]; [discriminate |].
    destruct (faults w) as [|[] fs]; cbn; rewrite ?Hv; cbn; auto 10.
    split_and!; auto. discriminate.
  - intros H. unfold serve, route, deleteVoiceChannel. exec_routes.
    destruct (faults w) as [|[] fs]; cbn; rewrite ?H; cbn; auto 10.
    split_and!; auto. discriminate.
Qed.

Lemma refused_request_writes_nothing_witness :
  refusable demo (DeleteMessage 7)
  ∧ Messages (serve demo (DeleteMessage 7)).1 = Messages demo
  ∧ Channels (serve demo (DeleteMessage 7)).1 = Channels demo
  ∧ VoiceChannels (serve demo (DeleteMessage 7)).1 = VoiceChannels demo
  ∧ Users (serve demo (DeleteMessage 7)).1 = Users demo
  ∧ activeConnections (serve demo (DeleteMessage 7)).1 = activeConnections demo
  ∧ ((serve demo (DeleteMessage 7)).2 = refusal demo (DeleteMessage 7)
     ∨ isFailed (serve demo (DeleteMessage 7)).2)
  ∧ (faults demo = [] →
     (serve demo (DeleteMessage 7)).2 = refusal demo (DeleteMessage 7)).
Proof.
  assert (H : refusable demo (DeleteMessage 7)) by (vm_compute; reflexivity).
  exact (conj H (refused_request_writes_nothing demo (DeleteMessage 7) H)).
Defined.

(** ** Creating a channel *)

Lemma createChannel_Created w name description w' body :
  usersWellFormed w →
  serve w (CreateChannel name description) = (w', Created body) →
  ∃ c,
    Channels w' = Channels w ++ [c]
    ∧ c_name c = ChannelStore.castName (Js.toLowerCase (default "" name))
    ∧ c_description c
      = Js.trim (Js.orElse description ("Channel for " ++ default "" name))
    ∧ c_messageCount c = 0%Z ∧ c_lastMessageAt c = None ∧ c_isActive c = true
    ∧ ChannelModel.validate c = true
    ∧ ChannelModel.firstNamed (c_name c) (Channels w) = None
    ∧ Messages w' = Messages w
    ∧ activeConnections w' = activeConnections w
    ∧ (∃ creator, creator ∈ Users w' ∧ u_id creator = c_createdBy c
                  ∧ u_username creator = "system")
    ∧ (Users w' = Users w
       ∨ ∃ u, Users w' = Users w ++ [u] ∧ u_username u = "system"
              ∧ u_isOnline u = false).
Proof.
  intros Hwf Hrun. unfold serve, route, createChannel in Hrun.
  pose proof (lookupById_fresh w Hwf) as Hfresh. exec_routes.
  cases_of Hrun; simplify_eq.
  all: try congruence.
  all: eexists; cbn; rewrite ?upsert_absent by done; split_and!; try done.
  all: try (left; done).
  all: try (right; eexists; done).
  all: try match goal with
           | H : find _ (Users _) = Some ?u |- ∃ creator, _ =>
               apply find_Some_elem_of in H as [Hin Hname];
               apply String.eqb_eq in Hname; by exists u
           end.
  all: eexists; split_and!; [apply elem_of_app; right; apply list_elem_of_here | done..].
Qed.

(** X4. A [POST /api/channels] that answers 201 appended exactly one channel:
    its name is the requested one in lower case and trimmed, no channel had
    that name, its counter is zero and it has no last message; its creator
    is a stored user named [system], created on this occasion when there
    was none. Messages, the registry and the existing documents are as
    before. *)
Theorem createChannel_appends_one w name description w' body :
  usersWellFormed w →
  serve w (CreateChannel name description) = (w', Created body) →
  ∃ c,
    Channels w' = Channels w ++ [c]
    ∧ c_name c = ChannelStore.castName (Js.toLowerCase (default "" name))
    ∧ c_description c
      = Js.trim (Js.orElse description ("Channel for " ++ default "" name))
    ∧ c_messageCount c = 0%Z ∧ c_lastMessageAt c = None ∧ c_isActive c = true
    ∧ ChannelModel.validate c = true
    ∧ ChannelModel.firstNamed (c_name c) (Channels w) = None
    ∧ Messages w' = Messages w
    ∧ activeConnections w' = activeConnections w
    ∧ (∃ creator, creator ∈ Users w' ∧ u_id creator = c_createdBy c
                  ∧ u_username creator = "system")
    ∧ (Users w' = Users w
       ∨ ∃ u, Users w' = Users w ++ [u] ∧ u_username u = "system"
              ∧ u_isOnline u = false).
Proof. apply createChannel_Created. Qed.

Lemma createChannel_appends_one_witness :
  usersWellFormed boot
  ∧ (serve boot (CreateChannel (Some "Memes") None)).2
    = Created (ChannelCreated
                 (Some (mkChannel 9 "memes" "Channel for Memes" true 0%Z None 0,
                        Some "system")))
  ∧ ∃ c,
      Channels (serve boot (CreateChannel (Some "Memes") None)).1
      = Channels boot ++ [c]
      ∧ c_name c = ChannelStore.castName (Js.toLowerCase "Memes")
      ∧ c_description c = Js.trim (Js.orElse None ("Channel for " ++ "Memes"))
      ∧ c_messageCount c = 0%Z ∧ c_lastMessageAt c = None ∧ c_isActive c = true
      ∧ ChannelModel.validate c = true
      ∧ ChannelModel.firstNamed (c_name c) (Channels boot) = None
      ∧ Messages (serve boot (CreateChannel (Some "Memes") None)).1
        = Messages boot
      ∧ activeConnections (serve boot (CreateChannel (Some "Memes") None)).1
        = activeConnections boot
      ∧ (∃ creator,
            creator ∈ Users (serve boot (CreateChannel (Some "Memes") None)).1
            ∧ u_id creator = c_createdBy c ∧ u_username creator = "system")
      ∧ (Users (serve boot (CreateChannel (Some "Memes") None)).1 = Users boot
         ∨ ∃ u, Users (serve boot (CreateChannel (Some "Memes") None)).1
                = Users boot ++ [u]
                ∧ u_username u = "system" ∧ u_isOnline u = false).
Proof.
  assert (H : (serve boot (CreateChannel (Some "Memes") None)).2
              = Created (ChannelCreated
                  (Some (mkChannel 9 "memes" "Channel for Memes" true 0%Z None 0,
                         Some "system"))))
    by (vm_compute; reflexivity).
  exact (conj usersWellFormed_boot
           (conj H (createChannel_appends_one boot (Some "Memes") None _ _
                      usersWellFormed_boot (served _ _ _ H)))).
Defined.

(** ** The counters along events and requests *)

Lemma countersExact_faults w fs :
  countersExact w →
  countersExact
    (mkWorld (activeConnections w) (Users w) (Messages w) (Channels w)
             (VoiceChannels w) (nextId w) (clock w) fs).
Proof. done. Qed.

Lemma countersExact_nextId w :
  countersExact w →
  countersExact
    (mkWorld (activeConnections w) (Users w) (Messages w) (Channels w)
             (VoiceChannels w) (S (nextId w)) (clock w) (faults w)).
Proof. done. Qed.

Arguments counted : simpl never.

Ltac counters_untouched :=
  walk countersExact_faults countersExact_nextId; try done.

Lemma countersExact_join socket userData :
  preserves countersExact (join socket userData).
Proof. unfold join. counters_untouched. Qed.

Lemma countersExact_disconnect socket :
  preserves countersExact (disconnect socket).
Proof. unfold disconnect. counters_untouched. Qed.

Lemma countersExact_typing socket isTyping :
  preserves countersExact (typing socket isTyping).
Proof. unfold typing. counters_untouched. Qed.

Lemma countersExact_sendMessage w socket messageData :
  countersExact w → faults w = [] →
  countersExact (run (sendMessage socket messageData) w).1.
Proof.
  intros Hc Hf.
  destruct (run (sendMessage socket messageData) w) as [w' out] eqn:Hrun.
  cbn [fst]. unfold sendMessage in Hrun. exec.
  cases_of Hrun; simplify_eq; try congruence; unfold countersExact in *; cbn;
    try done.
  all: match goal with
       | H : MessageModel.validate ?m = true |- _ =>
           exact (counted_send _ _ m _ Hc (validate_channel m H))
       end.
Qed.

Lemma countersExact_broadcastLoop user md names : ∀ acc w out,
  countersExact w → faults w = [] →
  countersExact (worldOf (broadcastLoop user md names acc w out))
  ∧ faults (worldOf (broadcastLoop user md names acc w out)) = [].
Proof.
  induction names as [|name rest IH]; intros acc w out Hc Hf; [done |].
  rewrite broadcastLoop_cons.
  unfold mbind, Handler_bind, bind.
  destruct (broadcastOne user md name w out) as [signal w1 out1 | w1 out1] eqn:E.
  - assert (countersExact w1 ∧ faults w1 = []) as [Hc1 Hf1]; [| by apply IH].
    unfold broadcastOne in E. exec.
    cases_of E; simplify_eq; try congruence; unfold countersExact in *; cbn.
    split; [| done].
    match goal with
    | H : MessageModel.validate ?m = true |- _ =>
        exact (counted_send _ _ m _ Hc (validate_channel m H))
    end.
  - cbn. unfold broadcastOne in E. exec.
    cases_of E; simplify_eq; try congruence; unfold countersExact in *; cbn;
      done.
Qed.

Lemma countersExact_broadcastMessage w socket messageData :
  countersExact w → faults w = [] →
  countersExact (run (broadcastMessage socket messageData) w).1.
Proof.
  intros Hc Hf. rewrite run_worldOf.
  unfold broadcastMessage, tryCatch, mbind, Handler_bind, bind, gets.
  destruct (activeConnections w !! socket) as [userId|]; [| done].
  unfold UserModel.findById, mbind, Handler_bind, bind, gets, storeCall.
  rewrite Hf. cbn.
  destruct (lookupById u_id userId (Users w)) as [user|]; [| done].
  destruct (negb (u_isOnline user)); [done |].
  match goal with
  | |- context [broadcastLoop ?u ?md ?names ?acc ?w1 ?o] =>
      destruct (countersExact_broadcastLoop u md names acc w1 o) as [H1 H2];
      [done | done |];
      destruct (broadcastLoop u md names acc w1 o) as [signals w2 out2 | w2 out2]
  end; cbn in *; [| done].
  pose proof (forEach_emit signals w2 out2) as Hemit. unfold emit in Hemit.
  unfold emit. by rewrite Hemit.
Qed.

Lemma countersExact_deleteChannel w channelId :
  countersExact w → faults w = [] →
  countersExact (runRoute (deleteChannel channelId) w).1.
Proof.
  intros Hc Hf.
  destruct (runRoute (deleteChannel channelId) w) as [w' r] eqn:Hrun.
  cbn [fst]. unfold deleteChannel in Hrun. exec.
  cases_of Hrun; simplify_eq; try congruence; unfold countersExact in *; cbn;
    try done.
  by apply counted_deleteChannel.
Qed.

(** X5. With a store that does not fail, every socket event and the deletion of
    a channel keep the counters exact: channel names stay unique, labels
    stay within the enumeration of the schema, and the counter of every
    channel is the number of messages labelled with its name. *)
Theorem counters_exact_along_events w e :
  countersExact w → faults w = [] → countersExact (step w e).
Proof.
  intros Hc Hf. destruct e; cbn [step].
  - rewrite run_worldOf. by apply countersExact_join.
  - by apply countersExact_sendMessage.
  - by apply countersExact_broadcastMessage.
  - rewrite run_worldOf. by apply countersExact_typing.
  - rewrite run_worldOf. by apply countersExact_disconnect.
  - by apply countersExact_deleteChannel.
  - done.
Qed.

Lemma countersExact_serve w r :
  countersExact w → faults w = [] → unlabelled w r →
  countersExact (serve w r).1.
Proof.
  intros Hc Hf Hun.
  destruct (serve w r) as [w' reply] eqn:Hrun. cbn [fst].
  destruct r as [messageId | channelId | name description
                | name description maxParticipants isPrivate | voiceChannelId];
    unfold serve, route, deleteMessage, clearChannelMessages, createChannel,
      createVoiceChannel, deleteVoiceChannel in Hrun;
    exec_routes.
  - cases_of Hrun; simplify_eq; try congruence; unfold countersExact in *; cbn;
      try done.
    by apply counted_deleteMessage.
  - cases_of Hrun; simplify_eq; try congruence; unfold countersExact in *; cbn;
      try done.
    by apply counted_clear.
  - cases_of Hrun; simplify_eq; try congruence; unfold countersExact in *; cbn;
      try done.
    all: by apply counted_create.
  - cases_of Hrun; simplify_eq; try congruence; unfold countersExact in *; cbn;
      done.
  - cases_of Hrun; simplify_eq; try congruence; unfold countersExact in *; cbn;
      done.
Qed.

(** X6. With a store that does not fail, deleting a message and clearing a
    channel keep the counters exact, and so does creating a channel unless
    stored messages already carry its name, left behind by a channel of
    that name deleted before they were sent. The routes of the voice
    channels leave the counters alone. *)
Theorem counters_exact_along_requests w r :
  countersExact w → faults w = [] → unlabelled w r →
  countersExact (serve w r).1.
Proof. apply countersExact_serve. Qed.

Lemma steps_one w e : steps w [e] = step w e.
Proof. reflexivity. Qed.

Lemma channels_boot :
  Channels boot
  = [ mkChannel 1 "general" "Default general channel" true 0%Z None 0;
      mkChannel 2 "trading" "Default trading channel" true 0%Z None 0;
      mkChannel 3 "nft" "Default nft channel" true 0%Z None 0;
      mkChannel 4 "defi" "Default defi channel" true 0%Z None 0;
      mkChannel 5 "announcements" "Default announcements channel" true 0%Z
                None 0 ].
Proof. vm_compute. reflexivity. Qed.

Lemma messages_boot : Messages boot = [].
Proof. vm_compute. reflexivity. Qed.

Lemma countersExact_boot : countersExact boot.
Proof.
  unfold countersExact. rewrite channels_boot, messages_boot. split_and!.
  - apply (bool_decide_unpack _). vm_compute. exact I.
  - intros m Hm. by apply elem_of_nil in Hm.
  - intros c Hc.
    repeat (apply elem_of_cons in Hc as [-> | Hc]); try reflexivity.
    by apply elem_of_nil in Hc.
Qed.

Lemma countersExact_joined : countersExact joined.
Proof.
  unfold joined. rewrite steps_one. cbn [step]. rewrite run_worldOf.
  apply countersExact_join, countersExact_boot.
Qed.

Lemma counters_exact_along_events_witness :
  countersExact joined ∧ faults joined = []
  ∧ countersExact (step joined (SendMessage "s1" (say "hi" None))).
Proof.
  exact (conj countersExact_joined
           (conj faults_joined
              (counters_exact_along_events joined _ countersExact_joined
                 faults_joined))).
Defined.

Lemma counters_exact_along_requests_witness :
  countersExact joined ∧ faults joined = []
  ∧ unlabelled joined (CreateChannel (Some "Memes") None)
  ∧ countersExact (serve joined (CreateChannel (Some "Memes") None)).1.
Proof.
  assert (H : unlabelled joined (CreateChannel (Some "Memes") None))
    by (vm_compute; reflexivity).
  exact (conj countersExact_joined
           (conj faults_joined
              (conj H (counters_exact_along_requests joined _
                         countersExact_joined faults_joined H)))).
Defined.

(** X7. A channel created under a name that stored messages already carry
    starts with the counter zero, below the number of its messages: the
    counters are no longer exact. *)
Theorem recreated_channel_undercounts w name description w' body :
  usersWellFormed w →
  serve w (CreateChannel name description) = (w', Created body) →
  (0 < labelledWith (ChannelStore.castName (Js.toLowerCase (default "" name)))
                    (Messages w))%Z →
  ¬ countersExact w'.
Proof.
  intros Hwf Hrun Hpos (_ & _ & Hex).
  destruct (createChannel_Created w name description w' body Hwf Hrun)
    as (c & Hcs & Hname & _ & Hzero & _ & _ & _ & _ & Hms & _).
  specialize (Hex c). rewrite Hcs, Hms, Hzero, Hname in Hex.
  assert (Hin : c ∈ Channels w ++ [c]) by (apply elem_of_app; right; left).
  specialize (Hex Hin). lia.
Qed.

Lemma usersWellFormed_orphaned : usersWellFormed orphaned.
Proof.
  assert (Hu : u_id <$> Users orphaned = [0; 9]) by (vm_compute; reflexivity).
  assert (Hn : nextId orphaned = 11) by (vm_compute; reflexivity).
  unfold usersWellFormed. rewrite Hn.
  apply (wellFormedUsers_of_ids (Users orphaned) 11 [0; 9] Hu).
  - apply (bool_decide_unpack _). vm_compute. exact I.
  - repeat constructor; lia.
Qed.

Lemma recreated_channel_undercounts_witness :
  usersWellFormed orphaned
  ∧ (serve orphaned (CreateChannel (Some "General") None)).2
    = Created (ChannelCreated
                 (Some (mkChannel 11 "general" "Channel for General" true 0%Z
                                  None 0, Some "system")))
  ∧ (0 < labelledWith (ChannelStore.castName (Js.toLowerCase "General"))
                      (Messages orphaned))%Z
  ∧ ¬ countersExact (serve orphaned (CreateChannel (Some "General") None)).1.
Proof.
  assert (H : (serve orphaned (CreateChannel (Some "General") None)).2
              = Created (ChannelCreated
                  (Some (mkChannel 11 "general" "Channel for General" true 0%Z
                                   None 0, Some "system"))))
    by (vm_compute; reflexivity).
  assert (Hpos : (0 < labelledWith
                        (ChannelStore.castName (Js.toLowerCase "General"))
                        (Messages orphaned))%Z)
    by (vm_compute; reflexivity).
  exact (conj usersWellFormed_orphaned
           (conj H (conj Hpos
              (recreated_channel_undercounts orphaned (Some "General") None _ _
                 usersWellFormed_orphaned (served _ _ _ H) Hpos)))).
Defined.

(** ** What the schema refuses, what a failing store leaves behind *)

(** X8. A [sendMessage] whose channel label is not one of the five names of
    the message schema is refused whoever sends it and whatever channels
    exist: nothing is stored, no counter moves, and the sender gets one
    [messageError]. A channel created under another name cannot be
    written to. *)
Theorem label_outside_enum_refused w socket md :
  Js.orElse (md_channel md) "general" ∉ messageChannelEnum →
  ∃ w' error,
    run (sendMessage socket (Some md)) w
    = (w', [mkEmission (ToSender socket) (messageError error)])
    ∧ Messages w' = Messages w ∧ Channels w' = Channels w.
Proof.
  intros Hlabel.
  destruct (run (sendMessage socket (Some md)) w) as [w' out] eqn:Hrun.
  unfold sendMessage in Hrun. exec.
  cases_of Hrun; simplify_eq; eauto.
  all: match goal with
       | H : MessageModel.validate ?m = true |- _ =>
           destruct Hlabel; exact (validate_channel m H)
       end.
Qed.

Lemma label_outside_enum_refused_witness :
  ("memes" ∉ messageChannelEnum)
  ∧ ∃ w' error,
      run (sendMessage "s1" (say "hi" (Some "memes"))) joined
      = (w', [mkEmission (ToSender "s1") (messageError error)])
      ∧ Messages w' = Messages joined ∧ Channels w' = Channels joined.
Proof.
  assert (H : "memes" ∉ messageChannelEnum).
  { apply (bool_decide_unpack _). vm_compute. exact I. }
  exact (conj H (label_outside_enum_refused joined "s1"
                   (mkMessageData (Some "hi") (Some "memes")) H)).
Defined.

(** X9. When the store takes the message but fails on the update of the
    channel, the message stays stored although the sender is told that the
    send failed: the counter is not moved and no connection is notified. *)
Theorem sendMessage_stored_yet_reported_failed w socket md userId user rest :
  activeConnections w !! socket = Some userId →
  lookupById u_id userId (Users w) = Some user →
  u_isOnline user = true →
  MessageModel.validContent (Js.trim (u_username user))
                            (Js.trim (default "" (md_text md))) = true →
  Js.orElse (md_channel md) "general" ∈ messageChannelEnum →
  faults w = false :: false :: true :: rest →
  ∃ w' message,
    run (sendMessage socket (Some md)) w
    = (w', [mkEmission (ToSender socket)
                       (messageError "Server error processing message")])
    ∧ Messages w' = Messages w ++ [message]
    ∧ m_channel message = Js.orElse (md_channel md) "general"
    ∧ m_text message = Js.trim (default "" (md_text md))
    ∧ Channels w' = Channels w.
Proof.
  intros Hsock Huser Hon Hvalid Hlabel Hf. unfold sendMessage. exec.
  rewrite Hsock, Hf. cbn. rewrite Huser, Hon. cbn.
  rewrite validate_intro by done. cbn. eauto 10.
Qed.

Lemma sendMessage_stored_yet_reported_failed_witness :
  activeConnections stumbling !! "s1" = Some 9
  ∧ lookupById u_id 9 (Users stumbling) = Some aliceOfDemo
  ∧ faults stumbling = [false; false; true]
  ∧ ∃ w' message,
      run (sendMessage "s1" (say "hi" None)) stumbling
      = (w', [mkEmission (ToSender "s1")
                         (messageError "Server error processing message")])
      ∧ Messages w' = Messages stumbling ++ [message]
      ∧ m_channel message = Js.orElse None "general"
      ∧ m_text message = Js.trim (default "" (Some "hi"))
      ∧ Channels w' = Channels stumbling.
Proof.
  assert (H1 : activeConnections stumbling !! "s1" = Some 9)
    by (vm_compute; reflexivity).
  assert (H2 : lookupById u_id 9 (Users stumbling) = Some aliceOfDemo)
    by (vm_compute; reflexivity).
  assert (H3 : faults stumbling = [false; false; true])
    by (vm_compute; reflexivity).
  assert (H4 : "general" ∈ messageChannelEnum) by apply list_elem_of_here.
  exact (conj H1 (conj H2 (conj H3
           (sendMessage_stored_yet_reported_failed stumbling "s1"
              (mkMessageData (Some "hi") None) 9 aliceOfDemo [] H1 H2 eq_refl
              eq_refl H4 H3)))).
Defined.

(** ** Sending, then deleting *)

Lemma lookupById_app_fresh {D} (id : D → ObjectId) (ds : list D) d :
  (∀ x, x ∈ ds → id x ≠ id d) →
  lookupById id (id d) (ds ++ [d]) = Some d.
Proof.
  unfold lookupById. induction ds as [|y r IH]; intros Hfresh; cbn.
  - by rewrite Nat.eqb_refl.
  - destruct (Nat.eqb_spec (id y) (id d)) as [E | E].
    + destruct (Hfresh y); [left | done].
    + apply IH. intros x Hx. apply Hfresh. by right.
Qed.

Lemma deleteById_app_fresh {D} (id : D → ObjectId) (ds : list D) d :
  (∀ x, x ∈ ds → id x ≠ id d) →
  deleteById id (id d) (ds ++ [d]) = ds.
Proof.
  induction ds as [|y r IH]; intros Hfresh; cbn.
  - by rewrite Nat.eqb_refl.
  - destruct (Nat.eqb_spec (id y) (id d)) as [E | E].
    + destruct (Hfresh y); [left | done].
    + rewrite IH; [done |]. intros x Hx. apply Hfresh. by right.
Qed.

(** X10. Deleting the message that an accepted [sendMessage] announced
    undoes the send as far as messages and counters go: the messages are
    those before the send and every channel counter is back to its value.
    The document of the channel written to is not as it was: of its fields
    here, its last-message time is now the time of the deleted message (in
    the store the [updatedAt] that Mongoose maintains, which is not among
    them, has moved as well). Channels of other names, users and the
    registry are as before the send. *)
Theorem send_then_delete_restores w socket messageData w1 i username text
    timestamp avatar channel isBroadcast w2 :
  messagesWellFormed w →
  run (sendMessage socket messageData) w
  = (w1, [mkEmission ToAll (newMessage i username text timestamp avatar
                                       channel isBroadcast)]) →
  serve w1 (DeleteMessage i) = (w2, Ok MessageDeleted) →
  Messages w2 = Messages w
  ∧ (∀ name, counterOf w2 name = counterOf w name)
  ∧ (∀ c, ChannelModel.firstNamed channel (Channels w) = Some c →
          ChannelModel.firstNamed channel (Channels w2)
          = Some (mkChannel (c_id c) (c_name c) (c_description c)
                            (c_isActive c) (c_messageCount c)
                            (Some timestamp) (c_createdBy c)))
  ∧ (∀ name, name ≠ channel →
             ChannelModel.firstNamed name (Channels w2)
             = ChannelModel.firstNamed name (Channels w))
  ∧ Users w2 = Users w
  ∧ activeConnections w2 = activeConnections w.
Proof.
  intros Hwf Hsend Hdel. unfold sendMessage in Hsend.
  unfold serve, route, deleteMessage in Hdel. exec_routes.
  cases_of Hsend; simplify_eq.
  all: match goal with
       | H : MessageModel.validate ?m = true |- _ =>
           pose proof (validate_channel m H) as Hlabel; cbn in Hlabel;
           assert (Hfresh : ∀ x, x ∈ Messages w → m_id x ≠ m_id m)
             by (intros x Hx; apply Hwf in Hx; cbn; lia);
           pose proof (lookupById_app_fresh m_id (Messages w) m Hfresh) as Hlook;
           pose proof (deleteById_app_fresh m_id (Messages w) m Hfresh) as Hgone;
           cbn in Hlook, Hgone
       end.
  all: rewrite ?Hlook in Hdel; cbn in Hdel.
  all: cases_of Hdel; simplify_eq.
  all: cbn; rewrite Hgone, (castName_enum _ Hlabel), updateFirst_alterFirst.
  all: split_and!; try done.
  all: try (intros name; unfold counterOf; cbn;
            match goal with
            | |- context [ChannelStore.named ?n] =>
                destruct (decide (name = n)) as [-> | Hne]
            end;
            [ rewrite !firstNamed_alterFirst by done;
              destruct (ChannelModel.firstNamed _ (Channels w)); cbn; [| done];
              f_equal; lia
            | by rewrite !firstNamed_alterFirst_ne by done ]).
  all: try (intros c Hc; rewrite !firstNamed_alterFirst by done; rewrite Hc;
            cbn; unfold ChannelStore.incMessageCount, ChannelModel.touch; cbn;
            do 2 f_equal; lia).
  all: intros name Hne; by rewrite !firstNamed_alterFirst_ne by done.
Qed.

Lemma ran h w out : (run h w).2 = out → run h w = ((run h w).1, out).
Proof. intros <-. apply surjective_pairing. Qed.

Lemma messages_joined : Messages joined = [].
Proof. vm_compute. reflexivity. Qed.

Lemma messagesWellFormed_joined : messagesWellFormed joined.
Proof.
  unfold messagesWellFormed. rewrite messages_joined.
  intros m Hm. by apply elem_of_nil in Hm.
Qed.

Lemma general_before_send :
  ChannelModel.firstNamed "general" (Channels joined)
  = Some (mkChannel 1 "general" "Default general channel" true 0%Z None 0).
Proof. vm_compute. reflexivity. Qed.

Lemma send_then_delete_restores_witness :
  messagesWellFormed joined
  ∧ (run (sendMessage "s1" (say "hi" None)) joined).2
    = [mkEmission ToAll (newMessage 10 "alice" "hi" 0%Z None "general" false)]
  ∧ (serve (run (sendMessage "s1" (say "hi" None)) joined).1
           (DeleteMessage 10)).2 = Ok MessageDeleted
  ∧ Messages (serve (run (sendMessage "s1" (say "hi" None)) joined).1
                    (DeleteMessage 10)).1 = Messages joined
  ∧ (∀ name,
       counterOf (serve (run (sendMessage "s1" (say "hi" None)) joined).1
                        (DeleteMessage 10)).1 name
       = counterOf joined name)
  ∧ ChannelModel.firstNamed "general" (Channels joined)
    = Some (mkChannel 1 "general" "Default general channel" true 0%Z None 0)
  ∧ ChannelModel.firstNamed "general"
      (Channels (serve (run (sendMessage "s1" (say "hi" None)) joined).1
                       (DeleteMessage 10)).1)
    = Some (mkChannel 1 "general" "Default general channel" true 0%Z
                      (Some 0%Z) 0).
Proof.
  assert (H1 : (run (sendMessage "s1" (say "hi" None)) joined).2
               = [mkEmission ToAll
                    (newMessage 10 "alice" "hi" 0%Z None "general" false)])
    by (vm_compute; reflexivity).
  assert (H2 : (serve (run (sendMessage "s1" (say "hi" None)) joined).1
                      (DeleteMessage 10)).2 = Ok MessageDeleted)
    by (vm_compute; reflexivity).
  destruct (send_then_delete_restores joined "s1" (say "hi" None) _ _ _ _ _ _ _
              _ _ messagesWellFormed_joined (ran _ _ _ H1) (served _ _ _ H2))
    as (Hm & Hc & Hwritten & _).
  exact (conj messagesWellFormed_joined
           (conj H1 (conj H2 (conj Hm (conj Hc
              (conj general_before_send
                    (Hwritten _ general_before_send))))))).
Defined.

(** ** Start-up *)

Section Establishes.
Variable R : World → World → Prop.
Hypothesis R_refl : ∀ w, R w w.
Hypothesis R_trans : ∀ a b c, R a b → R b c → R a c.

Lemma establishes_ret {A} (a : A) : establishes R (mret a).
Proof. intros w out. apply R_refl. Qed.

Lemma establishes_bind {A B} (m : Handler A) (k : A → Handler B) :
  establishes R m → (∀ a, establishes R (k a)) → establishes R (m ≫= k).
Proof.
  intros Hm Hk w out. specialize (Hm w out).
  unfold mbind, Handler_bind, bind.
  destruct (m w out) as [a w1 out1 | w1 out1]; cbn in *; [| done].
  eapply R_trans; [exact Hm | apply Hk].
Qed.

Lemma establishes_tryCatch {A} (body handler : Handler A) :
  establishes R body → establishes R handler →
  establishes R (tryCatch body handler).
Proof.
  intros Hb Hh w out. specialize (Hb w out). unfold tryCatch.
  destruct (body w out) as [a w1 out1 | w1 out1]; cbn in *; [done |].
  eapply R_trans; [exact Hb | apply Hh].
Qed.

Lemma establishes_forEach {A} (l : list A) (f : A → Handler unit) :
  (∀ x, establishes R (f x)) → establishes R (forEach l f).
Proof.
  intros Hf. induction l as [|x r IH].
  - apply establishes_ret.
  - change (forEach (x :: r) f) with (f x ≫= fun _ => forEach r f).
    apply establishes_bind; [apply Hf | by intros _].
Qed.

End Establishes.

Lemma grows_refl w : grows w w.
Proof. intros Hwf. by split_and!. Qed.

Lemma grows_trans a b c : grows a b → grows b c → grows a c.
Proof.
  intros Hab Hbc Hwf.
  destruct (Hab Hwf) as (Hwf' & Hu & Hc & Hv & Hm & Hr).
  destruct (Hbc Hwf') as (Hwf'' & Hu' & Hc' & Hv' & Hm' & Hr').
  split_and!; [done | by etrans | by etrans | by etrans | congruence
              | congruence].
Qed.

Lemma grows_findSystem : establishes grows (UserModel.findOneByUsername "system").
Proof.
  intros w out Hwf. unfold UserModel.findOneByUsername. exec.
  destruct (faults w) as [|[] fs]; cbn; by split_and!.
Qed.

Lemma grows_newSystem :
  establishes grows
    (u ← UserModel.new "system" "0x0000000000000000000000000000000000000000"
           None None false None;
     UserModel.save u ;;
     ret u).
Proof.
  intros w out Hwf. pose proof (lookupById_fresh w Hwf) as Hfresh. exec.
  destruct (faults w) as [|[] fs]; cbn; rewrite ?Hfresh; cbn;
    try destruct (existsb _ (Users w)); cbn.
  all: try (split_and!; [by apply wellFormedUsers_S | done..]).
  all: split_and!; try done.
  all: try match goal with
           | |- usersWellFormed (setUsers (upsert u_id ?u) _) =>
               exact (wellFormedUsers_insert _ _ Hwf u eq_refl)
           end.
  all: cbn; rewrite upsert_absent by done; by eexists.
Qed.

Lemma grows_ensureChannel creator channelName :
  establishes grows
    (existingChannel ← ChannelModel.findOneByName channelName;
     match existingChannel with
     | Some _ => ret tt
     | None =>
         channel ← ChannelModel.new channelName
                     ("Default " ++ channelName ++ " channel") creator;
         ChannelModel.save channel
     end).
Proof.
  intros w out Hwf. unfold ChannelModel.findOneByName. exec_routes.
  destruct (faults w) as [|[] fs]; cbn.
  all: destruct (ChannelModel.firstNamed channelName (Channels w)); cbn.
  all: try destruct (ChannelModel.validate _); cbn.
  all: try destruct fs as [|[] fs]; cbn.
  all: try destruct (existsb _ _); cbn.
  all: split_and!; try done; try (by apply wellFormedUsers_S); by eexists.
Qed.

Lemma grows_ensureVoiceChannel creator (voiceChannelData : string * string) :
  establishes grows
    (existingVoiceChannel ← VoiceChannelModel.findOneByName voiceChannelData.1;
     match existingVoiceChannel with
     | Some _ => ret tt
     | None =>
         voiceChannel ← VoiceChannelModel.new voiceChannelData.1
                          voiceChannelData.2 creator;
         VoiceChannelModel.save voiceChannel
     end).
Proof.
  intros w out Hwf.
  unfold VoiceChannelModel.findOneByName, VoiceChannelModel.new,
    VoiceChannelModel.save.
  exec.
  destruct (faults w) as [|[] fs]; cbn.
  all: try (match goal with
            | |- context [find ?p (VoiceChannels ?w0)] =>
                destruct (find p (VoiceChannels w0))
            end; cbn).
  all: try destruct (VoiceChannelModel.validate _); cbn.
  all: try destruct fs as [|[] fs]; cbn.
  all: try destruct (existsb _ _); cbn.
  all: split_and!; try done; try (by apply wellFormedUsers_S); by eexists.
Qed.

Lemma grows_initializeChannels : establishes grows initializeChannels.
Proof.
  unfold initializeChannels.
  apply establishes_tryCatch; try apply grows_refl; try apply grows_trans.
  2: apply establishes_ret, grows_refl.
  apply establishes_bind; try apply grows_refl; try apply grows_trans.
  { apply grows_findSystem. }
  intros found.
  apply establishes_bind; try apply grows_refl; try apply grows_trans.
  { destruct found; [apply establishes_ret, grows_refl | apply grows_newSystem]. }
  intros systemUser.
  apply establishes_bind; try apply grows_refl; try apply grows_trans.
  { apply establishes_forEach; try apply grows_refl; try apply grows_trans.
    intros channelName. apply grows_ensureChannel. }
  intros _.
  apply establishes_forEach; try apply grows_refl; try apply grows_trans.
  intros voiceChannelData. apply grows_ensureVoiceChannel.
Qed.

(** X11. Whatever the store holds and wherever it fails, [initializeChannels]
    only adds: the users, channels and voice channels that were stored are
    still there afterwards, unchanged and in the same places, so that a
    restart resets no counter; messages and the registry are untouched. *)
Theorem initializeChannels_only_adds w :
  usersWellFormed w →
  usersWellFormed (run initializeChannels w).1
  ∧ Users w `prefix_of` Users (run initializeChannels w).1
  ∧ Channels w `prefix_of` Channels (run initializeChannels w).1
  ∧ VoiceChannels w `prefix_of` VoiceChannels (run initializeChannels w).1
  ∧ Messages (run initializeChannels w).1 = Messages w
  ∧ activeConnections (run initializeChannels w).1 = activeConnections w.
Proof.
  intros Hwf. rewrite run_worldOf. by apply grows_initializeChannels.
Qed.

Lemma usersWellFormed_demo : usersWellFormed demo.
Proof.
  assert (Hu : u_id <$> Users demo = [0; 9; 10]) by (vm_compute; reflexivity).
  assert (Hn : nextId demo = 13) by (vm_compute; reflexivity).
  unfold usersWellFormed. rewrite Hn.
  apply (wellFormedUsers_of_ids (Users demo) 13 [0; 9; 10] Hu).
  - apply (bool_decide_unpack _). vm_compute. exact I.
  - repeat constructor; lia.
Qed.

Lemma initializeChannels_only_adds_witness :
  usersWellFormed demo
  ∧ usersWellFormed (run initializeChannels demo).1
  ∧ Users demo `prefix_of` Users (run initializeChannels demo).1
  ∧ Channels demo `prefix_of` Channels (run initializeChannels demo).1
  ∧ VoiceChannels demo `prefix_of` VoiceChannels (run initializeChannels demo).1
  ∧ Messages (run initializeChannels demo).1 = Messages demo
  ∧ activeConnections (run initializeChannels demo).1 = activeConnections demo.
Proof.
  exact (conj usersWellFormed_demo
           (initializeChannels_only_adds demo usersWellFormed_demo)).
Defined.

(** *** With a store that does not fail *)

Lemma bind_Done {A B} (m : Handler A) (k : A → Handler B) w out a w' out' :
  m w out = Done a w' out' → (m ≫= k) w out = k a w' out'.
Proof. intros H. unfold mbind, Handler_bind, bind. by rewrite H. Qed.

Lemma bind_Thrown {A B} (m : Handler A) (k : A → Handler B) w out w' out' :
  m w out = Thrown w' out' → (m ≫= k) w out = Thrown w' out'.
Proof. intros H. unfold mbind, Handler_bind, bind. by rewrite H. Qed.

(** A loop whose turns all return: [I] holds along, [Q x] holds from the
    turn of [x] on. *)
Lemma forEach_progress {A} (I : World → Prop) (P : A → Prop)
    (Q : A → World → Prop) (f : A → Handler unit) :
  (∀ x w out, P x → I w →
     ∃ w', f x w out = Done tt w' out ∧ I w' ∧ Q x w'
           ∧ ∀ y, Q y w → Q y w') →
  ∀ l w out, Forall P l → I w →
    ∃ w', forEach l f w out = Done tt w' out ∧ I w'
          ∧ (∀ x, x ∈ l → Q x w') ∧ ∀ y, Q y w → Q y w'.
Proof.
  intros Hf. induction l as [|x r IH]; intros w out Hl HI.
  - exists w. split_and!; [done | done | | done].
    intros x Hx. by apply elem_of_nil in Hx.
  - apply Forall_cons in Hl as [Hx Hr].
    destruct (Hf x w out Hx HI) as (w1 & Hrun & HI1 & HQ & Hkeep).
    destruct (IH w1 out Hr HI1) as (w2 & Hrest & HI2 & HQs & Hkeep').
    exists w2. split_and!; [| done | | by auto].
    + change (forEach (x :: r) f) with (f x ≫= fun _ => forEach r f).
      by rewrite (bind_Done _ _ _ _ _ _ _ Hrun).
    + intros y [-> | Hy]%elem_of_cons; auto.
Qed.

Lemma firstNamed_app_Some name cs added c :
  ChannelModel.firstNamed name cs = Some c →
  ChannelModel.firstNamed name (cs ++ added) = Some c.
Proof.
  unfold ChannelModel.firstNamed. induction cs as [|x r IH]; cbn; [done |].
  destruct (String.eqb (c_name x) name); [done | apply IH].
Qed.

Lemma firstNamed_app_new name cs c :
  ChannelModel.firstNamed name cs = None → c_name c = name →
  ChannelModel.firstNamed name (cs ++ [c]) = Some c.
Proof.
  unfold ChannelModel.firstNamed. intros Hnone <-.
  induction cs as [|x r IH]; cbn in *.
  - by rewrite String.eqb_refl.
  - destruct (String.eqb (c_name x) (c_name c)); [done | by apply IH].
Qed.

(** One turn of the loop over the channel names. *)
Lemma ensureChannel_runs creator name w out :
  defaultName name = true → faults w = [] →
  ∃ w',
    (existingChannel ← ChannelModel.findOneByName name;
     match existingChannel with
     | Some _ => ret tt
     | None =>
         channel ← ChannelModel.new name ("Default " ++ name ++ " channel")
                     creator;
         ChannelModel.save channel
     end) w out = Done tt w' out
    ∧ faults w' = []
    ∧ Users w' = Users w ∧ VoiceChannels w' = VoiceChannels w
    ∧ Messages w' = Messages w ∧ activeConnections w' = activeConnections w
    ∧ match ChannelModel.firstNamed name (Channels w) with
      | Some _ => Channels w' = Channels w
      | None => ∃ c, Channels w' = Channels w ++ [c] ∧ c_name c = name
      end.
Proof.
  unfold defaultName. intros [[Hsame Hname]%andb_true_iff Hlen]%andb_true_iff Hf.
  apply String.eqb_eq in Hsame.
  unfold ChannelModel.findOneByName. exec_routes. rewrite Hf. cbn.
  destruct (ChannelModel.firstNamed name (Channels w)) as [c|] eqn:E; cbn.
  - eexists. by split_and!.
  - unfold ChannelModel.validate. cbn. rewrite Hsame, Hname, Hlen. cbn.
    rewrite (find_None_existsb _ _ E). cbn.
    eexists. split_and!; try done. by eexists.
Qed.

Lemma ensureVoiceChannel_runs creator (v : string * string) w out :
  defaultVoice v = true → faults w = [] →
  ∃ w',
    (existingVoiceChannel ← VoiceChannelModel.findOneByName v.1;
     match existingVoiceChannel with
     | Some _ => ret tt
     | None =>
         voiceChannel ← VoiceChannelModel.new v.1 v.2 creator;
         VoiceChannelModel.save voiceChannel
     end) w out = Done tt w' out
    ∧ faults w' = []
    ∧ Users w' = Users w ∧ Channels w' = Channels w
    ∧ Messages w' = Messages w ∧ activeConnections w' = activeConnections w
    ∧ match find (fun x => String.eqb (v_name x) v.1) (VoiceChannels w) with
      | Some _ => VoiceChannels w' = VoiceChannels w
      | None => ∃ x, VoiceChannels w' = VoiceChannels w ++ [x] ∧ v_name x = v.1
      end.
Proof.
  unfold defaultVoice. intros [[Hsame Hname]%andb_true_iff Hlen]%andb_true_iff Hf.
  apply String.eqb_eq in Hsame.
  unfold VoiceChannelModel.findOneByName, VoiceChannelModel.new,
    VoiceChannelModel.save.
  exec. rewrite Hf. cbn.
  destruct (find _ (VoiceChannels w)) as [x|] eqn:E; cbn.
  - eexists. by split_and!.
  - unfold VoiceChannelModel.validate. cbn. rewrite Hsame, Hname, Hlen. cbn.
    rewrite (find_None_existsb _ _ E). cbn.
    eexists. split_and!; try done. by eexists.
Qed.

Lemma sameStores_refl w : sameStores w w.
Proof. by unfold sameStores. Qed.

Lemma sameStores_trans w1 w2 w3 :
  sameStores w1 w2 → sameStores w2 w3 → sameStores w1 w3.
Proof.
  unfold sameStores.
  intros (-> & -> & -> & -> & ->) (-> & -> & -> & -> & ->). done.
Qed.

Lemma defaultName_channels :
  Forall (fun name => name ∈ channels ∧ defaultName name = true) channels.
Proof.
  apply Forall_forall. intros name Hin. split; [done |].
  revert name Hin. apply Forall_forall.
  repeat constructor; vm_compute; reflexivity.
Qed.

Lemma defaultVoice_defaultVoiceChannels :
  Forall (fun v => v ∈ defaultVoiceChannels ∧ defaultVoice v = true)
    defaultVoiceChannels.
Proof.
  apply Forall_forall. intros v Hin. split; [done |].
  revert v Hin. apply Forall_forall.
  repeat constructor; vm_compute; reflexivity.
Qed.

(** The loop over the channel names, with a store that does not fail. *)
Lemma ensureChannels_runs creator w out :
  faults w = [] →
  ∃ w',
    forEach channels (fun channelName =>
      existingChannel ← ChannelModel.findOneByName channelName;
      match existingChannel with
      | Some _ => ret tt
      | None =>
          channel ← ChannelModel.new channelName
                      ("Default " ++ channelName ++ " channel") creator;
          ChannelModel.save channel
      end) w out = Done tt w' out
    ∧ faults w' = []
    ∧ Users w' = Users w ∧ VoiceChannels w' = VoiceChannels w
    ∧ Messages w' = Messages w ∧ activeConnections w' = activeConnections w
    ∧ (∀ name, name ∈ channels →
               is_Some (ChannelModel.firstNamed name (Channels w')))
    ∧ ((∀ name, name ∈ channels →
                is_Some (ChannelModel.firstNamed name (Channels w))) →
       Channels w' = Channels w).
Proof.
  intros Hf.
  pose (I := fun w' : World =>
    faults w' = [] ∧ Users w' = Users w ∧ VoiceChannels w' = VoiceChannels w
    ∧ Messages w' = Messages w ∧ activeConnections w' = activeConnections w
    ∧ ((∀ name, name ∈ channels →
                is_Some (ChannelModel.firstNamed name (Channels w))) →
       Channels w' = Channels w)).
  pose (Q := fun (name : string) (w' : World) =>
    is_Some (ChannelModel.firstNamed name (Channels w'))).
  match goal with |- ∃ w', forEach _ ?f _ _ = _ ∧ _ => set (body := f) end.
  assert (Hbody : ∀ name w1 out1,
            name ∈ channels ∧ defaultName name = true → I w1 →
            ∃ w2, body name w1 out1 = Done tt w2 out1 ∧ I w2 ∧ Q name w2
                  ∧ ∀ y, Q y w1 → Q y w2).
  { intros name w1 out1 HP HI. destruct HP as [Hin Hdef].
    destruct HI as (Hf1 & Hu & Hv & Hm & Ha & Hsame).
    destruct (ensureChannel_runs creator name w1 out1 Hdef Hf1)
      as (w2 & Hrun & Hf2 & Hu2 & Hv2 & Hm2 & Ha2 & Hcs).
    exists w2. split; [exact Hrun |]. unfold I, Q.
    destruct (ChannelModel.firstNamed name (Channels w1)) as [c|] eqn:E.
    + rewrite Hcs, Hf2, Hu2, Hv2, Hm2, Ha2, E. by split_and!.
    + destruct Hcs as (c & Hcs & Hname).
      rewrite Hcs, Hf2, Hu2, Hv2, Hm2, Ha2.
      rewrite (firstNamed_app_new _ _ _ E Hname).
      split_and!; try done.
      * intros Hall. specialize (Hsame Hall). rewrite Hsame in E.
        destruct (Hall name Hin) as [x Hx]. congruence.
      * intros y [x Hx]. exists x. by apply firstNamed_app_Some. }
  destruct (forEach_progress I _ Q body Hbody channels w out
              defaultName_channels) as (w' & Hrun & HI & HQ & _).
  { unfold I. by split_and!. }
  exists w'. destruct HI as (? & ? & ? & ? & ? & ?). by split_and!.
Qed.

Lemma find_app_Some {A} (p : A → bool) l added x :
  find p l = Some x → find p (l ++ added) = Some x.
Proof.
  induction l as [|y r IH]; cbn; [done |]. destruct (p y); [done | apply IH].
Qed.

Lemma find_app_new {A} (p : A → bool) l x :
  find p l = None → p x = true → find p (l ++ [x]) = Some x.
Proof.
  intros Hnone Hp. induction l as [|y r IH]; cbn in *.
  - by rewrite Hp.
  - destruct (p y); [done | by apply IH].
Qed.

(** The loop over the voice channels, with a store that does not fail. *)
Lemma ensureVoiceChannels_runs creator w out :
  faults w = [] →
  ∃ w',
    forEach defaultVoiceChannels (fun voiceChannelData =>
      existingVoiceChannel ← VoiceChannelModel.findOneByName voiceChannelData.1;
      match existingVoiceChannel with
      | Some _ => ret tt
      | None =>
          voiceChannel ← VoiceChannelModel.new voiceChannelData.1
                           voiceChannelData.2 creator;
          VoiceChannelModel.save voiceChannel
      end) w out = Done tt w' out
    ∧ faults w' = []
    ∧ Users w' = Users w ∧ Channels w' = Channels w
    ∧ Messages w' = Messages w ∧ activeConnections w' = activeConnections w
    ∧ (∀ v, v ∈ defaultVoiceChannels →
            is_Some (find (fun x => String.eqb (v_name x) v.1)
                          (VoiceChannels w')))
    ∧ ((∀ v, v ∈ defaultVoiceChannels →
             is_Some (find (fun x => String.eqb (v_name x) v.1)
                           (VoiceChannels w))) →
       VoiceChannels w' = VoiceChannels w).
Proof.
  intros Hf.
  pose (I := fun w' : World =>
    faults w' = [] ∧ Users w' = Users w ∧ Channels w' = Channels w
    ∧ Messages w' = Messages w ∧ activeConnections w' = activeConnections w
    ∧ ((∀ v, v ∈ defaultVoiceChannels →
             is_Some (find (fun x => String.eqb (v_name x) v.1)
                           (VoiceChannels w))) →
       VoiceChannels w' = VoiceChannels w)).
  pose (Q := fun (v : string * string) (w' : World) =>
    is_Some (find (fun x => String.eqb (v_name x) v.1) (VoiceChannels w'))).
  match goal with |- ∃ w', forEach _ ?f _ _ = _ ∧ _ => set (body := f) end.
  assert (Hbody : ∀ v w1 out1,
            v ∈ defaultVoiceChannels ∧ defaultVoice v = true → I w1 →
            ∃ w2, body v w1 out1 = Done tt w2 out1 ∧ I w2 ∧ Q v w2
                  ∧ ∀ y, Q y w1 → Q y w2).
  { intros v w1 out1 HP HI. destruct HP as [Hin Hdef].
    destruct HI as (Hf1 & Hu & Hc & Hm & Ha & Hsame).
    destruct (ensureVoiceChannel_runs creator v w1 out1 Hdef Hf1)
      as (w2 & Hrun & Hf2 & Hu2 & Hc2 & Hm2 & Ha2 & Hvs).
    exists w2. split; [exact Hrun |]. unfold I, Q.
    destruct (find (fun x => String.eqb (v_name x) v.1) (VoiceChannels w1))
      as [x|] eqn:E.
    + rewrite Hvs, Hf2, Hu2, Hc2, Hm2, Ha2, E. by split_and!.
    + destruct Hvs as (x & Hvs & Hname).
      rewrite Hvs, Hf2, Hu2, Hc2, Hm2, Ha2.
      rewrite (find_app_new _ _ x E) by (rewrite Hname; apply String.eqb_refl).
      split_and!; try done.
      * intros Hall. specialize (Hsame Hall). rewrite Hsame in E.
        destruct (Hall v Hin) as [z Hz]. congruence.
      * intros y [z Hz]. exists z. by apply find_app_Some. }
  destruct (forEach_progress I _ Q body Hbody defaultVoiceChannels w out
              defaultVoice_defaultVoiceChannels) as (w' & Hrun & HI & HQ & _).
  { unfold I. by split_and!. }
  exists w'. destruct HI as (? & ? & ? & ? & ? & ?). by split_and!.
Qed.

Lemma findSystem_runs w out :
  faults w = [] →
  ∃ w',
    UserModel.findOneByUsername "system" w out
    = Done (find (fun u => String.eqb (u_username u) "system") (Users w)) w' out
    ∧ faults w' = [] ∧ nextId w' = nextId w ∧ sameStores w w'.
Proof.
  intros Hf. unfold UserModel.findOneByUsername, sameStores. exec.
  rewrite Hf. cbn. eexists. by split_and!.
Qed.

Lemma newSystem_runs w out :
  faults w = [] → lookupById u_id (nextId w) (Users w) = None →
  ∃ w',
    (u ← UserModel.new "system" "0x0000000000000000000000000000000000000000"
           None None false None;
     UserModel.save u ;;
     ret u) w out
    = (if existsb (fun v => String.eqb (u_username v) "system"
                            || String.eqb (u_walletAddress v) systemWallet)
                  (Users w)
       then Thrown w' out
       else Done (mkUser (nextId w) "system" systemWallet None None false None
                         (clock w) (clock w)) w' out)
    ∧ faults w' = []
    ∧ Channels w' = Channels w ∧ VoiceChannels w' = VoiceChannels w
    ∧ Messages w' = Messages w ∧ activeConnections w' = activeConnections w
    ∧ Users w'
      = (if existsb (fun v => String.eqb (u_username v) "system"
                              || String.eqb (u_walletAddress v) systemWallet)
                    (Users w)
         then Users w
         else Users w ++ [mkUser (nextId w) "system" systemWallet None None
                                 false None (clock w) (clock w)]).
Proof.
  intros Hf. unfold systemWallet. exec. intros Hfresh.
  rewrite Hf; cbn. rewrite Hfresh; cbn.
  destruct (existsb _ (Users w)) eqn:E; cbn.
  - eexists. by split_and!.
  - eexists. split_and!; try done. cbn. by rewrite upsert_absent.
Qed.

Lemma systemAvailable_cases w :
  find (fun u => String.eqb (u_username u) "system") (Users w) = None →
  (existsb (fun v => String.eqb (u_username v) "system"
                     || String.eqb (u_walletAddress v) systemWallet) (Users w)
   = false ↔ systemAvailable w).
Proof.
  intros Hnone. unfold systemAvailable. rewrite Hnone. split.
  - intros Hex. right. intros u Hin Hw.
    apply not_true_iff_false in Hex. apply Hex.
    apply existsb_exists. exists u. split; [by apply list_elem_of_In |].
    apply orb_true_iff. right. by apply String.eqb_eq.
  - intros [[u Hu] | Hall]; [done |].
    apply not_true_iff_false. intros (u & Hin & Hu)%existsb_exists.
    apply list_elem_of_In in Hin.
    apply orb_true_iff in Hu as [Hu | Hu].
    + apply find_none with (x := u) in Hnone; [congruence |].
      by apply list_elem_of_In.
    + apply String.eqb_eq in Hu. by apply (Hall u).
Qed.

(** Start-up with a store that does not fail: it returns; it leaves
    everything it provides stored when the user [system] is or can be
    stored, and writes nothing when all of it was stored or when the user
    cannot be stored. *)
Lemma initializeChannels_calm w out :
  faults w = [] → usersWellFormed w →
  ∃ w',
    initializeChannels w out = Done tt w' out
    ∧ faults w' = []
    ∧ (systemAvailable w → initialized w')
    ∧ (initialized w ∨ ¬ systemAvailable w → sameStores w w').
Proof.
  intros Hf Hwf. unfold initializeChannels, tryCatch.
  destruct (findSystem_runs w out Hf) as (w0 & Hfind & Hf0 & Hn0 & Hs0).
  rewrite (bind_Done _ _ _ _ _ _ _ Hfind).
  pose proof Hs0 as (Hu0 & Hc0 & Hv0 & Hm0 & Ha0).
  destruct (find (fun u => String.eqb (u_username u) "system") (Users w))
    as [u|] eqn:Efind.
  - rewrite (bind_Done (ret u) _ w0 out u w0 out eq_refl).
    destruct (ensureChannels_runs (u_id u) w0 out Hf0)
      as (w1 & Hrun1 & Hf1 & Hu1 & Hv1 & Hm1 & Ha1 & Hall1 & Hsame1).
    rewrite (bind_Done _ _ _ _ _ _ _ Hrun1).
    destruct (ensureVoiceChannels_runs (u_id u) w1 out Hf1)
      as (w2 & Hrun2 & Hf2 & Hu2 & Hc2 & Hm2 & Ha2 & Hall2 & Hsame2).
    rewrite Hrun2. exists w2. split_and!; try done.
    + intros _. unfold initialized. rewrite Hu2, Hu1, Hu0, Efind, Hc2.
      by split_and!.
    + intros [(_ & Hcs & Hvs) | Hno].
      * unfold sameStores.
        rewrite Hu2, Hu1, Hu0, Hc2, Hm2, Hm1, Hm0, Ha2, Ha1, Ha0.
        rewrite Hsame2 by (by rewrite Hv1, Hv0).
        rewrite Hsame1 by (by rewrite Hc0).
        by rewrite Hv1, Hv0, Hc0.
      * destruct Hno. left. unfold systemAvailable. by rewrite Efind.
  - assert (Hfresh : lookupById u_id (nextId w0) (Users w0) = None).
    { rewrite Hn0, Hu0. by apply lookupById_fresh. }
    destruct (newSystem_runs w0 out Hf0 Hfresh)
      as (w1 & Hnew & Hf1 & Hc1 & Hv1 & Hm1 & Ha1 & Hu1).
    pose proof (systemAvailable_cases w Efind) as Hav. rewrite <- Hu0 in Hav.
    destruct (existsb _ (Users w0)) eqn:Edup.
    + rewrite (bind_Thrown _ _ _ _ _ _ Hnew). exists w1.
      split_and!; try done.
      * intros Hyes. apply Hav in Hyes. done.
      * intros _. unfold sameStores.
        by rewrite Hu1, Hu0, Hc1, Hc0, Hv1, Hv0, Hm1, Hm0, Ha1, Ha0.
    + rewrite (bind_Done _ _ _ _ _ _ _ Hnew).
      destruct (ensureChannels_runs (nextId w0) w1 out Hf1)
        as (w2 & Hrun2 & Hf2 & Hu2 & Hv2 & Hm2 & Ha2 & Hall2 & Hsame2).
      cbn [u_id]. rewrite (bind_Done _ _ _ _ _ _ _ Hrun2).
      destruct (ensureVoiceChannels_runs (nextId w0) w2 out Hf2)
        as (w3 & Hrun3 & Hf3 & Hu3 & Hc3 & Hm3 & Ha3 & Hall3 & Hsame3).
      rewrite Hrun3. exists w3. split_and!; try done.
      * intros _. unfold initialized. rewrite Hu3, Hu2, Hu1, Hc3.
        split_and!; try done.
        eexists. apply find_app_new; [by rewrite Hu0 | done].
      * intros [(Hsys & _) | Hno].
        -- rewrite Efind in Hsys. by destruct Hsys.
        -- destruct Hno. by apply Hav.
Qed.

Lemma systemAvailable_dec w : systemAvailable w ∨ ¬ systemAvailable w.
Proof.
  destruct (find (fun u => String.eqb (u_username u) "system") (Users w))
    as [u|] eqn:E.
  - left. left. by rewrite E.
  - pose proof (systemAvailable_cases w E) as Hav.
    destruct (existsb _ (Users w)).
    + right. intros Hyes. apply Hav in Hyes. done.
    + left. by apply Hav.
Qed.

Lemma systemAvailable_sameStores w w' :
  sameStores w w' → systemAvailable w' → systemAvailable w.
Proof. unfold systemAvailable. by intros (-> & _). Qed.

(** X12. Start-up provides what it is written for: over a store that does not
    fail, and when the user [system] is stored or no stored user has its
    wallet address, there are afterwards a user [system], a channel of each
    of the five names and a voice channel of each of the three names; and
    nothing is sent to any connection. *)
Theorem initializeChannels_provides w :
  faults w = [] → usersWellFormed w → systemAvailable w →
  (∃ u, u ∈ Users (run initializeChannels w).1 ∧ u_username u = "system")
  ∧ (∀ name, name ∈ channels → channelExists (run initializeChannels w).1 name)
  ∧ (∀ v, v ∈ defaultVoiceChannels →
          ∃ x, x ∈ VoiceChannels (run initializeChannels w).1 ∧ v_name x = v.1)
  ∧ (run initializeChannels w).2 = [].
Proof.
  intros Hf Hwf Hav.
  destruct (initializeChannels_calm w [] Hf Hwf) as (w' & Hrun & _ & Hinit & _).
  unfold run. rewrite Hrun. cbn [fst snd].
  destruct (Hinit Hav) as ([u Hu] & Hcs & Hvs). split_and!; [| | | done].
  - apply find_some in Hu as [Hin Hname]. exists u.
    split; [by apply list_elem_of_In | by apply String.eqb_eq].
  - intros name Hin. destruct (Hcs name Hin) as [c Hc]. exists c. split.
    + apply find_some in Hc as [Hc _]. by apply list_elem_of_In.
    + by apply firstNamed_Some_name with (cs := Channels w').
  - intros v Hin. destruct (Hvs v Hin) as [x Hx].
    apply find_some in Hx as [Hx Hname]. exists x.
    split; [by apply list_elem_of_In | by apply String.eqb_eq].
Qed.

Lemma faults_orphaned : faults orphaned = [].
Proof. vm_compute. reflexivity. Qed.

Lemma systemAvailable_orphaned : systemAvailable orphaned.
Proof.
  left.
  assert (H : ∃ u, find (fun u => String.eqb (u_username u) "system")
                        (Users orphaned) = Some u).
  { eexists. vm_compute. reflexivity. }
  exact H.
Qed.

Lemma initializeChannels_provides_witness :
  (faults orphaned = [] ∧ usersWellFormed orphaned ∧ systemAvailable orphaned)
  ∧ (∃ u, u ∈ Users (run initializeChannels orphaned).1
          ∧ u_username u = "system")
  ∧ (∀ name, name ∈ channels →
             channelExists (run initializeChannels orphaned).1 name)
  ∧ (∀ v, v ∈ defaultVoiceChannels →
          ∃ x, x ∈ VoiceChannels (run initializeChannels orphaned).1
               ∧ v_name x = v.1)
  ∧ (run initializeChannels orphaned).2 = [].
Proof.
  exact (conj (conj faults_orphaned
                 (conj usersWellFormed_orphaned systemAvailable_orphaned))
           (initializeChannels_provides orphaned faults_orphaned
              usersWellFormed_orphaned systemAvailable_orphaned)).
Defined.

(** X13. Starting again changes nothing: over a store that does not fail, a
    second run of start-up leaves every collection and the registry as the
    first run left them, whatever the first run found. *)
Theorem initializeChannels_idempotent w :
  faults w = [] → usersWellFormed w →
  sameStores (run initializeChannels w).1
             (run initializeChannels (run initializeChannels w).1).1.
Proof.
  intros Hf Hwf.
  pose proof (grows_initializeChannels w [] Hwf) as (Hwf1 & _).
  destruct (initializeChannels_calm w [] Hf Hwf)
    as (w1 & Hrun1 & Hf1 & Hinit1 & Hsame1).
  rewrite Hrun1 in Hwf1. cbn [worldOf] in Hwf1.
  destruct (initializeChannels_calm w1 [] Hf1 Hwf1)
    as (w2 & Hrun2 & _ & _ & Hsame2).
  unfold run. rewrite Hrun1. cbn [fst]. rewrite Hrun2. cbn [fst].
  apply Hsame2.
  destruct (systemAvailable_dec w) as [Hyes | Hno].
  - left. by apply Hinit1.
  - right. intros Hav. apply Hno.
    apply (systemAvailable_sameStores w w1); [| done]. by apply Hsame1; right.
Qed.

Lemma faults_demo : faults demo = [].
Proof. vm_compute. reflexivity. Qed.

Lemma initializeChannels_idempotent_witness :
  (faults demo = [] ∧ usersWellFormed demo)
  ∧ sameStores (run initializeChannels demo).1
               (run initializeChannels (run initializeChannels demo).1).1.
Proof.
  exact (conj (conj faults_demo usersWellFormed_demo)
           (initializeChannels_idempotent demo faults_demo
              usersWellFormed_demo)).
Defined.

(** ** Leaving

    The explicit leave, [join] with [null], and [disconnect] run the same
    steps in another order. *)

(** X14. The explicit leave of a connection whose user is stored leaves the
    world that [disconnect] leaves, whatever the store does. They send the
    same [userLeft] when neither store call fails; when one fails, the
    leave reports [joinError] to the sender and [disconnect] sends
    nothing. *)
Theorem leave_agrees_with_disconnect w socket userId user :
  activeConnections w !! socket = Some userId →
  lookupById u_id userId (Users w) = Some user →
  (run (join socket JoinNull) w).1 = (run (disconnect socket) w).1
  ∧ (true ∉ take 2 (faults w) →
     (run (join socket JoinNull) w).2
     = [mkEmission (ToOthers socket) (userLeft (u_username user) (u_avatar user))]
     ∧ (run (disconnect socket) w).2
       = [mkEmission (ToOthers socket)
                     (userLeft (u_username user) (u_avatar user))])
  ∧ (true ∈ take 2 (faults w) →
     (run (join socket JoinNull) w).2
     = [mkEmission (ToSender socket)
                   (joinError "Failed to join. Please try again.")]
     ∧ (run (disconnect socket) w).2 = []).
Proof.
  intros Hbound Hstored.
  pose proof (lookupById_Some _ _ _ _ Hstored) as [_ Hid].
  unfold join, disconnect. exec. rewrite Hbound. cbn.
  destruct (faults w) as [|[] [|[] fs]]; cbn; rewrite ?Hstored; cbn;
    rewrite ?Hid, ?Hstored; cbn.
  all: split_and!; try done.
  all: intros Hin; exfalso; cbn in Hin; rewrite ?take_0 in Hin.
  all: rewrite ?elem_of_cons, ?elem_of_nil in Hin; intuition congruence.
Qed.

Lemma bound_joined : activeConnections joined !! "s1" = Some 9.
Proof. vm_compute. reflexivity. Qed.

Lemma stored_joined : lookupById u_id 9 (Users joined) = Some aliceOfDemo.
Proof. vm_compute. reflexivity. Qed.

Lemma leave_agrees_with_disconnect_witness :
  (activeConnections joined !! "s1" = Some 9
   ∧ lookupById u_id 9 (Users joined) = Some aliceOfDemo)
  ∧ (run (join "s1" JoinNull) joined).1 = (run (disconnect "s1") joined).1.
Proof.
  exact (conj (conj bound_joined stored_joined)
           (proj1 (leave_agrees_with_disconnect joined "s1" 9 aliceOfDemo
                     bound_joined stored_joined))).
Defined.

(** ** A session: [join], then [disconnect] *)

Lemma upsert_nil {D} (id : D → ObjectId) (d : D) : upsert id d [] = [d].
Proof. reflexivity. Qed.

Lemma upsert_cons {D} (id : D → ObjectId) (d x : D) (r : list D) :
  upsert id d (x :: r)
  = if Nat.eqb (id x) (id d) then d :: r else x :: upsert id d r.
Proof. reflexivity. Qed.

Lemma lookupById_upsert {D} (id : D → ObjectId) (d : D) (ds : list D) :
  lookupById id (id d) (upsert id d ds) = Some d.
Proof.
  unfold lookupById. induction ds as [|x r IH].
  - rewrite upsert_nil. cbn. by rewrite Nat.eqb_refl.
  - rewrite upsert_cons. destruct (Nat.eqb (id x) (id d)) eqn:E; cbn.
    + by rewrite Nat.eqb_refl.
    + by rewrite E.
Qed.

(** A [join] with a username and a wallet address, over a store that does
    not fail. *)
Lemma join_runs w socket d :
  faults w = [] → usersWellFormed w →
  Js.truthy (jd_username d) && Js.truthy (jd_walletAddress d) = true →
  ∃ user w1,
    match find (UserModel.matchesEither (default "" (jd_username d))
                                        (default "" (jd_walletAddress d)))
               (Users w) with
    | Some old =>
        user = mkUser (u_id old) (u_username old) (u_walletAddress old)
                      (if Js.truthy (jd_avatar d) then jd_avatar d
                       else u_avatar old)
                      (if Js.truthy (jd_role d) then jd_role d else u_role old)
                      true (Some socket) (clock w) (u_joinedAt old)
    | None =>
        user = mkUser (nextId w) (default "" (jd_username d))
                      (default "" (jd_walletAddress d))
                      (Js.orNull (jd_avatar d))
                      (Some (Js.orElse (jd_role d) "user"))
                      true (Some socket) (clock w) (clock w)
    end
    ∧ join socket (JoinObject d) w []
      = Done tt w1 [mkEmission (ToOthers socket)
                               (userJoined (u_username user) (u_avatar user)
                                           true)]
    ∧ faults w1 = []
    ∧ activeConnections w1 = <[socket := u_id user]> (activeConnections w)
    ∧ Users w1 = upsert u_id user (Users w)
    ∧ Messages w1 = Messages w ∧ Channels w1 = Channels w
    ∧ VoiceChannels w1 = VoiceChannels w.
Proof.
  intros Hf Hwf Hd. pose proof (lookupById_fresh w Hwf) as Hfresh.
  unfold join. rewrite Hd. exec. rewrite Hf. cbn.
  destruct (find _ (Users w)) as [old|] eqn:E; cbn.
  - apply find_Some_elem_of in E as [E _].
    destruct (lookupById_is_Some u_id (u_id old) (Users w) old E eq_refl)
      as [x Hx].
    rewrite Hx. cbn.
    match goal with |- context [upsert u_id ?u] => exists u end.
    eexists. split; [reflexivity |]. split; [reflexivity |]. by split_and!.
  - rewrite Hfresh. cbn.
    unfold UserModel.duplicateKey, UserModel.matchesEither in *. cbn.
    rewrite (find_None_existsb _ _ E). cbn.
    match goal with |- context [upsert u_id ?u] => exists u end.
    eexists. split; [reflexivity |]. split; [reflexivity |]. by split_and!.
Qed.

Lemma lookup_upsert_ne {D} (id : D → ObjectId) (d : D) (ds : list D) k x :
  ds !! k = Some x → id x ≠ id d → upsert id d ds !! k = Some x.
Proof.
  revert k. induction ds as [|y r IH]; intros k; [done |].
  rewrite upsert_cons. destruct (Nat.eqb_spec (id y) (id d)) as [E | E].
  - destruct k; cbn; [intros [= ->]; congruence | done].
  - destruct k; cbn; [done | apply IH].
Qed.

Lemma elem_of_upsert_self {D} (id : D → ObjectId) (d : D) (ds : list D) :
  d ∈ upsert id d ds.
Proof.
  pose proof (lookupById_upsert id d ds) as H.
  by apply lookupById_Some in H as [H _].
Qed.

(** A [disconnect] of a connection whose user is stored, over a store that
    does not fail. *)
Lemma disconnect_runs w socket user :
  faults w = [] →
  activeConnections w !! socket = Some (u_id user) →
  lookupById u_id (u_id user) (Users w) = Some user →
  ∃ w1,
    disconnect socket w []
    = Done tt w1 [mkEmission (ToOthers socket)
                             (userLeft (u_username user) (u_avatar user))]
    ∧ faults w1 = []
    ∧ activeConnections w1 = delete socket (activeConnections w)
    ∧ Users w1 = upsert u_id (wentOffline user) (Users w)
    ∧ Messages w1 = Messages w ∧ Channels w1 = Channels w
    ∧ VoiceChannels w1 = VoiceChannels w.
Proof.
  intros Hf Hbound Hstored. unfold disconnect. exec.
  rewrite Hbound. cbn. rewrite Hf. cbn. rewrite Hstored. cbn.
  rewrite Hstored. cbn. eexists. by split_and!.
Qed.

Lemma upsert_upsert {D} (id : D → ObjectId) (d d' : D) (ds : list D) :
  id d' = id d → upsert id d' (upsert id d ds) = upsert id d' ds.
Proof.
  intros Hid. induction ds as [|x r IH].
  - rewrite !upsert_nil, upsert_cons. by rewrite <- Hid, Nat.eqb_refl.
  - rewrite !upsert_cons, <- Hid.
    destruct (Nat.eqb (id x) (id d')) eqn:E; rewrite upsert_cons.
    + by rewrite <- Hid, Nat.eqb_refl.
    + rewrite E. f_equal. apply IH.
Qed.

(** X15. A whole session over a store that does not fail: a [join] with a
    username and a wallet address, then the [disconnect] of the same
    connection. The join resolves to the first stored user with that
    username or wallet address, with avatar and role replaced when
    supplied, or else to a new user with the supplied fields. After the
    session the connection is unbound; that user is stored with the online
    flag false and no connection, and otherwise as the join left it; every
    other user document is where and as it was; the others were told
    [userJoined] and then [userLeft] with the name and avatar of that
    user; and no message or channel was touched. *)
Theorem join_then_disconnect w socket d :
  faults w = [] → usersWellFormed w →
  Js.truthy (jd_username d) && Js.truthy (jd_walletAddress d) = true →
  ∃ user,
    match find (UserModel.matchesEither (default "" (jd_username d))
                                        (default "" (jd_walletAddress d)))
               (Users w) with
    | Some old =>
        user = mkUser (u_id old) (u_username old) (u_walletAddress old)
                      (if Js.truthy (jd_avatar d) then jd_avatar d
                       else u_avatar old)
                      (if Js.truthy (jd_role d) then jd_role d else u_role old)
                      true (Some socket) (clock w) (u_joinedAt old)
    | None =>
        user = mkUser (nextId w) (default "" (jd_username d))
                      (default "" (jd_walletAddress d))
                      (Js.orNull (jd_avatar d))
                      (Some (Js.orElse (jd_role d) "user"))
                      true (Some socket) (clock w) (clock w)
    end
    ∧ (run (join socket (JoinObject d)) w).2
      = [mkEmission (ToOthers socket)
                    (userJoined (u_username user) (u_avatar user) true)]
    ∧ (run (disconnect socket) (step w (Join socket (JoinObject d)))).2
      = [mkEmission (ToOthers socket)
                    (userLeft (u_username user) (u_avatar user))]
    ∧ activeConnections
        (steps w [Join socket (JoinObject d); Disconnect socket])
      = delete socket (activeConnections w)
    ∧ Users (steps w [Join socket (JoinObject d); Disconnect socket])
      = upsert u_id
          (mkUser (u_id user) (u_username user) (u_walletAddress user)
                  (u_avatar user) (u_role user) false None
                  (u_lastSeen user) (u_joinedAt user))
          (Users w)
    ∧ mkUser (u_id user) (u_username user) (u_walletAddress user)
             (u_avatar user) (u_role user) false None
             (u_lastSeen user) (u_joinedAt user)
      ∈ Users (steps w [Join socket (JoinObject d); Disconnect socket])
    ∧ (∀ k x, Users w !! k = Some x → u_id x ≠ u_id user →
              Users (steps w [Join socket (JoinObject d); Disconnect socket])
                !! k = Some x)
    ∧ Messages (steps w [Join socket (JoinObject d); Disconnect socket])
      = Messages w
    ∧ Channels (steps w [Join socket (JoinObject d); Disconnect socket])
      = Channels w.
Proof.
  intros Hf Hwf Hd.
  destruct (join_runs w socket d Hf Hwf Hd)
    as (user & w1 & Hwho & Hjoin & Hf1 & Ha1 & Hu1 & Hm1 & Hc1 & _).
  assert (Hbound : activeConnections w1 !! socket = Some (u_id user)).
  { rewrite Ha1. apply lookup_insert_eq. }
  assert (Hstored : lookupById u_id (u_id user) (Users w1) = Some user).
  { rewrite Hu1. apply lookupById_upsert. }
  destruct (disconnect_runs w1 socket user Hf1 Hbound Hstored)
    as (w2 & Hleave & _ & Ha2 & Hu2 & Hm2 & Hc2 & _).
  assert (Hfinal : Users w2
            = upsert u_id
                (mkUser (u_id user) (u_username user) (u_walletAddress user)
                        (u_avatar user) (u_role user) false None
                        (u_lastSeen user) (u_joinedAt user))
                (Users w)).
  { rewrite Hu2, Hu1. by apply upsert_upsert. }
  exists user. cbn [steps foldl step]. unfold run. rewrite Hjoin. cbn [fst snd].
  rewrite Hleave. cbn [fst snd]. split_and!; try done.
  - rewrite Ha2, Ha1. apply delete_insert_eq.
  - rewrite Hfinal. apply elem_of_upsert_self.
  - intros k x Hk Hne. rewrite Hfinal. by apply lookup_upsert_ne.
  - by rewrite Hm2.
  - by rewrite Hc2.
Qed.

Lemma users_after_session :
  Users (steps boot [Join "s1" alice; Disconnect "s1"])
  = [ mkUser 0 "system" "0x0000000000000000000000000000000000000000"
             None None false None 0%Z 0%Z;
      mkUser 9 "alice" "0xAAA" None (Some "user") false None 0%Z 0%Z ].
Proof. vm_compute. reflexivity. Qed.

Lemma signals_of_session :
  (run (join "s1" alice) boot).2
  = [mkEmission (ToOthers "s1") (userJoined "alice" None true)]
  ∧ (run (disconnect "s1") (step boot (Join "s1" alice))).2
    = [mkEmission (ToOthers "s1") (userLeft "alice" None)].
Proof. split; vm_compute; reflexivity. Qed.

Lemma clock_boot : clock boot = 0%Z.
Proof. vm_compute. reflexivity. Qed.

Lemma nextId_boot : nextId boot = 9.
Proof. vm_compute. reflexivity. Qed.

Lemma join_then_disconnect_witness :
  (faults boot = [] ∧ usersWellFormed boot
   ∧ Js.truthy (Some "alice") && Js.truthy (Some "0xAAA") = true)
  ∧ (∃ user,
       user = mkUser 9 "alice" "0xAAA" None (Some "user") true (Some "s1")
                     0%Z 0%Z
       ∧ (run (join "s1" alice) boot).2
         = [mkEmission (ToOthers "s1")
                       (userJoined (u_username user) (u_avatar user) true)]
       ∧ (run (disconnect "s1") (step boot (Join "s1" alice))).2
         = [mkEmission (ToOthers "s1")
                       (userLeft (u_username user) (u_avatar user))]
       ∧ activeConnections (steps boot [Join "s1" alice; Disconnect "s1"])
         = delete "s1" (activeConnections boot)
       ∧ Users (steps boot [Join "s1" alice; Disconnect "s1"])
         = upsert u_id
             (mkUser (u_id user) (u_username user) (u_walletAddress user)
                     (u_avatar user) (u_role user) false None
                     (u_lastSeen user) (u_joinedAt user))
             (Users boot)
       ∧ mkUser (u_id user) (u_username user) (u_walletAddress user)
                (u_avatar user) (u_role user) false None
                (u_lastSeen user) (u_joinedAt user)
         ∈ Users (steps boot [Join "s1" alice; Disconnect "s1"])
       ∧ (∀ k x, Users boot !! k = Some x → u_id x ≠ u_id user →
                 Users (steps boot [Join "s1" alice; Disconnect "s1"]) !! k
                 = Some x)
       ∧ Messages (steps boot [Join "s1" alice; Disconnect "s1"])
         = Messages boot
       ∧ Channels (steps boot [Join "s1" alice; Disconnect "s1"])
         = Channels boot)
  ∧ Users (steps boot [Join "s1" alice; Disconnect "s1"])
    = [ mkUser 0 "system" "0x0000000000000000000000000000000000000000"
               None None false None 0%Z 0%Z;
        mkUser 9 "alice" "0xAAA" None (Some "user") false None 0%Z 0%Z ]
  ∧ (run (join "s1" alice) boot).2
    = [mkEmission (ToOthers "s1") (userJoined "alice" None true)]
  ∧ (run (disconnect "s1") (step boot (Join "s1" alice))).2
    = [mkEmission (ToOthers "s1") (userLeft "alice" None)].
Proof.
  pose proof (join_then_disconnect boot "s1"
                (mkJoinData (Some "alice") (Some "0xAAA") None None)
                faults_boot usersWellFormed_boot eq_refl) as H.
  cbn [jd_username jd_walletAddress jd_avatar jd_role] in H.
  rewrite nobody_like_alice_at_boot, nextId_boot, clock_boot in H.
  exact (conj (conj faults_boot (conj usersWellFormed_boot eq_refl))
           (conj H (conj users_after_session signals_of_session))).
Defined.

(** ** Voice channels over HTTP *)

Lemma lookupById_stored {D} (id : D → ObjectId) (ds : list D) d :
  NoDup (id <$> ds) → d ∈ ds → lookupById id (id d) ds = Some d.
Proof.
  intros Hnd Hin.
  destruct (lookupById_is_Some id (id d) ds d Hin eq_refl) as [x Hx].
  rewrite Hx. f_equal.
  apply lookupById_Some in Hx as [Hx Hid].
  by apply (id_inj_NoDup id ds).
Qed.

Lemma createVoiceChannel_Created w name description maxParticipants isPrivate
    w' body :
  usersWellFormed w → voiceChannelsWellFormed w →
  serve w (CreateVoiceChannel name description maxParticipants isPrivate)
  = (w', Created body) →
  ∃ v,
    body = VoiceChannelCreated (Some (v, Some "system"))
    ∧ VoiceChannels w' = VoiceChannels w ++ [v]
    ∧ (∀ x, x ∈ VoiceChannels w → v_id x ≠ v_id v)
    ∧ v_name v = Js.trim (default "" name)
    ∧ v_name v ≠ ""
    ∧ find (fun x => String.eqb (v_name x) (v_name v)) (VoiceChannels w) = None
    ∧ v_description v
      = Js.trim (Js.orElse description
                           ("Voice channel for " ++ default "" name))
    ∧ v_maxParticipants v = orTen maxParticipants
    ∧ v_isPrivate v = default false isPrivate
    ∧ v_participants v = [] ∧ v_isActive v = true
    ∧ Channels w' = Channels w ∧ Messages w' = Messages w
    ∧ activeConnections w' = activeConnections w
    ∧ (Users w' = Users w
       ∨ ∃ u, Users w' = Users w ++ [u] ∧ u_username u = "system"
              ∧ u_isOnline u = false).
Proof.
  intros Hwf Hvwf Hrun. unfold serve, route, createVoiceChannel in Hrun.
  pose proof (lookupById_fresh w Hwf) as Hfresh. exec_routes.
  cases_of Hrun; simplify_eq.
  all: try congruence.
  all: cbn in *; rewrite ?upsert_absent in * by done.
  all: repeat match goal with
       | H : lookupById v_id _ (VoiceChannels ?w0 ++ [?d]) = _ |- _ =>
           let Hl := fresh "Hl" in
           assert (Hl : lookupById v_id (v_id d) (VoiceChannels w0 ++ [d])
                        = Some d)
             by (apply lookupById_app_fresh; intros x Hx; apply Hvwf in Hx;
                 cbn; lia);
           cbn in Hl; rewrite Hl in H; clear Hl
       end; simplify_eq.
  all: cbn in *; try discriminate.
  all: repeat match goal with
       | H : find _ (Users ?w0) = Some ?u
         |- context [lookupById u_id (u_id ?u) (Users ?w0)] =>
           rewrite (lookupById_stored u_id (Users w0) u (proj1 Hwf))
             by (by apply find_Some_elem_of in H as [? _]);
           apply find_Some_elem_of in H as [_ H]; apply String.eqb_eq in H;
           cbn; rewrite H
       | |- context [lookupById u_id ?i (Users ?w0 ++ [?d])] =>
           let Hl := fresh "Hl" in
           assert (Hl : lookupById u_id (u_id d) (Users w0 ++ [d]) = Some d)
             by (apply lookupById_app_fresh; intros x Hx;
                 apply (proj2 Hwf) in Hx; cbn; lia);
           cbn in Hl; rewrite Hl; clear Hl; cbn
       end.
  all: eexists; split; [reflexivity |]; cbn.
  all: match goal with
       | H : VoiceChannelModel.validate _ = true |- _ =>
           unfold VoiceChannelModel.validate in H; cbn in H;
           apply andb_true_iff in H as [H _]; apply negb_true_iff in H;
           apply String.eqb_neq in H
       end.
  all: split_and!; try done.
  all: try (intros x Hx; apply Hvwf in Hx; lia).
  all: try (left; done).
  all: try (right; eexists; done).
Qed.

Lemma numberOfInteger_safe n :
  (Z.abs n < 2 ^ 53)%Z → numberOfInteger n = n.
Proof.
  intros Hn. unfold numberOfInteger.
  assert (He : (Z.log2 (Z.abs n) + 1 - 53 <= 0)%Z).
  { destruct (Z.eq_dec (Z.abs n) 0%Z) as [-> | Hne]; [done |].
    assert (Hpos : (0 < Z.abs n)%Z) by lia.
    pose proof (proj1 (Z.log2_lt_pow2 (Z.abs n) 53%Z Hpos) Hn). lia. }
  destruct (Z.leb_spec (Z.log2 (Z.abs n) + 1 - 53)%Z 0%Z); [done | lia].
Qed.

(** X16. A [POST /api/voice-channels] that answers 201 appended exactly one
    voice channel, the one of the answer, with a new identifier: its name
    is the requested one trimmed, is not empty and was not taken; it has no
    participants and is private only when the request says so; its creator
    is the user [system], created on this occasion when there was none.
    The number of participants it holds is ten when the request names no
    number or zero, and otherwise the Number that the number of the request
    was read as: the number itself below 2^53 in magnitude, the nearest
    Number above. Channels, messages, the registry and the existing
    documents are as before. *)
Theorem createVoiceChannel_appends_one w name description maxParticipants
    isPrivate w' body :
  usersWellFormed w → voiceChannelsWellFormed w →
  finiteNumber maxParticipants →
  serve w (CreateVoiceChannel name description maxParticipants isPrivate)
  = (w', Created body) →
  ∃ v,
    body = VoiceChannelCreated (Some (v, Some "system"))
    ∧ VoiceChannels w' = VoiceChannels w ++ [v]
    ∧ (∀ x, x ∈ VoiceChannels w → v_id x ≠ v_id v)
    ∧ v_name v = Js.trim (default "" name)
    ∧ v_name v ≠ ""
    ∧ find (fun x => String.eqb (v_name x) (v_name v)) (VoiceChannels w) = None
    ∧ v_description v
      = Js.trim (Js.orElse description
                           ("Voice channel for " ++ default "" name))
    ∧ v_maxParticipants v = orTen maxParticipants
    ∧ (maxParticipants = None ∨ maxParticipants = Some 0%Z →
       v_maxParticipants v = 10%Z)
    ∧ (∀ n, maxParticipants = Some n → n ≠ 0%Z → (Z.abs n < 2 ^ 53)%Z →
            v_maxParticipants v = n)
    ∧ v_isPrivate v = default false isPrivate
    ∧ v_participants v = [] ∧ v_isActive v = true
    ∧ Channels w' = Channels w ∧ Messages w' = Messages w
    ∧ activeConnections w' = activeConnections w
    ∧ (Users w' = Users w
       ∨ ∃ u, Users w' = Users w ++ [u] ∧ u_username u = "system"
              ∧ u_isOnline u = false).
Proof.
  intros Hwf Hvwf _ Hrun.
  destruct (createVoiceChannel_Created _ _ _ _ _ _ _ Hwf Hvwf Hrun)
    as (v & Hbody & Hvs & Hnew & Hname & Hne & Hfree & Hdesc & Hmax & Hrest).
  exists v. split_and!; try done.
  - intros [-> | ->]; by rewrite Hmax.
  - intros n -> Hn Hsafe. rewrite Hmax. cbn [orTen].
    rewrite (numberOfInteger_safe n Hsafe).
    by destruct (Z.eqb_spec n 0).
  - apply Hrest.
  - apply Hrest.
  - apply Hrest.
  - apply Hrest.
  - apply Hrest.
  - apply Hrest.
  - apply Hrest.
Qed.

(** X17. The voice channel that a [POST /api/voice-channels] answered with can
    be deleted by its identifier: [DELETE /api/voice-channels/:id] never
    answers 404 for it; it answers 200 with the name and leaves the voice
    channels that were there before the creation, or, when one of its two
    store calls fails, answers 500 and leaves the voice channel stored. *)
Theorem voice_create_then_delete w name description maxParticipants isPrivate
    w1 v creator w2 reply :
  usersWellFormed w → voiceChannelsWellFormed w →
  serve w (CreateVoiceChannel name description maxParticipants isPrivate)
  = (w1, Created (VoiceChannelCreated (Some (v, creator)))) →
  serve w1 (DeleteVoiceChannel (v_id v)) = (w2, reply) →
  ((true ∉ take 2 (faults w1))
   ∧ reply = Ok (VoiceChannelDeleted (Js.trim (default "" name)))
   ∧ VoiceChannels w2 = VoiceChannels w)
  ∨ (true ∈ take 2 (faults w1)
     ∧ reply = Failed "Failed to delete voice channel"
     ∧ VoiceChannels w2 = VoiceChannels w ++ [v]).
Proof.
  intros Hwf Hvwf Hcreate Hdelete.
  destruct (createVoiceChannel_Created _ _ _ _ _ _ _ Hwf Hvwf Hcreate)
    as (v0 & [= <- _] & Hvs & Hnew & Hname & _).
  pose proof (lookupById_app_fresh v_id (VoiceChannels w) v Hnew) as Hfound.
  pose proof (deleteById_app_fresh v_id (VoiceChannels w) v Hnew) as Hgone.
  rewrite <- Hvs in Hfound, Hgone.
  unfold serve, route, deleteVoiceChannel in Hdelete.
  unfold VoiceChannelStore.findById, VoiceChannelStore.findByIdAndDelete
    in Hdelete.
  unfold tryCatch, mbind, mret, Handler_bind, Handler_ret, bind, ret, gets,
    modify, storeCall in Hdelete.
  cbn in Hdelete.
  destruct (faults w1) as [|[] [|[] fs]]; cbn in Hdelete;
    rewrite ?Hfound in Hdelete; cbn in Hdelete; simplify_eq; cbn.
  all: rewrite ?Hgone, ?Hname, ?Hvs, ?take_0, ?elem_of_cons, ?elem_of_nil.
  all: first [ left; split_and!; [| done..]; intuition congruence
             | right; split_and!; [| done..]; intuition congruence ].
Qed.

Lemma voiceChannelsWellFormed_of_ids w ids :
  v_id <$> VoiceChannels w = ids → Forall (fun i => i < nextId w) ids →
  voiceChannelsWellFormed w.
Proof.
  intros <- Hall v Hv. rewrite Forall_forall in Hall. apply Hall.
  apply list_elem_of_fmap. by exists v.
Qed.

Lemma voiceChannelsWellFormed_boot : voiceChannelsWellFormed boot.
Proof.
  assert (Hv : v_id <$> VoiceChannels boot = [6; 7; 8])
    by (vm_compute; reflexivity).
  assert (Hn : nextId boot = 9) by (vm_compute; reflexivity).
  apply (voiceChannelsWellFormed_of_ids boot [6; 7; 8] Hv).
  rewrite Hn. repeat constructor; lia.
Qed.

Lemma lounge_created :
  (serve boot (CreateVoiceChannel (Some "Lounge ") None (Some 0%Z) None)).2
  = Created (VoiceChannelCreated
               (Some (mkVoiceChannel 9 "Lounge" "Voice channel for Lounge" true
                                     [] 10%Z false 0,
                      Some "system"))).
Proof. vm_compute. reflexivity. Qed.

Lemma arena_created :
  (serve boot (CreateVoiceChannel (Some " Arena") None
                                  (Some 9007199254740993%Z) (Some true))).2
  = Created (VoiceChannelCreated
               (Some (mkVoiceChannel 9 "Arena" "Voice channel for  Arena" true
                                     [] 9007199254740992%Z true 0,
                      Some "system"))).
Proof. vm_compute. reflexivity. Qed.

Lemma arena_finite : finiteNumber (Some 9007199254740993%Z).
Proof. vm_compute. reflexivity. Qed.

(** A request for 2^53 + 1 participants, which no Number is: the voice
    channel holds 2^53. *)
Lemma createVoiceChannel_appends_one_witness :
  (usersWellFormed boot ∧ voiceChannelsWellFormed boot
   ∧ finiteNumber (Some 9007199254740993%Z))
  ∧ (serve boot (CreateVoiceChannel (Some " Arena") None
                                    (Some 9007199254740993%Z) (Some true))).2
    = Created (VoiceChannelCreated
                 (Some (mkVoiceChannel 9 "Arena" "Voice channel for  Arena"
                                       true [] 9007199254740992%Z true 0,
                        Some "system")))
  ∧ ∃ v,
      VoiceChannelCreated
        (Some (mkVoiceChannel 9 "Arena" "Voice channel for  Arena" true
                              [] 9007199254740992%Z true 0,
               Some "system"))
      = VoiceChannelCreated (Some (v, Some "system"))
      ∧ VoiceChannels
          (serve boot (CreateVoiceChannel (Some " Arena") None
                         (Some 9007199254740993%Z) (Some true))).1
        = VoiceChannels boot ++ [v]
      ∧ (∀ x, x ∈ VoiceChannels boot → v_id x ≠ v_id v)
      ∧ v_name v = Js.trim (default "" (Some " Arena"))
      ∧ v_name v ≠ ""
      ∧ find (fun x => String.eqb (v_name x) (v_name v)) (VoiceChannels boot)
        = None
      ∧ v_description v
        = Js.trim (Js.orElse None
                             ("Voice channel for "
                              ++ default "" (Some " Arena")))
      ∧ v_maxParticipants v = orTen (Some 9007199254740993%Z)
      ∧ (Some 9007199254740993%Z = None
         ∨ Some 9007199254740993%Z = Some 0%Z →
         v_maxParticipants v = 10%Z)
      ∧ (∀ n, Some 9007199254740993%Z = Some n → n ≠ 0%Z →
              (Z.abs n < 2 ^ 53)%Z → v_maxParticipants v = n)
      ∧ v_isPrivate v = default false (Some true)
      ∧ v_participants v = [] ∧ v_isActive v = true
      ∧ Channels
          (serve boot (CreateVoiceChannel (Some " Arena") None
                         (Some 9007199254740993%Z) (Some true))).1
        = Channels boot
      ∧ Messages
          (serve boot (CreateVoiceChannel (Some " Arena") None
                         (Some 9007199254740993%Z) (Some true))).1
        = Messages boot
      ∧ activeConnections
          (serve boot (CreateVoiceChannel (Some " Arena") None
                         (Some 9007199254740993%Z) (Some true))).1
        = activeConnections boot
      ∧ (Users
           (serve boot (CreateVoiceChannel (Some " Arena") None
                          (Some 9007199254740993%Z) (Some true))).1
         = Users boot
         ∨ ∃ u, Users
                  (serve boot (CreateVoiceChannel (Some " Arena") None
                                 (Some 9007199254740993%Z) (Some true))).1
                = Users boot ++ [u]
                ∧ u_username u = "system" ∧ u_isOnline u = false).
Proof.
  exact (conj (conj usersWellFormed_boot
                 (conj voiceChannelsWellFormed_boot arena_finite))
           (conj arena_created
              (createVoiceChannel_appends_one boot (Some " Arena") None
                 (Some 9007199254740993%Z) (Some true) _ _
                 usersWellFormed_boot voiceChannelsWellFormed_boot
                 arena_finite (served _ _ _ arena_created)))).
Defined.

Lemma voice_create_then_delete_witness :
  (usersWellFormed boot ∧ voiceChannelsWellFormed boot)
  ∧ (((true ∉ take 2 (faults (serve boot (CreateVoiceChannel (Some "Lounge ")
                                            None (Some 0%Z) None)).1))
      ∧ (serve (serve boot (CreateVoiceChannel (Some "Lounge ") None
                                               (Some 0%Z) None)).1
               (DeleteVoiceChannel 9)).2
        = Ok (VoiceChannelDeleted (Js.trim (default "" (Some "Lounge "))))
      ∧ VoiceChannels
          (serve (serve boot (CreateVoiceChannel (Some "Lounge ") None
                                                 (Some 0%Z) None)).1
                 (DeleteVoiceChannel 9)).1
        = VoiceChannels boot)
     ∨ (true ∈ take 2 (faults (serve boot (CreateVoiceChannel (Some "Lounge ")
                                             None (Some 0%Z) None)).1)
        ∧ (serve (serve boot (CreateVoiceChannel (Some "Lounge ") None
                                                 (Some 0%Z) None)).1
                 (DeleteVoiceChannel 9)).2
          = Failed "Failed to delete voice channel"
        ∧ VoiceChannels
            (serve (serve boot (CreateVoiceChannel (Some "Lounge ") None
                                                   (Some 0%Z) None)).1
                   (DeleteVoiceChannel 9)).1
          = VoiceChannels boot
            ++ [mkVoiceChannel 9 "Lounge" "Voice channel for Lounge" true
                               [] 10%Z false 0])).
Proof.
  exact (conj (conj usersWellFormed_boot voiceChannelsWellFormed_boot)
           (voice_create_then_delete boot (Some "Lounge ") None (Some 0%Z)
              None _
              (mkVoiceChannel 9 "Lounge" "Voice channel for Lounge" true
                              [] 10%Z false 0)
              (Some "system") _ _
              usersWellFormed_boot voiceChannelsWellFormed_boot
              (served _ _ _ lounge_created)
              (surjective_pairing _))).
Defined.

(** ** The schemas along every write *)

Lemma deleteById_sublist {D} (id : D → ObjectId) i (ds : list D) :
  deleteById id i ds `sublist_of` ds.
Proof.
  induction ds as [|x r IH]; cbn; [done |].
  destruct (Nat.eqb (id x) i); [by apply sublist_cons | by apply sublist_skip].
Qed.

Lemma Forall_sublist {A} (P : A → Prop) (l k : list A) :
  l `sublist_of` k → Forall P k → Forall P l.
Proof.
  rewrite !Forall_forall. intros Hsub Hk x Hx. apply Hk.
  by apply (elem_of_sublist l k).
Qed.

Lemma NoDup_fmap_sublist {A B} (f : A → B) (l k : list A) :
  l `sublist_of` k → NoDup (f <$> k) → NoDup (f <$> l).
Proof. intros Hsub Hk. eapply sublist_NoDup; [exact Hk | by apply fmap_sublist]. Qed.

Lemma NoDup_fmap_snoc {A} (f : A → string) (l : list A) (x : A) :
  existsb (fun y => String.eqb (f y) (f x)) l = false →
  NoDup (f <$> l) → NoDup (f <$> (l ++ [x])).
Proof.
  intros Hnew Hl. rewrite fmap_app. apply NoDup_app. split_and!; [done | |].
  - intros name Hin [-> | Hno%elem_of_nil]%elem_of_cons; [| done].
    apply list_elem_of_fmap in Hin as (y & Hy & Hin).
    apply not_true_iff_false in Hnew. apply Hnew.
    apply existsb_exists. exists y. split; [by apply list_elem_of_In |].
    apply String.eqb_eq. done.
  - apply NoDup_singleton.
Qed.

Lemma Forall_alterFirst (P : Channel → Prop) p f cs :
  (∀ c, P c → P (f c)) → Forall P cs →
  Forall P (ChannelStore.alterFirst p f cs).
Proof.
  intros Hf. induction 1 as [|c r Hc Hr IH]; cbn; [done |].
  destruct (p c); constructor; auto.
Qed.

Lemma schemaValid_faults w fs :
  schemaValid w →
  schemaValid (mkWorld (activeConnections w) (Users w) (Messages w)
                       (Channels w) (VoiceChannels w) (nextId w) (clock w) fs).
Proof. done. Qed.

Lemma schemaValid_nextId w :
  schemaValid w →
  schemaValid (mkWorld (activeConnections w) (Users w) (Messages w)
                       (Channels w) (VoiceChannels w) (S (nextId w)) (clock w)
                       (faults w)).
Proof. done. Qed.

Lemma schemaValid_setMessages w f :
  (∀ ms, f ms `sublist_of` ms) → schemaValid w → schemaValid (setMessages f w).
Proof.
  intros Hf (Hm & Hrest). split; [| done]. cbn.
  by apply (Forall_sublist _ _ (Messages w)).
Qed.

Lemma schemaValid_addMessage w m :
  MessageModel.validate m = true → schemaValid w →
  schemaValid (setMessages (fun ms => ms ++ [m]) w).
Proof.
  intros Hv (Hm & Hrest). split; [| done]. cbn.
  apply Forall_app. split; [done | by constructor].
Qed.

Lemma schemaValid_alterChannels w p f :
  (∀ c, c_name (f c) = c_name c) →
  (∀ c, c_description (f c) = c_description c) →
  schemaValid w → schemaValid (setChannels (ChannelStore.alterFirst p f) w).
Proof.
  intros Hname Hdesc (Hm & Hc & Hv & Hcn & Hvn). split_and!; try done; cbn.
  - apply Forall_alterFirst; [| done].
    intros c. unfold ChannelModel.validate. by rewrite Hname, Hdesc.
  - by rewrite alterFirst_names.
Qed.

Lemma schemaValid_updateFirst w name t :
  schemaValid w → schemaValid (setChannels (ChannelModel.updateFirst name t) w).
Proof.
  intros H.
  pose proof (schemaValid_alterChannels w (ChannelStore.named name)
                (ChannelModel.touch t) (fun _ => eq_refl) (fun _ => eq_refl) H)
    as (Hm & Hc & Hv & Hcn & Hvn).
  cbn in Hc, Hcn. rewrite <- updateFirst_alterFirst in Hc, Hcn.
  by split_and!.
Qed.

Lemma schemaValid_deleteChannel w i :
  schemaValid w → schemaValid (setChannels (deleteById c_id i) w).
Proof.
  intros (Hm & Hc & Hv & Hcn & Hvn). split_and!; try done; cbn.
  - eapply Forall_sublist; [apply deleteById_sublist | done].
  - eapply NoDup_fmap_sublist; [apply deleteById_sublist | done].
Qed.

Lemma schemaValid_deleteVoiceChannel w i :
  schemaValid w → schemaValid (setVoiceChannels (deleteById v_id i) w).
Proof.
  intros (Hm & Hc & Hv & Hcn & Hvn). split_and!; try done; cbn.
  - eapply Forall_sublist; [apply deleteById_sublist | done].
  - eapply NoDup_fmap_sublist; [apply deleteById_sublist | done].
Qed.

Lemma schemaValid_saveChannel c : preserves schemaValid (ChannelModel.save c).
Proof.
  intros w out (Hm & Hc & Hv & Hcn & Hvn). unfold ChannelModel.save.
  destruct (ChannelModel.validate c) eqn:Hvalid; [| done]. exec.
  destruct (faults w) as [|[] fs]; cbn; try done.
  all: destruct (existsb _ (Channels w)) eqn:Hnew; cbn; try done.
  all: split_and!; try done; cbn.
  all: try (apply Forall_app; split; [done | by constructor]).
  all: by apply NoDup_fmap_snoc.
Qed.

Lemma schemaValid_saveVoiceChannel v :
  preserves schemaValid (VoiceChannelModel.save v).
Proof.
  intros w out (Hm & Hc & Hv & Hcn & Hvn). unfold VoiceChannelModel.save.
  destruct (VoiceChannelModel.validate v) eqn:Hvalid; [| done]. exec.
  destruct (faults w) as [|[] fs]; cbn; try done.
  all: destruct (existsb _ (VoiceChannels w)) eqn:Hnew; cbn; try done.
  all: split_and!; try done; cbn.
  all: try (apply Forall_app; split; [done | by constructor]).
  all: by apply NoDup_fmap_snoc.
Qed.

(** Walking through a handler: the saves of channels keep the schemas by
    the lemmas above, every other write by what guards it. *)
Ltac valid :=
  unfold MessageStore.findById, MessageStore.findByIdAndDelete,
    ChannelStore.findOneByName, ChannelStore.findOneAndIncByName,
    ChannelStore.findByIdAndSetCount, ChannelStore.findByIdPopulated,
    VoiceChannelStore.findOneByName, VoiceChannelStore.findById,
    VoiceChannelStore.new, VoiceChannelStore.findByIdAndDelete,
    VoiceChannelStore.findByIdPopulated,
    VoiceChannelModel.findOneByName, VoiceChannelModel.new,
    ChannelModel.findOneByName, ChannelModel.new,
    UserModel.findOneByUsername;
  walk schemaValid_faults schemaValid_nextId;
  try apply schemaValid_saveChannel;
  try apply schemaValid_saveVoiceChannel;
  try done;
  try (apply schemaValid_addMessage; done);
  try (apply schemaValid_updateFirst; done);
  try (apply schemaValid_deleteChannel; done);
  try (apply schemaValid_deleteVoiceChannel; done);
  try (apply schemaValid_alterChannels; done);
  try (apply schemaValid_setMessages;
       [intros ?; first [apply deleteById_sublist | apply sublist_filter]
       | done]).

Lemma schemaValid_join socket userData :
  preserves schemaValid (join socket userData).
Proof. unfold join. valid. Qed.

Lemma schemaValid_disconnect socket : preserves schemaValid (disconnect socket).
Proof. unfold disconnect. valid. Qed.

Lemma schemaValid_typing socket isTyping :
  preserves schemaValid (typing socket isTyping).
Proof. unfold typing. valid. Qed.

Lemma schemaValid_sendMessage socket messageData :
  preserves schemaValid (sendMessage socket messageData).
Proof. unfold sendMessage. valid. Qed.

Lemma schemaValid_broadcastLoop user messageData names acc :
  preserves schemaValid (broadcastLoop user messageData names acc).
Proof.
  revert acc. induction names as [|name rest IH]; intros acc; cbn.
  - apply preserves_ret.
  - apply preserves_bind; [| intros ?; apply IH].
    unfold broadcastOne. valid.
Qed.

Lemma schemaValid_broadcastMessage socket messageData :
  preserves schemaValid (broadcastMessage socket messageData).
Proof.
  unfold broadcastMessage. pose proof schemaValid_broadcastLoop. valid.
Qed.

Lemma schemaValid_deleteChannel_route channelId :
  preserves schemaValid (deleteChannel channelId).
Proof. unfold deleteChannel. valid. Qed.

Lemma schemaValid_route r : preserves schemaValid (route r).
Proof.
  destruct r; unfold route, deleteMessage, clearChannelMessages, createChannel,
    createVoiceChannel, deleteVoiceChannel; valid.
Qed.

Lemma schemaValid_initializeChannels : preserves schemaValid initializeChannels.
Proof. unfold initializeChannels. valid. Qed.

Lemma serve_worldOf w r : (serve w r).1 = worldOf (route r w []).
Proof. unfold serve. by destruct (route r w []). Qed.

Lemma schemaValid_step w e : schemaValid w → schemaValid (step w e).
Proof.
  intros H.
  destruct e; cbn [step]; rewrite ?run_worldOf, ?runRoute_worldOf;
    [ by apply schemaValid_join | by apply schemaValid_sendMessage
    | by apply schemaValid_broadcastMessage | by apply schemaValid_typing
    | by apply schemaValid_disconnect | by apply schemaValid_deleteChannel_route
    | done ].
Qed.

Lemma schemaValid_perform w a : schemaValid w → schemaValid (perform w a).
Proof.
  intros H. destruct a as [e | r]; cbn [perform].
  - by apply schemaValid_step.
  - rewrite serve_worldOf. by apply schemaValid_route.
Qed.

Lemma schemaValid_lifetime w arrivals :
  schemaValid w → schemaValid (lifetime w arrivals).
Proof.
  intros H. unfold lifetime.
  assert (H0 : schemaValid (run initializeChannels w).1).
  { rewrite run_worldOf. by apply schemaValid_initializeChannels. }
  revert H0. generalize (run initializeChannels w).1.
  induction arrivals as [|a rest IH]; intros w0 H0; cbn [foldl]; [done |].
  apply IH. by apply schemaValid_perform.
Qed.

(** X18. The store stays within its schemas for the whole life of the process.
    Over a store in which every message, channel and voice channel passes
    the validators of its schema and channel and voice channel names are
    unique, start-up followed by any sequence of socket events, of changes
    of the time and of the failures of the store, and of requests to the
    routes that write, leaves such a store: no failure of a store call at
    any point lets an invalid document or a second channel of a name in. *)
Theorem schemas_hold_for_life w arrivals :
  schemaValid w → schemaValid (lifetime w arrivals).
Proof. apply schemaValid_lifetime. Qed.

Lemma schemaValid_emptyWorld fs : schemaValid (emptyWorld fs).
Proof.
  unfold schemaValid. cbn. split_and!; try apply Forall_nil_2; apply NoDup_nil_2.
Qed.

Lemma schemas_hold_for_life_witness :
  schemaValid (emptyWorld [false; true])
  ∧ schemaValid
      (lifetime (emptyWorld [false; true])
         [ inl (Join "s1" alice);
           inr (CreateChannel (Some "Memes") None);
           inl (Environment 5%Z [false; false; true]);
           inl (BroadcastMessage "s1" (say " gm " None));
           inr (DeleteMessage 3);
           inr (CreateVoiceChannel (Some "Lounge ") None None None) ]).
Proof.
  exact (conj (schemaValid_emptyWorld [false; true])
           (schemas_hold_for_life (emptyWorld [false; true]) _
              (schemaValid_emptyWorld [false; true]))).
Defined.

(** ** Roles *)

Ltac exec_roles :=
  unfold serveCreateRole, serveUpdateUserRole, createRole, updateUserRole,
    RoleModel.findOneByName, RoleModel.findById, RoleModel.new, RoleModel.save,
    RoleModel.preSave, findByIdAndUpdateRole in *;
  exec.

Lemma createRole_Created w name description roles w' body roles' :
  serveCreateRole w name description roles = (w', Created body, roles') →
  ∃ role,
    body = RoleCreated role
    ∧ roles' = roles ++ [role]
    ∧ r_id role = nextId w
    ∧ r_name role = RoleModel.castName (Js.toLowerCase (default "" name))
    ∧ r_name role ≠ ""
    ∧ find (fun r => String.eqb (r_name r) (r_name role)) roles = None
    ∧ r_description role
      = Js.orElse description ("Role for " ++ default "" name)
    ∧ r_isActive role = true
    ∧ nextId w' = S (nextId w)
    ∧ sameStores w w'.
Proof.
  intros Hrun. exec_roles. unfold sameStores.
  cases_of Hrun; simplify_eq.
  all: try congruence.
  all: eexists; split; [reflexivity |]; cbn.
  all: match goal with
       | H : RoleModel.validate _ = true |- _ =>
           unfold RoleModel.validate in H; cbn in H;
           apply negb_true_iff in H; apply String.eqb_neq in H
       end.
  all: by split_and!.
Qed.

(** X19. A [POST /api/roles] that answers 201 appended exactly one role, the
    one of the answer, under a new identifier: its name is the requested
    one in lower case and trimmed, is not empty and was not the name of a
    role; it is active, and described as asked or, when no description
    came, as the role for the name as it came. No user, message, channel
    or voice channel and no binding was touched. *)
Theorem createRole_appends_one w name description roles w' body roles' :
  serveCreateRole w name description roles = (w', Created body, roles') →
  ∃ role,
    body = RoleCreated role
    ∧ roles' = roles ++ [role]
    ∧ r_id role = nextId w
    ∧ r_name role = RoleModel.castName (Js.toLowerCase (default "" name))
    ∧ r_name role ≠ ""
    ∧ find (fun r => String.eqb (r_name r) (r_name role)) roles = None
    ∧ r_description role
      = Js.orElse description ("Role for " ++ default "" name)
    ∧ r_isActive role = true
    ∧ nextId w' = S (nextId w)
    ∧ sameStores w w'.
Proof. apply createRole_Created. Qed.

Lemma moderator_created :
  (serveCreateRole boot (Some " Moderator") None []).1.2
  = Created (RoleCreated (mkRole 9 "moderator" "Role for  Moderator" true
                                 0%Z 0%Z)).
Proof. vm_compute. reflexivity. Qed.

Lemma servedRole w name description roles reply :
  (serveCreateRole w name description roles).1.2 = reply →
  serveCreateRole w name description roles
  = ((serveCreateRole w name description roles).1.1, reply,
     (serveCreateRole w name description roles).2).
Proof.
  intros <-. by destruct (serveCreateRole w name description roles) as [[? ?] ?].
Qed.

Lemma createRole_appends_one_witness :
  (serveCreateRole boot (Some " Moderator") None []).1.2
  = Created (RoleCreated (mkRole 9 "moderator" "Role for  Moderator" true
                                 0%Z 0%Z))
  ∧ ∃ role,
      RoleCreated (mkRole 9 "moderator" "Role for  Moderator" true 0%Z 0%Z)
      = RoleCreated role
      ∧ (serveCreateRole boot (Some " Moderator") None []).2 = [] ++ [role]
      ∧ r_id role = nextId boot
      ∧ r_name role
        = RoleModel.castName (Js.toLowerCase (default "" (Some " Moderator")))
      ∧ r_name role ≠ ""
      ∧ find (fun r => String.eqb (r_name r) (r_name role)) [] = None
      ∧ r_description role
        = Js.orElse None ("Role for " ++ default "" (Some " Moderator"))
      ∧ r_isActive role = true
      ∧ nextId (serveCreateRole boot (Some " Moderator") None []).1.1
        = S (nextId boot)
      ∧ sameStores boot (serveCreateRole boot (Some " Moderator") None []).1.1.
Proof.
  exact (conj moderator_created
           (createRole_appends_one boot (Some " Moderator") None [] _ _ _
              (servedRole _ _ _ _ _ moderator_created))).
Defined.

(** X20. Once a role was created, the name is taken under every spelling that
    differs by capitals or by white space around it: a second
    [POST /api/roles] with such a name stores nothing; it answers 400 when
    its store call is answered and 500 when that call fails. *)
Theorem createRole_again_refused w name description roles w1 body roles1
    again description' :
  serveCreateRole w name description roles = (w1, Created body, roles1) →
  Js.truthy again = true →
  RoleModel.castName (Js.toLowerCase (default "" again))
  = RoleModel.castName (Js.toLowerCase (default "" name)) →
  (serveCreateRole w1 again description' roles1).2 = roles1
  ∧ sameStores w1 (serveCreateRole w1 again description' roles1).1.1
  ∧ (serveCreateRole w1 again description' roles1).1.2
    = match faults w1 with
      | true :: _ => Failed "Failed to create role"
      | _ => BadRequest "Role already exists"
      end.
Proof.
  intros Hcreated Htruthy Hsame.
  destruct (createRole_Created _ _ _ _ _ _ _ Hcreated)
    as (role & _ & -> & _ & Hname & _ & Hnew & _).
  assert (Hfound : find (fun r => String.eqb (r_name r)
                      (RoleModel.castName (Js.toLowerCase (default "" again))))
                     (roles ++ [role]) = Some role).
  { rewrite Hsame, <- Hname. apply find_app_new; [done |].
    apply String.eqb_refl. }
  unfold sameStores. exec_roles. rewrite Htruthy. cbn.
  destruct (faults w1) as [|[] fs]; cbn; rewrite ?Hfound; by cbn.
Qed.

Lemma createRole_again_refused_witness :
  ((serveCreateRole boot (Some " Moderator") None []).1.2
   = Created (RoleCreated (mkRole 9 "moderator" "Role for  Moderator" true
                                  0%Z 0%Z))
   ∧ Js.truthy (Some "MODERATOR  ") = true
   ∧ RoleModel.castName (Js.toLowerCase (default "" (Some "MODERATOR  ")))
     = RoleModel.castName (Js.toLowerCase (default "" (Some " Moderator"))))
  ∧ (serveCreateRole (serveCreateRole boot (Some " Moderator") None []).1.1
       (Some "MODERATOR  ") (Some "again")
       (serveCreateRole boot (Some " Moderator") None []).2).2
    = (serveCreateRole boot (Some " Moderator") None []).2
  ∧ sameStores (serveCreateRole boot (Some " Moderator") None []).1.1
      (serveCreateRole (serveCreateRole boot (Some " Moderator") None []).1.1
         (Some "MODERATOR  ") (Some "again")
         (serveCreateRole boot (Some " Moderator") None []).2).1.1
  ∧ (serveCreateRole (serveCreateRole boot (Some " Moderator") None []).1.1
       (Some "MODERATOR  ") (Some "again")
       (serveCreateRole boot (Some " Moderator") None []).2).1.2
    = match faults (serveCreateRole boot (Some " Moderator") None []).1.1 with
      | true :: _ => Failed "Failed to create role"
      | _ => BadRequest "Role already exists"
      end.
Proof.
  assert (H : RoleModel.castName (Js.toLowerCase (default "" (Some "MODERATOR  ")))
              = RoleModel.castName
                  (Js.toLowerCase (default "" (Some " Moderator"))))
    by (vm_compute; reflexivity).
  exact (conj (conj moderator_created (conj eq_refl H))
           (createRole_again_refused boot (Some " Moderator") None [] _ _ _
              (Some "MODERATOR  ") (Some "again")
              (servedRole _ _ _ _ _ moderator_created) eq_refl H)).
Defined.

Lemma rolesValid_createRole w name description roles :
  rolesValid w roles →
  rolesValid (serveCreateRole w name description roles).1.1
             (serveCreateRole w name description roles).2.
Proof.
  intros (Hnames & Hnd & Hids).
  destruct (serveCreateRole w name description roles) as [[w' reply] roles']
    eqn:Hrun.
  cbn [fst snd].
  assert (Hold : ∀ n : nat, (nextId w ≤ n)%nat →
            Forall (fun r => r_id r < n) roles).
  { intros n Hn. eapply Forall_impl; [exact Hids |]. cbn. lia. }
  exec_roles. unfold rolesValid.
  cases_of Hrun; simplify_eq; cbn.
  all: try (split_and!; [done | done | apply Hold; lia]).
  all: match goal with
       | H : RoleModel.validate _ = true |- _ =>
           unfold RoleModel.validate in H; cbn in H;
           apply negb_true_iff in H; apply String.eqb_neq in H
       end.
  all: split_and!.
  all: try (apply Forall_app; split; [| by repeat constructor]).
  all: try done.
  all: try (apply Hold; lia).
  all: by apply (NoDup_fmap_snoc r_name).
Qed.

(** X21. Whatever is posted to [/api/roles] and whichever store calls fail,
    role names stay unique and none is empty, and every role has an
    identifier that was handed out. *)
Theorem roles_stay_valid w name description roles :
  rolesValid w roles →
  rolesValid (serveCreateRole w name description roles).1.1
             (serveCreateRole w name description roles).2.
Proof. apply rolesValid_createRole. Qed.

Lemma rolesValid_nil w : rolesValid w [].
Proof. unfold rolesValid. split_and!; [done | apply NoDup_nil_2 | done]. Qed.

Lemma roles_stay_valid_witness :
  rolesValid boot []
  ∧ rolesValid (serveCreateRole boot (Some " Moderator") None []).1.1
               (serveCreateRole boot (Some " Moderator") None []).2.
Proof.
  exact (conj (rolesValid_nil boot)
           (roles_stay_valid boot (Some " Moderator") None []
              (rolesValid_nil boot))).
Defined.

(** *** Assigning a role *)

Lemma assignFirst_ids i role us :
  u_id <$> assignFirst i role us = u_id <$> us.
Proof.
  induction us as [|u r IH]; cbn; [done |].
  destruct (Nat.eqb (u_id u) i); cbn; by rewrite ?IH.
Qed.

Lemma elem_of_assignFirst i role us x :
  x ∈ assignFirst i role us →
  ∃ y, y ∈ us ∧ u_id x = u_id y ∧ u_isOnline x = u_isOnline y.
Proof.
  induction us as [|u r IH]; cbn; [by intros ?%elem_of_nil |].
  destruct (Nat.eqb (u_id u) i).
  - intros [-> | Hx]%elem_of_cons.
    + exists u. split_and!; [by left | done | done].
    + exists x. split_and!; [by right | done | done].
  - intros [-> | Hx]%elem_of_cons.
    + exists u. split_and!; [by left | done | done].
    + destruct (IH Hx) as (y & Hy & Hid & Hon). exists y.
      split_and!; [by right | done | done].
Qed.

Lemma assignFirst_upsert i role us old :
  lookupById u_id i us = Some old →
  assignFirst i role us = upsert u_id (assignRole role old) us.
Proof.
  unfold lookupById. induction us as [|u r IH]; cbn; [done |].
  rewrite upsert_cons. cbn.
  destruct (Nat.eqb_spec (u_id u) i) as [E | E].
  - intros [= ->]. by rewrite E, Nat.eqb_refl.
  - intros H. pose proof H as [_ Hid%Nat.eqb_eq]%find_some.
    rewrite Hid. apply Nat.eqb_neq in E. rewrite E. f_equal. by apply IH.
Qed.

Lemma updateUserRole_Ok w userId roleId roles w' user :
  serveUpdateUserRole w userId roleId roles = (w', Ok (RoleAssigned user)) →
  ∃ role old,
    roleId = Some (r_id role) ∧ role ∈ roles
    ∧ lookupById u_id userId (Users w) = Some old
    ∧ user = mkSelectedUser (u_id old) (u_username old) (u_avatar old)
                            (u_isOnline old) (u_lastSeen old)
                            (Some (r_name role))
    ∧ Users w'
      = upsert u_id
          (mkUser (u_id old) (u_username old) (u_walletAddress old)
                  (u_avatar old) (Some (r_name role)) (u_isOnline old)
                  (u_socketId old) (u_lastSeen old) (u_joinedAt old))
          (Users w)
    ∧ Messages w' = Messages w ∧ Channels w' = Channels w
    ∧ VoiceChannels w' = VoiceChannels w
    ∧ activeConnections w' = activeConnections w.
Proof.
  intros Hrun. exec_roles.
  cases_of Hrun; simplify_eq.
  all: match goal with
       | H : _ <$> (_ <$> lookupById u_id ?i (Users ?w0)) = Some _ |- _ =>
           destruct (lookupById u_id i (Users w0)) as [old|] eqn:Hold;
           cbn in H; simplify_eq
       end.
  all: match goal with
       | H : lookupById r_id _ _ = Some ?r |- _ =>
           apply lookupById_Some in H as [? <-]; exists r
       end.
  all: exists old; split_and!; try done.
  all: cbn; by apply assignFirst_upsert.
Qed.

(** X22. A [PUT /api/users/:id/role] that answers 200 gave the user of that
    identifier the name of the stored role of the identifier in the body.
    The answer is the selection of that user as updated: identifier,
    username, avatar, online flag and last-seen time as they were, and the
    new role; it has no wallet address and no connection. The user
    document is replaced in place, with the new role and its other fields
    here unchanged (the [updatedAt] that Mongoose may maintain is not
    among them), and neither another user nor a message, channel, voice
    channel or binding was touched. *)
Theorem updateUserRole_assigns w userId roleId roles w' user :
  serveUpdateUserRole w userId roleId roles = (w', Ok (RoleAssigned user)) →
  ∃ role old,
    roleId = Some (r_id role) ∧ role ∈ roles
    ∧ lookupById u_id userId (Users w) = Some old
    ∧ user = mkSelectedUser (u_id old) (u_username old) (u_avatar old)
                            (u_isOnline old) (u_lastSeen old)
                            (Some (r_name role))
    ∧ Users w'
      = upsert u_id
          (mkUser (u_id old) (u_username old) (u_walletAddress old)
                  (u_avatar old) (Some (r_name role)) (u_isOnline old)
                  (u_socketId old) (u_lastSeen old) (u_joinedAt old))
          (Users w)
    ∧ Messages w' = Messages w ∧ Channels w' = Channels w
    ∧ VoiceChannels w' = VoiceChannels w
    ∧ activeConnections w' = activeConnections w.
Proof. apply updateUserRole_Ok. Qed.

Lemma presence_updateUserRole w userId roleId roles :
  presenceInvariant w →
  presenceInvariant (serveUpdateUserRole w userId roleId roles).1.
Proof.
  intros [[Hnd Hlt] Hcons].
  assert (Hkeep : ∀ role n, (nextId w ≤ n)%nat →
            wellFormedUsers (assignFirst userId role (Users w)) n
            ∧ consistent (activeConnections w)
                         (assignFirst userId role (Users w))).
  { intros role n Hn. split; [split |].
    - by rewrite assignFirst_ids.
    - intros x (y & Hy & Hid & _)%elem_of_assignFirst. rewrite Hid.
      apply Hlt in Hy. lia.
    - intros x (y & Hy & Hid & Hon)%elem_of_assignFirst. rewrite Hid, Hon.
      by apply Hcons. }
  destruct (serveUpdateUserRole w userId roleId roles) as [w' reply] eqn:Hrun.
  cbn [fst]. exec_roles. unfold presenceInvariant, usersWellFormed,
    presenceConsistent.
  cases_of Hrun; simplify_eq; cbn.
  all: try (split; [by split | done]).
  all: by apply Hkeep.
Qed.

(** X23. Assigning roles does not disturb presence: whatever is put to
    [/api/users/:id/role] and whichever store call fails, user
    identifiers stay unique and every user is online exactly when a
    connection is bound to that user, when it was so before. *)
Theorem updateUserRole_keeps_presence w userId roleId roles :
  presenceInvariant w →
  presenceInvariant (serveUpdateUserRole w userId roleId roles).1.
Proof. apply presence_updateUserRole. Qed.

Lemma alice_moderates :
  (serveUpdateUserRole joined 9 (Some 20)
     [mkRole 20 "moderator" "Role for Moderator" true 0%Z 0%Z]).2
  = Ok (RoleAssigned (mkSelectedUser 9 "alice" None true 0%Z
                                     (Some "moderator"))).
Proof. vm_compute. reflexivity. Qed.

Lemma users_after_alice_moderates :
  Users (serveUpdateUserRole joined 9 (Some 20)
           [mkRole 20 "moderator" "Role for Moderator" true 0%Z 0%Z]).1
  = [ mkUser 0 "system" "0x0000000000000000000000000000000000000000"
             None None false None 0%Z 0%Z;
      mkUser 9 "alice" "0xAAA" None (Some "moderator") true (Some "s1")
             0%Z 0%Z ].
Proof. vm_compute. reflexivity. Qed.

Lemma updateUserRole_assigns_witness :
  (serveUpdateUserRole joined 9 (Some 20)
     [mkRole 20 "moderator" "Role for Moderator" true 0%Z 0%Z]).2
  = Ok (RoleAssigned (mkSelectedUser 9 "alice" None true 0%Z
                                     (Some "moderator")))
  ∧ (∃ role old,
       Some 20 = Some (r_id role)
       ∧ role ∈ [mkRole 20 "moderator" "Role for Moderator" true 0%Z 0%Z]
       ∧ lookupById u_id 9 (Users joined) = Some old
       ∧ mkSelectedUser 9 "alice" None true 0%Z (Some "moderator")
         = mkSelectedUser (u_id old) (u_username old) (u_avatar old)
                          (u_isOnline old) (u_lastSeen old)
                          (Some (r_name role))
       ∧ Users (serveUpdateUserRole joined 9 (Some 20)
                  [mkRole 20 "moderator" "Role for Moderator" true 0%Z 0%Z]).1
         = upsert u_id
             (mkUser (u_id old) (u_username old) (u_walletAddress old)
                     (u_avatar old) (Some (r_name role)) (u_isOnline old)
                     (u_socketId old) (u_lastSeen old) (u_joinedAt old))
             (Users joined)
       ∧ Messages (serveUpdateUserRole joined 9 (Some 20)
                     [mkRole 20 "moderator" "Role for Moderator" true 0%Z
                             0%Z]).1
         = Messages joined
       ∧ Channels (serveUpdateUserRole joined 9 (Some 20)
                     [mkRole 20 "moderator" "Role for Moderator" true 0%Z
                             0%Z]).1
         = Channels joined
       ∧ VoiceChannels
           (serveUpdateUserRole joined 9 (Some 20)
              [mkRole 20 "moderator" "Role for Moderator" true 0%Z 0%Z]).1
         = VoiceChannels joined
       ∧ activeConnections
           (serveUpdateUserRole joined 9 (Some 20)
              [mkRole 20 "moderator" "Role for Moderator" true 0%Z 0%Z]).1
         = activeConnections joined)
  ∧ Users (serveUpdateUserRole joined 9 (Some 20)
             [mkRole 20 "moderator" "Role for Moderator" true 0%Z 0%Z]).1
    = [ mkUser 0 "system" "0x0000000000000000000000000000000000000000"
               None None false None 0%Z 0%Z;
        mkUser 9 "alice" "0xAAA" None (Some "moderator") true (Some "s1")
               0%Z 0%Z ].
Proof.
  exact (conj alice_moderates
           (conj (updateUserRole_assigns joined 9 (Some 20)
                    [mkRole 20 "moderator" "Role for Moderator" true 0%Z 0%Z]
                    _ _
                    (eq_trans (surjective_pairing _)
                       (f_equal (pair _) alice_moderates)))
                 users_after_alice_moderates)).
Defined.

Lemma updateUserRole_keeps_presence_witness :
  presenceInvariant boot
  ∧ presenceInvariant
      (serveUpdateUserRole boot 0 (Some 20)
         [mkRole 20 "moderator" "Role for Moderator" true 0%Z 0%Z]).1.
Proof.
  exact (conj presenceInvariant_boot
           (updateUserRole_keeps_presence boot 0 (Some 20)
              [mkRole 20 "moderator" "Role for Moderator" true 0%Z 0%Z]
              presenceInvariant_boot)).
Defined.

(** ** Start-up of the first server against that of the second *)

Lemma initializeChannels_parts :
  initializeChannels
  = tryCatch
      (found ← UserModel.findOneByUsername "system";
       systemUser ← match found with
                    | Some u => ret u
                    | None => createSystemUser
                    end;
       forEach channels (ensureChannel (u_id systemUser)) ;;
       forEach defaultVoiceChannels (ensureVoiceChannel (u_id systemUser)))
      (ret tt).
Proof. reflexivity. Qed.

Lemma first_initializeChannels_parts :
  FirstServer.initializeChannels
  = tryCatch (forEach channels ensureChannelAndCreator) (ret tt).
Proof. reflexivity. Qed.

Lemma storeCall_calm w out : faults w = [] → storeCall w out = Done tt w out.
Proof. destruct w. cbn. intros ->. reflexivity. Qed.

Lemma findChannel_calm name w out :
  faults w = [] →
  ChannelModel.findOneByName name w out
  = Done (ChannelModel.firstNamed name (Channels w)) w out.
Proof.
  intros Hf. unfold ChannelModel.findOneByName.
  by rewrite (bind_Done _ _ _ _ _ _ _ (storeCall_calm w out Hf)).
Qed.

Lemma findSystem_calm w out :
  faults w = [] →
  UserModel.findOneByUsername "system" w out
  = Done (find (fun u => String.eqb (u_username u) "system") (Users w)) w out.
Proof.
  intros Hf. unfold UserModel.findOneByUsername.
  by rewrite (bind_Done _ _ _ _ _ _ _ (storeCall_calm w out Hf)).
Qed.

Lemma bind_ext_on {A B} (m : Handler A) (k1 k2 : A → Handler B) w out :
  (∀ a w1 out1, m w out = Done a w1 out1 → k1 a w1 out1 = k2 a w1 out1) →
  (m ≫= k1) w out = (m ≫= k2) w out.
Proof.
  intros H. unfold mbind, Handler_bind, bind.
  destruct (m w out) as [a w1 out1 | w1 out1]; [by apply H | done].
Qed.

Lemma bind_cong_l {A B} (m m' : Handler A) (k : A → Handler B) w out :
  m w out = m' w out → (m ≫= k) w out = (m' ≫= k) w out.
Proof. intros H. unfold mbind, Handler_bind, bind. by rewrite H. Qed.

Lemma bind_assoc {A B C} (m : Handler A) (f : A → Handler B)
    (g : B → Handler C) w out :
  ((m ≫= f) ≫= g) w out = (m ≫= fun a => f a ≫= g) w out.
Proof.
  unfold mbind, Handler_bind, bind. by destruct (m w out).
Qed.

(** With the user [system] stored, a turn of the first server's loop is
    a turn of the second's. *)
Lemma ensureChannelAndCreator_found name u w out :
  faults w = [] →
  find (fun u => String.eqb (u_username u) "system") (Users w) = Some u →
  ensureChannelAndCreator name w out = ensureChannel (u_id u) name w out.
Proof.
  intros Hf Hu. unfold ensureChannelAndCreator, ensureChannel.
  rewrite !(bind_Done _ _ _ _ _ _ _ (findChannel_calm name w out Hf)).
  destruct (ChannelModel.firstNamed name (Channels w)); [done |].
  rewrite (bind_Done _ _ _ _ _ _ _ (findSystem_calm w out Hf)), Hu.
  reflexivity.
Qed.

Lemma ensureChannel_frame creator name w out a w1 out1 :
  faults w = [] →
  ensureChannel creator name w out = Done a w1 out1 →
  faults w1 = [] ∧ Users w1 = Users w.
Proof.
  intros Hf Hrun. unfold ensureChannel, ChannelModel.findOneByName in Hrun.
  exec_routes. rewrite Hf in Hrun. cbn in Hrun.
  cases_of Hrun; by simplify_eq.
Qed.

Lemma forEach_cons {A} (x : A) (r : list A) (f : A → Handler unit) :
  forEach (x :: r) f = (f x ≫= fun _ => forEach r f).
Proof. reflexivity. Qed.

Lemma forEach_found u names : ∀ w out,
  faults w = [] →
  find (fun u => String.eqb (u_username u) "system") (Users w) = Some u →
  forEach names ensureChannelAndCreator w out
  = forEach names (ensureChannel (u_id u)) w out.
Proof.
  induction names as [|name rest IH]; intros w out Hf Hu; [done |].
  rewrite !forEach_cons.
  rewrite (bind_cong_l _ _ _ _ _ (ensureChannelAndCreator_found name u w out Hf Hu)).
  apply bind_ext_on. intros [] w1 out1 Hrun.
  destruct (ensureChannel_frame _ _ _ _ _ _ _ Hf Hrun) as [Hf1 Hu1].
  apply IH; [done | by rewrite Hu1].
Qed.

Lemma createSystemUser_runs w out :
  faults w = [] → usersWellFormed w →
  find (fun u => String.eqb (u_username u) "system") (Users w) = None →
  (∃ w', createSystemUser w out = Thrown w' out
         ∧ faults w' = [] ∧ sameStores w w' ∧ ¬ systemAvailable w)
  ∨ (∃ u w', createSystemUser w out = Done u w' out
             ∧ faults w' = [] ∧ usersWellFormed w'
             ∧ Users w' = Users w ++ [u] ∧ u_username u = "system"
             ∧ Channels w' = Channels w ∧ VoiceChannels w' = VoiceChannels w
             ∧ Messages w' = Messages w
             ∧ activeConnections w' = activeConnections w).
Proof.
  intros Hf Hwf Hnone.
  destruct (newSystem_runs w out Hf (lookupById_fresh w Hwf))
    as (w' & Hrun & Hf' & Hc & Hv & Hm & Ha & Hu).
  pose proof (systemAvailable_cases w Hnone) as Hav.
  pose proof (grows_newSystem w out Hwf) as (Hwf' & _).
  change (u ← UserModel.new "system"
                "0x0000000000000000000000000000000000000000"
                None None false None;
          UserModel.save u ;; ret u) with createSystemUser in Hrun, Hwf'.
  destruct (existsb _ (Users w)).
  - left. exists w'. split_and!; [done | done | by unfold sameStores |].
    intros Hyes. apply Hav in Hyes. done.
  - right. do 2 eexists. split; [exact Hrun |].
    rewrite Hrun in Hwf'. by split_and!.
Qed.

Lemma ensureChannel_skips creator name w out c :
  faults w = [] → ChannelModel.firstNamed name (Channels w) = Some c →
  ensureChannel creator name w out = Done tt w out.
Proof.
  intros Hf Hc. unfold ensureChannel.
  by rewrite (bind_Done _ _ _ _ _ _ _ (findChannel_calm name w out Hf)), Hc.
Qed.

Lemma ensureChannelAndCreator_skips name w out c :
  faults w = [] → ChannelModel.firstNamed name (Channels w) = Some c →
  ensureChannelAndCreator name w out = Done tt w out.
Proof.
  intros Hf Hc. unfold ensureChannelAndCreator.
  by rewrite (bind_Done _ _ _ _ _ _ _ (findChannel_calm name w out Hf)), Hc.
Qed.

(** Without the user [system], the turn of the first server's loop for a
    missing channel creates the user and then does the second's turn. *)
Lemma ensureChannelAndCreator_creates name w out :
  faults w = [] → usersWellFormed w →
  find (fun u => String.eqb (u_username u) "system") (Users w) = None →
  ChannelModel.firstNamed name (Channels w) = None →
  ensureChannelAndCreator name w out
  = (createSystemUser ≫= fun u => ensureChannel (u_id u) name) w out.
Proof.
  intros Hf Hwf Hnone Hc. unfold ensureChannelAndCreator.
  rewrite (bind_Done _ _ _ _ _ _ _ (findChannel_calm name w out Hf)), Hc.
  rewrite (bind_Done _ _ _ _ _ _ _ (findSystem_calm w out Hf)), Hnone.
  apply bind_ext_on. intros u w1 out1 Hrun.
  destruct (createSystemUser_runs w out Hf Hwf Hnone)
    as [(w' & Hthrown & _) | (u' & w' & Hdone & Hf1 & _ & _ & _ & Hc1 & _)];
    [congruence |].
  rewrite Hrun in Hdone. injection Hdone as <- <- _.
  unfold ensureChannel.
  by rewrite (bind_Done _ _ _ _ _ _ _ (findChannel_calm name w1 out1 Hf1)),
    Hc1, Hc.
Qed.

Lemma forEach_creates names : ∀ w out,
  faults w = [] → usersWellFormed w →
  find (fun u => String.eqb (u_username u) "system") (Users w) = None →
  (∃ name, name ∈ names ∧ ChannelModel.firstNamed name (Channels w) = None) →
  forEach names ensureChannelAndCreator w out
  = (createSystemUser ≫= fun u => forEach names (ensureChannel (u_id u)))
      w out.
Proof.
  induction names as [|name rest IH]; intros w out Hf Hwf Hnone Hmissing.
  { destruct Hmissing as (name & Hin & _). by apply elem_of_nil in Hin. }
  rewrite forEach_cons.
  destruct (ChannelModel.firstNamed name (Channels w)) as [c|] eqn:Hc.
  - rewrite (bind_Done _ _ _ _ _ _ _
               (ensureChannelAndCreator_skips name w out c Hf Hc)).
    rewrite IH; [| done | done | done |].
    + apply bind_ext_on. intros u w1 out1 Hrun.
      destruct (createSystemUser_runs w out Hf Hwf Hnone)
        as [(w' & Hthrown & _) | (u' & w' & Hdone & Hf1 & _ & _ & _ & Hc1 & _)];
        [congruence |].
      rewrite Hrun in Hdone. injection Hdone as <- <- _.
      rewrite forEach_cons.
      rewrite <- Hc1 in Hc.
      by rewrite (bind_Done _ _ _ _ _ _ _
                    (ensureChannel_skips (u_id u) name w1 out1 c Hf1 Hc)).
    + destruct Hmissing as (other & [-> | Hin]%elem_of_cons & Hno);
        [congruence | by exists other].
  - rewrite (bind_cong_l _ _ _ _ _
               (ensureChannelAndCreator_creates name w out Hf Hwf Hnone Hc)).
    rewrite bind_assoc. apply bind_ext_on. intros u w1 out1 Hrun.
    destruct (createSystemUser_runs w out Hf Hwf Hnone)
      as [(w' & Hthrown & _)
         | (u' & w' & Hdone & Hf1 & _ & Hu1 & Hname & _)];
      [congruence |].
    rewrite Hrun in Hdone. injection Hdone as <- <- _.
    rewrite forEach_cons. apply bind_ext_on. intros [] w2 out2 Hrun2.
    destruct (ensureChannel_frame _ _ _ _ _ _ _ Hf1 Hrun2) as [Hf2 Hu2].
    apply forEach_found; [done |].
    rewrite Hu2, Hu1. apply find_app_new; [done |].
    rewrite Hname. reflexivity.
Qed.

Lemma forEach_skips names : ∀ w out,
  faults w = [] →
  (∀ name, name ∈ names →
           is_Some (ChannelModel.firstNamed name (Channels w))) →
  forEach names ensureChannelAndCreator w out = Done tt w out.
Proof.
  induction names as [|name rest IH]; intros w out Hf Hall; [done |].
  destruct (Hall name) as [c Hc]; [by left |].
  rewrite forEach_cons.
  rewrite (bind_Done _ _ _ _ _ _ _
             (ensureChannelAndCreator_skips name w out c Hf Hc)).
  apply IH; [done |]. intros other Hin. apply Hall. by right.
Qed.

(** What the second server's start-up does after it has its creator. *)
Lemma ensureAll_runs creator w out :
  faults w = [] →
  ∃ w',
    (forEach channels (ensureChannel creator) ≫= fun _ =>
     forEach defaultVoiceChannels (ensureVoiceChannel creator)) w out
    = Done tt w' out
    ∧ Users w' = Users w
    ∧ Messages w' = Messages w ∧ activeConnections w' = activeConnections w
    ∧ ∃ w1, forEach channels (ensureChannel creator) w out = Done tt w1 out
            ∧ Channels w' = Channels w1 ∧ Users w1 = Users w
            ∧ Messages w1 = Messages w
            ∧ activeConnections w1 = activeConnections w.
Proof.
  intros Hf.
  destruct (ensureChannels_runs creator w out Hf)
    as (w1 & Hrun1 & Hf1 & Hu1 & _ & Hm1 & Ha1 & _).
  change (forEach channels (ensureChannel creator) w out = Done tt w1 out)
    in Hrun1.
  destruct (ensureVoiceChannels_runs creator w1 out Hf1)
    as (w2 & Hrun2 & _ & Hu2 & Hc2 & Hm2 & Ha2 & _).
  change (forEach defaultVoiceChannels (ensureVoiceChannel creator) w1 out
          = Done tt w2 out) in Hrun2.
  exists w2. rewrite (bind_Done _ _ _ _ _ _ _ Hrun1), Hrun2.
  split_and!; [done | congruence | congruence | congruence |].
  exists w1. by split_and!.
Qed.

Lemma startups_compared w :
  faults w = [] → usersWellFormed w →
  is_Some (find (fun u => String.eqb (u_username u) "system") (Users w))
  ∨ channelMissing w →
  sameButVoice (run initializeChannels w).1
               (run FirstServer.initializeChannels w).1.
Proof.
  intros Hf Hwf Hcase. unfold run, sameButVoice.
  rewrite initializeChannels_parts, first_initializeChannels_parts.
  unfold tryCatch.
  rewrite (bind_Done _ _ _ _ _ _ _ (findSystem_calm w [] Hf)).
  destruct (find (fun u => String.eqb (u_username u) "system") (Users w))
    as [u|] eqn:Hu.
  - rewrite (bind_Done (ret u) _ w [] u w [] eq_refl).
    rewrite (forEach_found u channels w [] Hf Hu).
    destruct (ensureAll_runs (u_id u) w [] Hf)
      as (w2 & Hrun & Hu2 & Hm2 & Ha2 & w1 & Hrun1 & Hc2 & Hu1 & Hm1 & Ha1).
    rewrite Hrun, Hrun1. cbn [fst]. split_and!; congruence.
  - destruct Hcase as [[? ?] | Hmissing]; [done |].
    rewrite (forEach_creates channels w [] Hf Hwf Hu Hmissing).
    destruct (createSystemUser_runs w [] Hf Hwf Hu)
      as [(w' & Hthrown & _) | (u & w' & Hdone & Hf' & _)].
    + rewrite !(bind_Thrown _ _ _ _ _ _ Hthrown). by cbn.
    + rewrite !(bind_Done _ _ _ _ _ _ _ Hdone).
      destruct (ensureAll_runs (u_id u) w' [] Hf')
        as (w2 & Hrun & Hu2 & Hm2 & Ha2 & w1 & Hrun1 & Hc2 & Hu1 & Hm1 & Ha1).
      rewrite Hrun, Hrun1. cbn [fst]. split_and!; congruence.
Qed.

(** X24. The two servers start alike. Over a store that does not fail, and
    when the user [system] is stored or a channel of the list is missing,
    the start-up of the first server leaves the users, the channels, the
    messages and the registry that the start-up of the second leaves,
    although it looks for the user, and creates it, only within its loop;
    the second also provides the voice channels. *)
Theorem startups_agree w :
  faults w = [] → usersWellFormed w →
  is_Some (find (fun u => String.eqb (u_username u) "system") (Users w))
  ∨ channelMissing w →
  sameButVoice (run initializeChannels w).1
               (run FirstServer.initializeChannels w).1.
Proof. apply startups_compared. Qed.

(** X25. They differ otherwise: when every channel of the list is stored and
    no user is named [system] or has its wallet address, the first server
    stores nothing at start-up, the second stores the user [system]. *)
Theorem startups_differ w :
  faults w = [] → usersWellFormed w →
  find (fun u => String.eqb (u_username u) "system") (Users w) = None →
  (∀ u, u ∈ Users w → u_walletAddress u ≠ systemWallet) →
  ¬ channelMissing w →
  sameStores w (run FirstServer.initializeChannels w).1
  ∧ ∃ u, Users (run initializeChannels w).1 = Users w ++ [u]
         ∧ u_username u = "system".
Proof.
  intros Hf Hwf Hu Hfree Hall. unfold run. split.
  - rewrite first_initializeChannels_parts. unfold tryCatch.
    rewrite (forEach_skips channels w [] Hf); [apply sameStores_refl |].
    intros name Hin.
    destruct (ChannelModel.firstNamed name (Channels w)) eqn:Hc; [done |].
    destruct Hall. by exists name.
  - rewrite initializeChannels_parts. unfold tryCatch.
    rewrite (bind_Done _ _ _ _ _ _ _ (findSystem_calm w [] Hf)), Hu.
    destruct (createSystemUser_runs w [] Hf Hwf Hu)
      as [(w' & _ & _ & _ & Hno)
         | (u & w' & Hdone & Hf' & _ & Hu' & Hname & _)].
    + destruct Hno. by right.
    + rewrite (bind_Done _ _ _ _ _ _ _ Hdone).
      destruct (ensureAll_runs (u_id u) w' [] Hf') as (w2 & Hrun & Hu2 & _).
      rewrite Hrun. cbn [fst]. exists u. by rewrite Hu2.
Qed.

Lemma usersWellFormed_emptyWorld fs : usersWellFormed (emptyWorld fs).
Proof.
  split; [apply NoDup_nil_2 |]. intros u Hu. by apply elem_of_nil in Hu.
Qed.

Lemma channelMissing_emptyWorld fs : channelMissing (emptyWorld fs).
Proof. exists "general". split; [by left | reflexivity]. Qed.

Lemma startups_agree_witness :
  (faults (emptyWorld []) = [] ∧ usersWellFormed (emptyWorld [])
   ∧ (is_Some (find (fun u => String.eqb (u_username u) "system")
                    (Users (emptyWorld [])))
      ∨ channelMissing (emptyWorld [])))
  ∧ sameButVoice (run initializeChannels (emptyWorld [])).1
                 (run FirstServer.initializeChannels (emptyWorld [])).1.
Proof.
  exact (conj (conj eq_refl
                 (conj (usersWellFormed_emptyWorld [])
                       (or_intror (channelMissing_emptyWorld []))))
           (startups_agree (emptyWorld []) eq_refl
              (usersWellFormed_emptyWorld [])
              (or_intror (channelMissing_emptyWorld [])))).
Defined.

Lemma faults_unowned : faults unowned = [].
Proof. reflexivity. Qed.

Lemma users_unowned : Users unowned = [].
Proof. reflexivity. Qed.

Lemma usersWellFormed_unowned : usersWellFormed unowned.
Proof.
  unfold usersWellFormed. rewrite users_unowned.
  split; [apply NoDup_nil_2 |]. intros u Hu. by apply elem_of_nil in Hu.
Qed.

Lemma nobody_unowned u :
  u ∈ Users unowned → u_walletAddress u ≠ systemWallet.
Proof. rewrite users_unowned. by intros ?%elem_of_nil. Qed.

Lemma channels_unowned name :
  name ∈ channels →
  ChannelModel.firstNamed name (Channels unowned) ≠ None.
Proof.
  intros Hin.
  repeat (apply elem_of_cons in Hin as [-> | Hin];
          [vm_compute; discriminate |]).
  by apply elem_of_nil in Hin.
Qed.

Lemma complete_unowned : ¬ channelMissing unowned.
Proof. intros (name & Hin & Hnone). by apply (channels_unowned name). Qed.

Lemma startups_differ_witness :
  (faults unowned = [] ∧ usersWellFormed unowned
   ∧ find (fun u => String.eqb (u_username u) "system") (Users unowned) = None
   ∧ (∀ u, u ∈ Users unowned → u_walletAddress u ≠ systemWallet)
   ∧ ¬ channelMissing unowned)
  ∧ sameStores unowned (run FirstServer.initializeChannels unowned).1
  ∧ ∃ u, Users (run initializeChannels unowned).1 = Users unowned ++ [u]
         ∧ u_username u = "system".
Proof.
  exact (conj (conj faults_unowned
                 (conj usersWellFormed_unowned
                    (conj eq_refl (conj nobody_unowned complete_unowned))))
           (startups_differ unowned faults_unowned usersWellFormed_unowned
              eq_refl nobody_unowned complete_unowned)).
Defined.
